(** * collie_recs: staged matrix-factorisation models

    Shallow embedding of
      - [collie_recs/model/cold_start_matrix_factorization.py] ([ColdStartModel])
      - [collie_recs/model/hybrid_pretrained_matrix_factorization.py]
        ([HybridPretrainedModel])
    and the properties of the bucket expansion, the stage switch, the forward
    scores, freezing and persistence.

    Conventions.
      - Python exceptions are values of [exn]; a call returns [result A].
      - Code that mutates [self] or prints runs in the monad [M S A]: a state
        transformer whose state survives a raised exception, as in Python.
      - Tensor entries are IEEE floats in the source.  They are kept abstract
        here: a type [F] with the operations of class [Scalar]. *)

From stdpp Require Import base list strings gmap sets pretty.
From Stdlib Require Import ZArith Lia Ascii.

Local Open Scope string_scope.
Local Open Scope Z_scope.

(** ** Exceptions and results *)

Inductive exn : Type :=
  | AssertionError (msg : string)
  | ValueError (msg : string)
  | IndexError
  | RuntimeError
  | KeyError (key : string)
  | UnboundLocalError (name : string)
  | AttributeError (name : string)
  | FileNotFoundError (path : string)
  | UnpicklingError.

Inductive result (A : Type) : Type :=
  | Ok (a : A)
  | Raise (e : exn).
Arguments Ok {A} a.
Arguments Raise {A} e.

#[export] Instance result_ret : MRet result := λ A a, Ok a.
#[export] Instance result_bind : MBind result := λ A B k r,
  match r with
  | Ok a => k a
  | Raise e => Raise e
  end.

(** [rmapM f l]: evaluate [f] on every element, left to right, stopping at the
    first exception. *)
Fixpoint rmapM {A B} (f : A → result B) (l : list A) : result (list B) :=
  match l with
  | [] => Ok []
  | a :: l' => b ← f a; bs ← rmapM f l'; Ok (b :: bs)
  end.

(** The state-and-exception monad of a method call on a mutable object: the
    state reached so far survives a raised exception. *)
Definition M (S A : Type) : Type := S → result A * S.

#[export] Instance M_ret {S} : MRet (M S) := λ A a s, (Ok a, s).
#[export] Instance M_bind {S} : MBind (M S) := λ A B k m s,
  match m s with
  | (Ok a, s') => k a s'
  | (Raise e, s') => (Raise e, s')
  end.
Definition raise {S A} (e : exn) : M S A := λ s, (Raise e, s).
Definition get {S} : M S S := λ s, (Ok s, s).
Definition modify {S} (f : S → S) : M S unit := λ s, (Ok tt, f s).
Definition lift {S A} (r : result A) : M S A := λ s, (r, s).

(** ** The tensor operations the two models use *)

Class Scalar (F : Type) : Type := {
  zero : F;
  add : F → F → F;
  mul : F → F → F;
  leaky_relu : F → F;
}.

#[export] Instance Scalar_Z : Scalar Z := {|
  zero := 0;
  add := Z.add;
  mul := Z.mul;
  leaky_relu := λ x, x;
|}.

Module torch.
(** A matrix is its list of rows. *)
Abbreviation matrix F := (list (list F)) (only parsing).

Section tensors.
Context {F : Type} `{Scalar F}.

Definition has_shape (n d : nat) (m : matrix F) : Prop :=
  length m = n ∧ Forall (λ r, length r = d) m.

(** Tensors of rank 0, 1 and 2.  A rank-2 tensor carries its shape, which
    its rows no longer show when one of the two sizes is 0. *)
Inductive Tensor : Type :=
  | T0 (x : F)
  | T1 (v : list F)
  | T2 (r c : nat) (m : matrix F).

Definition rank (t : Tensor) : nat :=
  match t with T0 _ => 0 | T1 _ => 1 | T2 _ _ _ => 2 end%nat.

Definition int64_min : Z := - 2 ^ 63.
Definition int64_max : Z := 2 ^ 63 - 1.

(** [torch.tensor(xs)] for a sequence of Python ints: an int64 vector. *)
Definition tensor (xs : list Z) : result (list Z) :=
  if forallb (λ x, (int64_min <=? x) && (x <=? int64_max)) xs
  then Ok xs else Raise RuntimeError.

(** [t[ids]] with an integer index tensor along the first axis: negative
    indices count from the end, anything else out of range is an error. *)
Definition index_one {A} (t : list A) (i : Z) : result A :=
  let n := Z.of_nat (length t) in
  let j := if i <? 0 then i + n else i in
  if (0 <=? j) && (j <? n)
  then match t !! Z.to_nat j with Some r => Ok r | None => Raise IndexError end
  else Raise IndexError.

Definition index {A} (t : list A) (ids : list Z) : result (list A) :=
  rmapM (index_one t) ids.

(** Broadcasting.  Shapes are aligned at the last axis; along an axis two
    sizes are compatible when they are equal or one of them is 1. *)
Definition bsize (a b : nat) : option nat :=
  if decide (a = b) then Some a
  else if decide (a = 1%nat) then Some b
  else if decide (b = 1%nat) then Some a
  else None.

Definition stretch {A} (n : nat) (l : list A) : list A :=
  if decide (length l = n) then l
  else match l with
       | [x] => replicate n x
       | _ => l
       end.

Definition expand (r c : nat) (m : matrix F) : matrix F :=
  stretch r (stretch c <$> m).

Definition as_rank2 (t : Tensor) : nat * nat * matrix F :=
  match t with
  | T0 x => (1, 1, [[x]])
  | T1 v => (1, length v, [v])
  | T2 r c m => (r, c, m)
  end%nat.

Definition of_rank2 (k : nat) (r c : nat) (m : matrix F) : Tensor :=
  match k with
  | 0%nat => match m with [[x]] => T0 x | _ => T2 r c m end
  | 1%nat => match m with [v] => T1 v | _ => T2 r c m end
  | _ => T2 r c m
  end.

(** An elementwise binary operation with broadcasting. *)
Definition pointwise (f : F → F → F) (a b : Tensor) : result Tensor :=
  let '(r1, c1, m1) := as_rank2 a in
  let '(r2, c2, m2) := as_rank2 b in
  match bsize r1 r2, bsize c1 c2 with
  | Some r, Some c =>
      Ok (of_rank2 (rank a `max` rank b) r c
            (zip_with (zip_with f) (expand r c m1) (expand r c m2)))
  | _, _ => Raise RuntimeError
  end.

Definition mul_ (a b : Tensor) : result Tensor := pointwise mul a b.
Definition add_ (a b : Tensor) : result Tensor := pointwise add a b.

Definition sum_list (v : list F) : F := foldl add zero v.

(** [t.sum(axis=1)] of a rank-2 tensor. *)
Definition sum_axis1 (t : Tensor) : result Tensor :=
  match t with
  | T2 r c m => Ok (T1 (sum_list <$> m))
  | _ => Raise IndexError
  end.

(** [t.squeeze(1)]: drops axis 1 when its size is 1, else leaves [t]. *)
Definition squeeze1 (t : Tensor) : result Tensor :=
  match t with
  | T2 r c m => Ok (if decide (c = 1%nat) then T1 (concat m) else t)
  | _ => Raise IndexError
  end.

(** [t.squeeze()]: drops every axis of size 1. *)
Definition squeeze (t : Tensor) : Tensor :=
  match t with
  | T0 x => T0 x
  | T1 v => match v with [x] => T0 x | _ => T1 v end
  | T2 r c m =>
      if decide (r = 1%nat) then
        match concat m with
        | [x] => if decide (c = 1%nat) then T0 x else T1 (concat m)
        | v => T1 v
        end
      else if decide (c = 1%nat) then T1 (concat m)
      else t
  end.

(** [torch.cat(ts, 1)] of rank-2 tensors with the same number of rows. *)
Fixpoint cat1 (ts : list Tensor) : result Tensor :=
  match ts with
  | [] => Raise RuntimeError
  | [T2 r c m] => Ok (T2 r c m)
  | T2 r c m :: ts' =>
      t' ← cat1 ts';
      match t' with
      | T2 r' c' m' =>
          if decide (r = r') then Ok (T2 r (c + c') (zip_with app m m'))
          else Raise RuntimeError
      | _ => Raise RuntimeError
      end
  | _ => Raise RuntimeError
  end.

(** An elementwise function, [F.leaky_relu] for one. *)
Definition map_entries (f : F → F) (t : Tensor) : Tensor :=
  match t with
  | T0 x => T0 (f x)
  | T1 v => T1 (f <$> v)
  | T2 r c m => T2 r c ((λ row : list F, f <$> row) <$> m)
  end.

(** [t[ids, :]] on a rank-2 tensor. *)
Definition index_rows (t : Tensor) (ids : list Z) : result Tensor :=
  match t with
  | T2 r c m => rows ← index m ids; Ok (T2 (length ids) c rows)
  | _ => Raise IndexError
  end.

(** [dst.copy_(src)] on rank-2 tensors, [dst] of shape [(n, d)] and [src]
    of shape [(k, c)]: [src] is broadcast to the shape of [dst], whose
    former entries are all overwritten.  The new contents of [dst] are
    returned. *)
Definition copy_ (n d : nat) (k c : nat) (src : matrix F) : result (matrix F) :=
  if decide ((k = n ∨ k = 1%nat) ∧ (c = d ∨ c = 1%nat)) then
    Ok (expand n d src)
  else Raise RuntimeError.
End tensors.
Global Arguments Tensor F : clear implicits.
End torch.

Module nn.
(** [nn.Parameter]: a tensor and its gradient-tracking flag. *)
Record Param (T : Type) : Type := {
  data : T;
  requires_grad : bool;
}.
Arguments data {T} _.
Arguments requires_grad {T} _.

Section modules.
Context {F : Type}.

(** [nn.Embedding]: a table of [num_embeddings] rows of width
    [embedding_dim]. *)
Record Embedding : Type := {
  num_embeddings : nat;
  embedding_dim : nat;
  weight : Param (torch.matrix F);
}.

Definition wf_embedding (e : Embedding) : Prop :=
  torch.has_shape (num_embeddings e) (embedding_dim e) (data (weight e)).

Definition set_data {T} (p : Param T) (x : T) : Param T :=
  {| data := x; requires_grad := requires_grad p |}.

Definition set_weight_data (e : Embedding) (m : torch.matrix F) : Embedding :=
  {| num_embeddings := num_embeddings e;
     embedding_dim := embedding_dim e;
     weight := set_data (weight e) m |}.

(** [e(ids)]: the embedding lookup.  Unlike tensor indexing, a negative id
    is out of range. *)
Definition lookup_one (e : Embedding) (i : Z) : result (list F) :=
  if (0 <=? i) && (i <? Z.of_nat (num_embeddings e))
  then match data (weight e) !! Z.to_nat i with
       | Some r => Ok r
       | None => Raise IndexError
       end
  else Raise IndexError.

Definition lookup (e : Embedding) (ids : list Z) : result (torch.Tensor F) :=
  rows ← rmapM (lookup_one e) ids;
  Ok (torch.T2 (length ids) (embedding_dim e) rows).

Definition set_requires_grad (b : bool) (e : Embedding) : Embedding :=
  {| num_embeddings := num_embeddings e;
     embedding_dim := embedding_dim e;
     weight := {| data := data (weight e); requires_grad := b |} |}.

(** [nn.Linear]: [y = x W^T + b], [W] of shape [(out_features, in_features)]. *)
Record Linear : Type := {
  in_features : nat;
  out_features : nat;
  lin_weight : Param (torch.matrix F);
  lin_bias : Param (list F);
}.

Definition affine `{Scalar F} (l : Linear) (x : list F) : list F :=
  zip_with add ((λ w, torch.sum_list (zip_with mul x w)) <$> data (lin_weight l))
           (data (lin_bias l)).

Definition linear `{Scalar F} (l : Linear) (t : torch.Tensor F) : result (torch.Tensor F) :=
  match t with
  | torch.T2 n c m =>
      if decide (c = in_features l)
      then Ok (torch.T2 n (out_features l) (affine l <$> m))
      else Raise RuntimeError
  | torch.T1 v =>
      if decide (length v = in_features l)
      then Ok (torch.T1 (affine l v))
      else Raise RuntimeError
  | torch.T0 _ => Raise RuntimeError
  end.
End modules.
Global Arguments Embedding F : clear implicits.
Global Arguments Linear F : clear implicits.
End nn.

(** ** Python formatting used in messages *)

(** [str(x)] of a 0-d integer tensor. *)
Definition str_tensor0 (x : Z) : string := "tensor(" +:+ pretty x +:+ ")".

(** [repr(s)] of a [str] that holds no quote, backslash or control
    character, which are the strings [repr] leaves as they are. *)
Definition repr_str (s : string) : string := "'" +:+ s +:+ "'".

Fixpoint join (sep : string) (l : list string) : string :=
  match l with
  | [] => ""
  | [s] => s
  | s :: l' => s +:+ sep +:+ join sep l'
  end.

(** [str(l)] of a list of [str]. *)
Definition str_list (l : list string) : string :=
  "[" +:+ join ", " (repr_str <$> l) +:+ "]".

(** [sub in s] on [str]. *)
Fixpoint starts_with (sub s : string) : bool :=
  match sub, s with
  | "", _ => true
  | String a sub', String b s' => bool_decide (a = b) && starts_with sub' s'
  | String _ _, "" => false
  end.

Fixpoint contains (sub s : string) : bool :=
  starts_with sub s
  || match s with
     | "" => false
     | String _ s' => contains sub s'
     end.

(** Decimal digits, the characters of [str(i)] for a natural number [i]. *)
Definition is_digit (c : ascii) : bool :=
  (48 <=? nat_of_ascii c)%nat && (nat_of_ascii c <=? 57)%nat.

Fixpoint all_digits (s : string) : bool :=
  match s with
  | "" => true
  | String c s' => is_digit c && all_digits s'
  end.

Definition head_char (s : string) : option ascii :=
  match s with
  | "" => None
  | String c _ => Some c
  end.

(** [d.get(k)] on an ordered dictionary with [str] keys. *)
Fixpoint assoc {A} (k : string) (l : list (string * A)) : option A :=
  match l with
  | [] => None
  | (k', a) :: l' => if decide (k' = k) then Some a else assoc k l'
  end.

(** [os.path.join(a, b)] for a relative [b]. *)
Fixpoint ends_with_slash (a : string) : bool :=
  match a with
  | "" => false
  | String c "" => bool_decide (c = "/"%char)
  | String _ a' => ends_with_slash a'
  end.

Definition path_join (a b : string) : string :=
  if bool_decide (a = "") then b
  else if ends_with_slash a then a +:+ b
  else a +:+ "/" +:+ b.

(** [min(xs)] and [max(xs)] of a sequence of integers. *)
Definition py_min (xs : list Z) : result Z :=
  match xs with
  | [] => Raise (ValueError "min() arg is an empty sequence")
  | x :: xs' => Ok (foldl Z.min x xs')
  end.

Definition tensor_max (xs : list Z) : result Z :=
  match xs with
  | [] => Raise RuntimeError
  | x :: xs' => Ok (foldl Z.max x xs')
  end.

(** The two attributes of the training [Interactions] that the models read. *)
Module Interactions.
Record t : Type := {
  num_users : nat;
  num_items : nat;
}.
End Interactions.

(** ** collie_recs.model.base *)

Module base.
Section embeddings.
Context {F : Type} `{Scalar F}.

(** Modelled from the spec: [ZeroEmbedding] and [ScaledEmbedding], which are
    not in the sources at hand.  A bias table starts all-zero; a latent table
    starts from scaled random draws, given here as the function [draw] from
    positions to entries. *)
Definition ZeroEmbedding (num_embeddings embedding_dim : nat) : nn.Embedding F :=
  {| nn.num_embeddings := num_embeddings;
     nn.embedding_dim := embedding_dim;
     nn.weight := {| nn.data := replicate num_embeddings (replicate embedding_dim zero);
                     nn.requires_grad := true |} |}.

Definition ScaledEmbedding (draw : nat → nat → F) (num_embeddings embedding_dim : nat)
    : nn.Embedding F :=
  {| nn.num_embeddings := num_embeddings;
     nn.embedding_dim := embedding_dim;
     nn.weight := {| nn.data := (λ i, draw i <$> seq 0 embedding_dim) <$> seq 0 num_embeddings;
                     nn.requires_grad := true |} |}.
End embeddings.
End base.

(** ** ColdStartModel *)

Module ColdStartModel.

Record HParams : Type := {
  stage : string;
  stage_list : list string;
  item_buckets : list Z;
  num_users : nat;
  num_items : nat;
  num_item_buckets : nat;
  embedding_dim : nat;
  sparse : bool;
}.

(** What [__init__] hands to [MultiStagePipeline.__init__] besides its own
    arguments. *)
Record InitArguments : Type := {
  init_stage : string;
  init_stages : list string;
  init_item_buckets : list Z;
  init_num_item_buckets : Z;
}.

(** [ColdStartModel.__init__] with [load_model_path = None], up to the call
    of [super().__init__].  [item_buckets] is an [Iterable[int]], so the
    tensor built from it has one axis.  The two sets of the coverage test are
    compared as sets of values, which is the most that test can accept: the
    elements of [set(item_buckets)] are 0-d tensors, and where these are
    hashed by identity the test accepts less still, never more. *)
Definition __init__ (train : Interactions.t) (item_buckets : list Z)
    : result InitArguments :=
  let optimizer_config_list := ["item_buckets"; "no_buckets"] in
  let stage := "item_buckets" in
  item_buckets ← torch.tensor item_buckets;
  let dim := 1%nat in
  if negb (bool_decide (dim = 1%nat)) then
    Raise (AssertionError ("``item_buckets`` must be 1-dimensional, not "
                           +:+ pretty dim +:+ "-dimensional!"))
  else if bool_decide (length item_buckets ≠ Interactions.num_items train) then
    Raise (ValueError
      ("Length of ``item_buckets`` must be equal to the number of items in the dataset: "
       +:+ pretty (length item_buckets) +:+ " != "
       +:+ pretty (Interactions.num_items train) +:+ "."))
  else
    lo ← py_min item_buckets;
    if bool_decide (lo ≠ 0) then
      Raise (ValueError ("``item_buckets`` IDs must start at 0, not "
                         +:+ str_tensor0 lo +:+ "!"))
    else if bool_decide ((list_to_set item_buckets : gset Z)
                         ≠ list_to_set (seqZ 0 (Z.of_nat (Interactions.num_users train)))) then
      Raise (ValueError
        ("``item_buckets`` must contain every integer between 0 and "
         +:+ pretty (Z.of_nat (Interactions.num_users train) - 1) +:+ "."))
    else
      hi ← tensor_max item_buckets;
      let num_item_buckets := hi + 1 in
      Ok {| init_stage := stage;
            init_stages := optimizer_config_list;
            init_item_buckets := item_buckets;
            init_num_item_buckets := num_item_buckets |}.

(** The assignment as the data model describes it: one bucket id per item,
    the smallest id 0, and every integer up to the largest id in use. *)
Definition valid_item_buckets (num_items : nat) (item_buckets : list Z) : Prop :=
  length item_buckets = num_items
  ∧ item_buckets ≠ []
  ∧ (∀ b, b ∈ item_buckets → 0 ≤ b)
  ∧ 0 ∈ item_buckets
  ∧ (∀ b k, b ∈ item_buckets → 0 ≤ k ≤ b → k ∈ item_buckets).

Definition docstring_item_buckets : list Z := [1; 0; 2; 2; 1].

Section model.
Context {F : Type} `{Scalar F}.

(** [nn.Dropout]: the identity outside training; in training the [k]-th call
    applies the [k]-th random mask, [mask k]. *)
Variable mask : nat → torch.Tensor F → torch.Tensor F.

Definition dropout (training : bool) (k : nat) (t : torch.Tensor F) : torch.Tensor F :=
  if training then mask k t else t.

Record Model : Type := {
  hparams : HParams;
  item_bucket_biases : nn.Embedding F;
  item_bucket_embeddings : nn.Embedding F;
  user_biases : nn.Embedding F;
  item_biases : nn.Embedding F;
  user_embeddings : nn.Embedding F;
  item_embeddings : nn.Embedding F;
  training : bool;
}.

(** The embedding tables are objects; a method that receives two of them
    receives two references, which are the names of the attributes here. *)
Inductive attr : Type :=
  | attr_item_bucket_biases
  | attr_item_bucket_embeddings
  | attr_user_biases
  | attr_item_biases
  | attr_user_embeddings
  | attr_item_embeddings.

#[export] Instance attr_eq_dec : EqDecision attr.
Proof. solve_decision. Defined.

Definition getattr (a : attr) (m : Model) : nn.Embedding F :=
  match a with
  | attr_item_bucket_biases => item_bucket_biases m
  | attr_item_bucket_embeddings => item_bucket_embeddings m
  | attr_user_biases => user_biases m
  | attr_item_biases => item_biases m
  | attr_user_embeddings => user_embeddings m
  | attr_item_embeddings => item_embeddings m
  end.

Definition update (a : attr) (e : nn.Embedding F) (m : Model) : Model :=
  let pick b := if decide (a = b) then e else getattr b m in
  {| hparams := hparams m;
     item_bucket_biases := pick attr_item_bucket_biases;
     item_bucket_embeddings := pick attr_item_bucket_embeddings;
     user_biases := pick attr_user_biases;
     item_biases := pick attr_item_biases;
     user_embeddings := pick attr_user_embeddings;
     item_embeddings := pick attr_item_embeddings;
     training := training m |}.

Definition set_hparams_stage (stage : string) (m : Model) : Model :=
  {| hparams := {| stage := stage;
                   stage_list := stage_list (hparams m);
                   item_buckets := item_buckets (hparams m);
                   num_users := num_users (hparams m);
                   num_items := num_items (hparams m);
                   num_item_buckets := num_item_buckets (hparams m);
                   embedding_dim := embedding_dim (hparams m);
                   sparse := sparse (hparams m) |};
     item_bucket_biases := item_bucket_biases m;
     item_bucket_embeddings := item_bucket_embeddings m;
     user_biases := user_biases m;
     item_biases := item_biases m;
     user_embeddings := user_embeddings m;
     item_embeddings := item_embeddings m;
     training := training m |}.

(** The state a method runs in: the object and what has been printed. *)
Record World : Type := {
  self : Model;
  stdout : list string;
}.

Definition on_self (f : Model → Model) (w : World) : World :=
  {| self := f (self w); stdout := stdout w |}.

Definition printed (line : string) (w : World) : World :=
  {| self := self w; stdout := stdout w ++ [line] |}.

Definition print (line : string) : M World unit := modify (printed line).

(** [new.weight.data.copy_(old.weight.data[buckets])] *)
Definition _copy_weights (old new : attr) (buckets : list Z) : M World unit :=
  w ← get;
  let o := getattr old (self w) in
  let n := getattr new (self w) in
  src ← lift (torch.index (nn.data (nn.weight o)) buckets);
  dst ← lift (torch.copy_ (nn.num_embeddings n) (nn.embedding_dim n)
                          (length buckets) (nn.embedding_dim o) src);
  modify (on_self (λ m, update new (nn.set_weight_data (getattr new m) dst) m)).

Definition set_stage (stage : string) : M World unit :=
  w ← get;
  let current_stage := ColdStartModel.stage (hparams (self w)) in
  (if bool_decide (stage ∈ stage_list (hparams (self w))) then
     if bool_decide (current_stage = "item_buckets") && bool_decide (stage = "no_buckets")
     then
       print "item embeddings initialized";;
       _copy_weights attr_item_bucket_biases attr_item_biases
                     (item_buckets (hparams (self w)));;
       _copy_weights attr_item_bucket_embeddings attr_item_embeddings
                     (item_buckets (hparams (self w)))
     else mret ()
   else
     raise (ValueError (stage +:+ " is not a valid stage, please choose one of "
                        +:+ str_list (stage_list (hparams (self w))))));;
  modify (on_self (set_hparams_stage stage));;
  print ("set to stage " +:+ stage).

(** The state [set_stage] leaves when it reaches its last two lines. *)
Definition staged (stage : string) (w : World) : World :=
  printed ("set to stage " +:+ stage) (on_self (set_hparams_stage stage) w).

(** [_setup_model]: the six tables, shaped by the hyperparameters. *)
Definition _setup_model (hp : HParams) (draw_bucket draw_user draw_item : nat → nat → F)
    : Model :=
  {| hparams := hp;
     item_bucket_biases := base.ZeroEmbedding (num_item_buckets hp) 1;
     item_bucket_embeddings :=
       base.ScaledEmbedding draw_bucket (num_item_buckets hp) (embedding_dim hp);
     user_biases := base.ZeroEmbedding (num_users hp) 1;
     item_biases := base.ZeroEmbedding (num_items hp) 1;
     user_embeddings := base.ScaledEmbedding draw_user (num_users hp) (embedding_dim hp);
     item_embeddings := base.ScaledEmbedding draw_item (num_items hp) (embedding_dim hp);
     training := true |}.

Definition forward (m : Model) (users items : list Z) : result (torch.Tensor F) :=
  user_embeddings ← nn.lookup (user_embeddings m) users;
  user_biases ← nn.lookup (user_biases m) users;
  '(item_embeddings, item_biases) ←
    (if bool_decide (stage (hparams m) = "item_buckets") then
       items ← torch.index (item_buckets (hparams m)) items;
       item_embeddings ← nn.lookup (item_bucket_embeddings m) items;
       item_biases ← nn.lookup (item_bucket_biases m) items;
       Ok (item_embeddings, item_biases)
     else if bool_decide (stage (hparams m) = "no_buckets") then
       item_embeddings ← nn.lookup (item_embeddings m) items;
       item_biases ← nn.lookup (item_biases m) items;
       Ok (item_embeddings, item_biases)
     else Raise (UnboundLocalError "item_embeddings"));
  product ← torch.mul_ (dropout (training m) 0 user_embeddings)
                        (dropout (training m) 1 item_embeddings);
  dot ← torch.sum_axis1 product;
  user_biases ← torch.squeeze1 user_biases;
  item_biases ← torch.squeeze1 item_biases;
  partial ← torch.add_ dot user_biases;
  pred_scores ← torch.add_ partial item_biases;
  Ok (torch.squeeze pred_scores).

(** [_get_item_embeddings]: the item table read at [arange(num_items)]. *)
Definition _get_item_embeddings (m : Model) : result (torch.Tensor F) :=
  nn.lookup (item_embeddings m) (seqZ 0 (Z.of_nat (num_items (hparams m)))).

(** The shapes [_setup_model] gives the tables and [__init__] checked on the
    assignment; training changes entries, never shapes. *)
Record wf_model (m : Model) : Prop := {
  wf_item_buckets_length : length (item_buckets (hparams m)) = num_items (hparams m);
  wf_item_buckets_range :
    Forall (λ b, 0 ≤ b < Z.of_nat (num_item_buckets (hparams m))) (item_buckets (hparams m));
  wf_item_bucket_biases :
    nn.wf_embedding (item_bucket_biases m)
    ∧ nn.num_embeddings (item_bucket_biases m) = num_item_buckets (hparams m)
    ∧ nn.embedding_dim (item_bucket_biases m) = 1%nat;
  wf_item_bucket_embeddings :
    nn.wf_embedding (item_bucket_embeddings m)
    ∧ nn.num_embeddings (item_bucket_embeddings m) = num_item_buckets (hparams m)
    ∧ nn.embedding_dim (item_bucket_embeddings m) = embedding_dim (hparams m);
  wf_user_biases :
    nn.wf_embedding (user_biases m)
    ∧ nn.num_embeddings (user_biases m) = num_users (hparams m)
    ∧ nn.embedding_dim (user_biases m) = 1%nat;
  wf_item_biases :
    nn.wf_embedding (item_biases m)
    ∧ nn.num_embeddings (item_biases m) = num_items (hparams m)
    ∧ nn.embedding_dim (item_biases m) = 1%nat;
  wf_user_embeddings :
    nn.wf_embedding (user_embeddings m)
    ∧ nn.num_embeddings (user_embeddings m) = num_users (hparams m)
    ∧ nn.embedding_dim (user_embeddings m) = embedding_dim (hparams m);
  wf_item_embeddings :
    nn.wf_embedding (item_embeddings m)
    ∧ nn.num_embeddings (item_embeddings m) = num_items (hparams m)
    ∧ nn.embedding_dim (item_embeddings m) = embedding_dim (hparams m);
}.

(** The score of the data model: the sum over the latent axis of the
    products of the two latent vectors, plus the two biases. *)
Definition score (user_latent item_latent : list F) (user_bias item_bias : F) : F :=
  add (add (torch.sum_list (zip_with mul user_latent item_latent)) user_bias) item_bias.

(** The scores of a batch, from the rows looked up for it: user and item
    latent rows [UE], [IE] and bias columns [UB], [IB]. *)
Definition scores_of (UE IE UB IB : torch.matrix F) : list F :=
  zip_with add
    (zip_with add (torch.sum_list <$> zip_with (zip_with mul) UE IE) (concat UB))
    (concat IB).

(** The item side of [forward]: which table is read, and at which row. *)
Definition item_rows (m : Model) (i : Z) (latent : list F) (bias : F) : Prop :=
  (stage (hparams m) = "item_buckets" →
   ∃ b, item_buckets (hparams m) !! Z.to_nat i = Some b
        ∧ nn.data (nn.weight (item_bucket_embeddings m)) !! Z.to_nat b = Some latent
        ∧ nn.data (nn.weight (item_bucket_biases m)) !! Z.to_nat b = Some [bias])
  ∧ (stage (hparams m) = "no_buckets" →
     nn.data (nn.weight (item_embeddings m)) !! Z.to_nat i = Some latent
     ∧ nn.data (nn.weight (item_biases m)) !! Z.to_nat i = Some [bias]).

End model.
Arguments Model F : clear implicits.
Arguments World F : clear implicits.

(** The assignment of the docstring, five films in three genres, on
    integer-valued tables of width 1. *)
Definition table (rows : list (list Z)) : nn.Embedding Z :=
  {| nn.num_embeddings := length rows;
     nn.embedding_dim := 1;
     nn.weight := {| nn.data := rows; nn.requires_grad := true |} |}.

Definition docstring_model : Model Z :=
  {| hparams := {| stage := "item_buckets";
                   stage_list := ["item_buckets"; "no_buckets"];
                   item_buckets := docstring_item_buckets;
                   num_users := 2;
                   num_items := 5;
                   num_item_buckets := 3;
                   embedding_dim := 1;
                   sparse := false |};
     item_bucket_biases := table [[4]; [5]; [6]];
     item_bucket_embeddings := table [[9]; [8]; [7]];
     user_biases := table [[10]; [20]];
     item_biases := table [[0]; [0]; [0]; [0]; [0]];
     user_embeddings := table [[2]; [3]];
     item_embeddings := table [[1]; [1]; [1]; [1]; [1]];
     training := false |}.

Definition docstring_world : World Z := {| self := docstring_model; stdout := [] |}.

(** The model of the docstring with an item latent table of four rows, one
    fewer than there are items. *)
Definition short_item_table_world : World Z :=
  on_self (update attr_item_embeddings (table [[1]; [1]; [1]; [1]])) docstring_world.

End ColdStartModel.

(** ** HybridPretrainedModel *)

(** What the hybrid model reads of a trained [MatrixFactorizationModel]: its
    two latent tables, and its own parameter-state mapping, of which only the
    names matter here. *)
Module MatrixFactorizationModel.
Record t (F : Type) : Type := {
  user_embeddings : nn.Embedding F;
  item_embeddings : nn.Embedding F;
  state_dict : list (string * torch.Tensor F);
}.
Arguments user_embeddings {F} _.
Arguments item_embeddings {F} _.
Arguments state_dict {F} _.
End MatrixFactorizationModel.

Module HybridPretrainedModel.
Section model.
Context {F : Type} `{Scalar F}.

(** The hyperparameters that the code at hand reads or writes.
    [freeze_embeddings_] is [hparams.freeze_embeddings]; the underscore tells
    it from the method of that name. *)
Record HParams : Type := {
  load_model_path : option string;
  freeze_embeddings_ : bool;
  dropout_p : F;
  item_metadata_num_cols : nat;
  metadata_layers_dims : option (list nat);
  combined_layers_dims : list nat;
  num_items : nat;
  user_num_embeddings : nat;
  user_embeddings_dim : nat;
  item_num_embeddings : nat;
  item_embeddings_dim : nat;
}.

Definition set_embedding_shapes (hp : HParams) (un ud inn id : nat) : HParams :=
  {| load_model_path := load_model_path hp;
     freeze_embeddings_ := freeze_embeddings_ hp;
     dropout_p := dropout_p hp;
     item_metadata_num_cols := item_metadata_num_cols hp;
     metadata_layers_dims := metadata_layers_dims hp;
     combined_layers_dims := combined_layers_dims hp;
     num_items := num_items hp;
     user_num_embeddings := un;
     user_embeddings_dim := ud;
     item_num_embeddings := inn;
     item_embeddings_dim := id |}.

Definition set_load_model_path (hp : HParams) (path : string) : HParams :=
  {| load_model_path := Some path;
     freeze_embeddings_ := freeze_embeddings_ hp;
     dropout_p := dropout_p hp;
     item_metadata_num_cols := item_metadata_num_cols hp;
     metadata_layers_dims := metadata_layers_dims hp;
     combined_layers_dims := combined_layers_dims hp;
     num_items := num_items hp;
     user_num_embeddings := user_num_embeddings hp;
     user_embeddings_dim := user_embeddings_dim hp;
     item_num_embeddings := item_num_embeddings hp;
     item_embeddings_dim := item_embeddings_dim hp |}.

(** The random draws of the initialisers: entry [(i, j)] of the [k]-th dummy
    table, entry [(i, j)] of the weight and entry [i] of the bias of the layer
    of a given name. *)
Record Rng : Type := {
  draw_embedding : nat → nat → nat → F;
  draw_weight : string → nat → nat → F;
  draw_bias : string → nat → F;
}.

(** [nn.Linear(d_in, d_out)] followed by [nn.init.xavier_normal_] on its
    weight. *)
Definition new_linear (rng : Rng) (name : string) (d_in d_out : nat) : nn.Linear F :=
  {| nn.in_features := d_in;
     nn.out_features := d_out;
     nn.lin_weight :=
       {| nn.data := (λ i, draw_weight rng name i <$> seq 0 d_in) <$> seq 0 d_out;
          nn.requires_grad := true |};
     nn.lin_bias :=
       {| nn.data := draw_bias rng name <$> seq 0 d_out;
          nn.requires_grad := true |} |}.

(** [[nn.Linear(dims[idx - 1], dims[idx]) for idx in range(1, len(dims))]]
    for [dims = d_in :: rest], the [i]-th layer registered under the name
    [prefix + str(i)]. *)
Fixpoint new_layers (rng : Rng) (prefix : string) (i : nat) (d_in : nat) (rest : list nat)
    : list (nn.Linear F) :=
  match rest with
  | [] => []
  | d_out :: rest' =>
      new_linear rng (prefix +:+ pretty i) d_in d_out
      :: new_layers rng prefix (S i) d_out rest'
  end.

Record Model : Type := {
  hparams : HParams;
  item_metadata : option (torch.Tensor F);
  _trained_model : option (MatrixFactorizationModel.t F);
  embeddings : nn.Embedding F * nn.Embedding F;
  metadata_layers : option (list (nn.Linear F));
  combined_layers : list (nn.Linear F);
  training : bool;
}.

(** The attributes [self] may hold before [_setup_model] runs. *)
Record Attributes : Type := {
  attr_hparams : HParams;
  attr_item_metadata : option (torch.Tensor F);
  attr_trained_model : option (MatrixFactorizationModel.t F);
}.

Record Kwargs : Type := {
  kwargs_trained_model : option (MatrixFactorizationModel.t F);
  kwargs_item_metadata : option (torch.Tensor F);
}.

Definition pop {A} (key : string) (entry : option A) : result A :=
  match entry with
  | Some a => Ok a
  | None => Raise (KeyError key)
  end.

Definition with_embeddings (e : nn.Embedding F * nn.Embedding F) (m : Model) : Model :=
  {| hparams := hparams m;
     item_metadata := item_metadata m;
     _trained_model := _trained_model m;
     embeddings := e;
     metadata_layers := metadata_layers m;
     combined_layers := combined_layers m;
     training := training m |}.

Definition freeze_embeddings (m : Model) : Model :=
  with_embeddings (nn.set_requires_grad false (embeddings m).1,
                   nn.set_requires_grad false (embeddings m).2) m.

Definition unfreeze_embeddings (m : Model) : Model :=
  with_embeddings (nn.set_requires_grad true (embeddings m).1,
                   nn.set_requires_grad true (embeddings m).2) m.

(** The layers of the two sub-networks, as [_setup_model] shapes them. *)
Definition metadata_output_dim (hp : HParams) : nat :=
  match metadata_layers_dims hp with
  | Some dims => List.last dims (item_metadata_num_cols hp)
  | None => item_metadata_num_cols hp
  end.

Definition combined_dimension_input (hp : HParams) : nat :=
  (user_embeddings_dim hp + item_embeddings_dim hp + metadata_output_dim hp)%nat.

Definition with_layers (hp : HParams) (metadata_layers : option (list (nn.Linear F)))
    (combined_layers : list (nn.Linear F)) (m : Model) : Model :=
  {| hparams := hp;
     item_metadata := item_metadata m;
     _trained_model := _trained_model m;
     embeddings := embeddings m;
     metadata_layers := metadata_layers;
     combined_layers := combined_layers;
     training := training m |}.

(** [self] once the attributes are in place and the tables are assigned,
    before any layer is registered. *)
Definition with_tables (hp : HParams) (metadata : option (torch.Tensor F))
    (trained : option (MatrixFactorizationModel.t F))
    (tables : nn.Embedding F * nn.Embedding F) : Model :=
  {| hparams := hp;
     item_metadata := metadata;
     _trained_model := trained;
     embeddings := tables;
     metadata_layers := None;
     combined_layers := [];
     training := true |}.

Definition _setup_model (self : Attributes) (kwargs : Kwargs) (rng : Rng) : result Model :=
  m ←
    match load_model_path (attr_hparams self) with
    | None =>
        trained ← match attr_trained_model self with
                  | Some tm => Ok tm
                  | None => pop "trained_model" (kwargs_trained_model kwargs)
                  end;
        metadata ← match attr_item_metadata self with
                   | Some md => Ok md
                   | None => pop "item_metadata" (kwargs_item_metadata kwargs)
                   end;
        (* [copy.deepcopy]: the two tables are new objects with the entries
           of the trained model's *)
        let m := with_tables (attr_hparams self) (Some metadata) (Some trained)
                   (MatrixFactorizationModel.user_embeddings trained,
                    MatrixFactorizationModel.item_embeddings trained) in
        let m := if freeze_embeddings_ (hparams m)
                 then freeze_embeddings m else unfreeze_embeddings m in
        Ok (with_layers
              (set_embedding_shapes (hparams m)
                 (nn.num_embeddings (embeddings m).1) (nn.embedding_dim (embeddings m).1)
                 (nn.num_embeddings (embeddings m).2) (nn.embedding_dim (embeddings m).2))
              None [] m)
    | Some _ =>
        let hp := attr_hparams self in
        Ok (with_tables hp (attr_item_metadata self) (attr_trained_model self)
              (base.ScaledEmbedding (draw_embedding rng 0)
                 (user_num_embeddings hp) (user_embeddings_dim hp),
               base.ScaledEmbedding (draw_embedding rng 1)
                 (item_num_embeddings hp) (item_embeddings_dim hp)))
    end;
  let hp := hparams m in
  let metadata_layers :=
    match metadata_layers_dims hp with
    | Some dims => Some (new_layers rng "metadata_layer_" 0 (item_metadata_num_cols hp) dims)
    | None => None
    end in
  let combined_layers :=
    new_layers rng "combined_layer_" 0 (combined_dimension_input hp)
               (combined_layers_dims hp ++ [1%nat]) in
  Ok (with_layers hp metadata_layers combined_layers m).

(** [nn.Dropout]: the identity outside training; in training the [k]-th call
    applies the [k]-th random mask. *)
Variable mask : nat → torch.Tensor F → torch.Tensor F.

Definition dropout (training : bool) (k : nat) (t : torch.Tensor F) : torch.Tensor F :=
  if training then mask k t else t.

(** [for layer in layers: x = dropout(leaky_relu(layer(x)))], the dropout
    calls numbered from [k]. *)
Fixpoint hidden_layers (training : bool) (k : nat) (layers : list (nn.Linear F))
    (x : torch.Tensor F) : result (torch.Tensor F) :=
  match layers with
  | [] => Ok x
  | layer :: layers' =>
      y ← nn.linear layer x;
      hidden_layers training (S k) layers'
        (dropout training k (torch.map_entries leaky_relu y))
  end.

Definition forward (m : Model) (users items : list Z) : result (torch.Tensor F) :=
  item_metadata ← match item_metadata m with
                  | Some md => Ok md
                  | None => Raise (AttributeError "item_metadata")
                  end;
  metadata_output ← torch.index_rows item_metadata items;
  metadata_output ←
    match metadata_layers m with
    | Some layers => hidden_layers (training m) 0 layers metadata_output
    | None => Ok metadata_output
    end;
  user_latent ← nn.lookup (embeddings m).1 users;
  item_latent ← nn.lookup (embeddings m).2 items;
  combined_output ← torch.cat1 [user_latent; item_latent; metadata_output];
  combined_output ←
    hidden_layers (training m) (length (default [] (metadata_layers m)))
                  (removelast (combined_layers m)) combined_output;
  last_layer ← match last (combined_layers m) with
               | Some layer => Ok layer
               | None => Raise IndexError
               end;
  pred_scores ← nn.linear last_layer combined_output;
  Ok (torch.squeeze pred_scores).

(** [_get_item_embeddings]: the borrowed item table read at
    [arange(hparams.num_items)]. *)
Definition _get_item_embeddings (m : Model) : result (torch.Tensor F) :=
  nn.lookup (embeddings m).2 (seqZ 0 (Z.of_nat (num_items (hparams m)))).

(** [state_dict()]: the parameters by qualified name, sub-modules in the
    order of their registration. *)
Fixpoint named_layers (prefix : string) (i : nat) (layers : list (nn.Linear F))
    : list (string * nn.Linear F) :=
  match layers with
  | [] => []
  | layer :: layers' => (prefix +:+ pretty i, layer) :: named_layers prefix (S i) layers'
  end.

Definition linear_entries (named : string * nn.Linear F) : list (string * torch.Tensor F) :=
  [(named.1 +:+ ".weight",
    torch.T2 (nn.out_features named.2) (nn.in_features named.2)
             (nn.data (nn.lin_weight named.2)));
   (named.1 +:+ ".bias", torch.T1 (nn.data (nn.lin_bias named.2)))].

Definition embedding_entry (name : string) (e : nn.Embedding F) : string * torch.Tensor F :=
  (name +:+ ".weight",
   torch.T2 (nn.num_embeddings e) (nn.embedding_dim e) (nn.data (nn.weight e))).

Definition trained_model_entries (m : Model) : list (string * torch.Tensor F) :=
  match _trained_model m with
  | Some tm => (λ kv, ("_trained_model." +:+ kv.1, kv.2)) <$> MatrixFactorizationModel.state_dict tm
  | None => []
  end.

Definition layer_entries (prefix : string) (i : nat) (layers : list (nn.Linear F))
    : list (string * torch.Tensor F) :=
  mjoin (linear_entries <$> named_layers prefix i layers).

Definition own_entries (m : Model) : list (string * torch.Tensor F) :=
  [embedding_entry "embeddings.0" (embeddings m).1;
   embedding_entry "embeddings.1" (embeddings m).2]
  ++ layer_entries "metadata_layer_" 0 (default [] (metadata_layers m))
  ++ layer_entries "combined_layer_" 0 (combined_layers m).

Definition state_dict (m : Model) : list (string * torch.Tensor F) :=
  trained_model_entries m ++ own_entries m.

(** [named_parameters()], each name with the gradient-tracking flag of its
    parameter; of the trained model, the two tables this model reads. *)
Definition linear_flags (named : string * nn.Linear F) : list (string * bool) :=
  [(named.1 +:+ ".weight", nn.requires_grad (nn.lin_weight named.2));
   (named.1 +:+ ".bias", nn.requires_grad (nn.lin_bias named.2))].

Definition requires_grad_flags (m : Model) : list (string * bool) :=
  match _trained_model m with
  | Some tm =>
      [("_trained_model.user_embeddings.weight",
        nn.requires_grad (nn.weight (MatrixFactorizationModel.user_embeddings tm)));
       ("_trained_model.item_embeddings.weight",
        nn.requires_grad (nn.weight (MatrixFactorizationModel.item_embeddings tm)))]
  | None => []
  end
  ++ [("embeddings.0.weight", nn.requires_grad (nn.weight (embeddings m).1));
      ("embeddings.1.weight", nn.requires_grad (nn.weight (embeddings m).2))]
  ++ mjoin (linear_flags <$> named_layers "metadata_layer_" 0 (default [] (metadata_layers m)))
  ++ mjoin (linear_flags <$> named_layers "combined_layer_" 0 (combined_layers m)).

(** [m'] is [m] but for the flags of the two borrowed tables: every
    parameter has its value, every parameter of another name its flag, and the
    rest of the model is the same. *)
Definition same_but_table_flags (m m' : Model) : Prop :=
  state_dict m' = state_dict m
  ∧ (∀ name, name ≠ "embeddings.0.weight" → name ≠ "embeddings.1.weight" →
       assoc name (requires_grad_flags m') = assoc name (requires_grad_flags m))
  ∧ metadata_layers m' = metadata_layers m
  ∧ combined_layers m' = combined_layers m
  ∧ _trained_model m' = _trained_model m
  ∧ item_metadata m' = item_metadata m
  ∧ hparams m' = hparams m
  ∧ training m' = training m.

Definition table_flags (m : Model) : bool * bool :=
  (nn.requires_grad (nn.weight (embeddings m).1),
   nn.requires_grad (nn.weight (embeddings m).2)).

(** The shapes [_setup_model] gives the tables and the layers; training
    changes entries and flags, never shapes. *)
Fixpoint layers_shaped (d_in : nat) (dims : list nat) (layers : list (nn.Linear F)) : Prop :=
  match dims, layers with
  | [], [] => True
  | d_out :: dims', layer :: layers' =>
      nn.in_features layer = d_in
      ∧ nn.out_features layer = d_out
      ∧ length (nn.data (nn.lin_bias layer)) = d_out
      ∧ layers_shaped d_out dims' layers'
  | _, _ => False
  end.

Record wf_model (m : Model) : Prop := {
  wf_user_table :
    nn.num_embeddings (embeddings m).1 = user_num_embeddings (hparams m)
    ∧ nn.embedding_dim (embeddings m).1 = user_embeddings_dim (hparams m);
  wf_item_table :
    nn.num_embeddings (embeddings m).2 = item_num_embeddings (hparams m)
    ∧ nn.embedding_dim (embeddings m).2 = item_embeddings_dim (hparams m);
  wf_metadata_layers :
    match metadata_layers_dims (hparams m), metadata_layers m with
    | Some dims, Some layers =>
        layers_shaped (item_metadata_num_cols (hparams m)) dims layers
    | None, None => True
    | _, _ => False
    end;
  wf_combined_layers :
    layers_shaped (combined_dimension_input (hparams m))
                  (combined_layers_dims (hparams m) ++ [1%nat]) (combined_layers m);
  wf_item_metadata : is_Some (item_metadata m);
}.

(** What [forward] needs of a batch: a well-formed model outside training,
    metadata of the recorded width and tables of their declared shapes, and
    every id in range. *)
Record scorable (m : Model) (users items : list Z) : Prop := {
  scorable_wf : wf_model m;
  scorable_eval : training m = false;
  scorable_metadata :
    ∃ r md, item_metadata m = Some (torch.T2 r (item_metadata_num_cols (hparams m)) md)
            ∧ Forall (λ i, 0 ≤ i < Z.of_nat (length md)) items;
  scorable_user_table : nn.wf_embedding (embeddings m).1;
  scorable_item_table : nn.wf_embedding (embeddings m).2;
  scorable_users :
    Forall (λ u, 0 ≤ u < Z.of_nat (user_num_embeddings (hparams m))) users;
  scorable_items :
    Forall (λ i, 0 ≤ i < Z.of_nat (item_num_embeddings (hparams m))) items;
}.

(** A layer with the flags of a newly built one. *)
Definition thaw_linear (layer : nn.Linear F) : nn.Linear F :=
  {| nn.in_features := nn.in_features layer;
     nn.out_features := nn.out_features layer;
     nn.lin_weight := {| nn.data := nn.data (nn.lin_weight layer); nn.requires_grad := true |};
     nn.lin_bias := {| nn.data := nn.data (nn.lin_bias layer); nn.requires_grad := true |} |}.

(** ** Persistence *)

Inductive Blob : Type :=
  | Joblib (t : torch.Tensor F)
  | TorchSave (state_dict : list (string * torch.Tensor F)) (hparams : HParams)
  | Other (content : string).

End model.
Arguments HParams F : clear implicits.
Arguments Model F : clear implicits.
Arguments Blob F : clear implicits.
Arguments Rng F : clear implicits.
Arguments Attributes F : clear implicits.
Arguments Kwargs F : clear implicits.

(** The file system, as far as the model goes: the directories by path, each
    with its files by name.  A path is a directory or absent. *)
Abbreviation FS F := (gmap string (gmap string (Blob F))) (only parsing).

Section persistence.
Context {F : Type} `{Scalar F}.

Definition exists_ (path : string) (fs : FS F) : bool := bool_decide (is_Some (fs !! path)).

Definition listdir (path : string) : M (FS F) (list string) :=
  fs ← get;
  match fs !! path with
  | Some files => mret (elements (dom files))
  | None => raise (FileNotFoundError path)
  end.

(** [Path(path).mkdir(parents=True, exist_ok=True)] *)
Definition mkdir (path : string) : M (FS F) unit :=
  modify (λ fs, match fs !! path with
                | Some _ => fs
                | None => <[path := ∅]> fs
                end).

(** Writing the file [name] of the directory [path]. *)
Definition write (path name : string) (b : Blob F) : M (FS F) unit :=
  fs ← get;
  match fs !! path with
  | Some files => modify (<[path := <[name := b]> files]>)
  | None => raise (FileNotFoundError (path_join path name))
  end.

Definition read (path name : string) (fs : FS F) : result (Blob F) :=
  match fs !! path with
  | Some files =>
      match files !! name with
      | Some b => Ok b
      | None => Raise (FileNotFoundError (path_join path name))
      end
  | None => Raise (FileNotFoundError (path_join path name))
  end.

(** The state dictionary without the [_trained_model] component, in the
    order of [state_dict()]. *)
Definition state_dict_to_save (m : Model F) : list (string * torch.Tensor F) :=
  let state_dict_keys_to_save :=
    filter (λ k, contains "_trained_model" k = false) (state_dict m).*1 in
  let state_dict_vals_to_save :=
    (filter (λ kv, contains "_trained_model" kv.1 = false) (state_dict m)).*2 in
  zip state_dict_keys_to_save state_dict_vals_to_save.

Definition save_model (m : Model F) (path : string) (overwrite : bool) : M (FS F) unit :=
  fs ← get;
  (if exists_ path fs then
     names ← listdir path;
     if bool_decide (names ≠ []) && bool_decide (overwrite = false) then
       raise (ValueError ("Data exists in ``path`` at " +:+ path
                          +:+ " and ``overwrite`` is False."))
     else mret ()
   else mret ());;
  mkdir path;;
  metadata ← lift (match item_metadata m with
                   | Some md => Ok md
                   | None => Raise (AttributeError "item_metadata")
                   end);
  write path "metadata.pkl" (Joblib metadata);;
  write path "model.pth" (TorchSave (state_dict_to_save m) (hparams m)).

(** [load_state_dict(state_dict)] of [nn.Module], strict: every parameter of
    the module is looked up by name and must come with the parameter's shape,
    and no other name may occur. *)
Definition load_embedding (sd : list (string * torch.Tensor F)) (name : string)
    (e : nn.Embedding F) : result (nn.Embedding F) :=
  match assoc (name +:+ ".weight") sd with
  | Some (torch.T2 r c m) =>
      if decide (r = nn.num_embeddings e ∧ c = nn.embedding_dim e)
      then Ok (nn.set_weight_data e m)
      else Raise RuntimeError
  | _ => Raise RuntimeError
  end.

Definition load_linear (sd : list (string * torch.Tensor F))
    (named : string * nn.Linear F) : result (nn.Linear F) :=
  match assoc (named.1 +:+ ".weight") sd, assoc (named.1 +:+ ".bias") sd with
  | Some (torch.T2 r c w), Some (torch.T1 b) =>
      if decide (r = nn.out_features named.2 ∧ c = nn.in_features named.2
                 ∧ length b = nn.out_features named.2)
      then Ok {| nn.in_features := nn.in_features named.2;
                 nn.out_features := nn.out_features named.2;
                 nn.lin_weight := nn.set_data (nn.lin_weight named.2) w;
                 nn.lin_bias := nn.set_data (nn.lin_bias named.2) b |}
      else Raise RuntimeError
  | _, _ => Raise RuntimeError
  end.

Definition same_shape (a b : torch.Tensor F) : bool :=
  match a, b with
  | torch.T0 _, torch.T0 _ => true
  | torch.T1 v, torch.T1 w => bool_decide (length v = length w)
  | torch.T2 r c _, torch.T2 r' c' _ => bool_decide (r = r' ∧ c = c')
  | _, _ => false
  end.

Definition load_entry (sd : list (string * torch.Tensor F)) (prefix : string)
    (kv : string * torch.Tensor F) : result (string * torch.Tensor F) :=
  match assoc (prefix +:+ kv.1) sd with
  | Some t => if same_shape t kv.2 then Ok (kv.1, t) else Raise RuntimeError
  | None => Raise RuntimeError
  end.

Definition load_trained_model (sd : list (string * torch.Tensor F))
    (tm : MatrixFactorizationModel.t F) : result (MatrixFactorizationModel.t F) :=
  entries ← rmapM (load_entry sd "_trained_model.") (MatrixFactorizationModel.state_dict tm);
  Ok {| MatrixFactorizationModel.user_embeddings := MatrixFactorizationModel.user_embeddings tm;
        MatrixFactorizationModel.item_embeddings := MatrixFactorizationModel.item_embeddings tm;
        MatrixFactorizationModel.state_dict := entries |}.

Definition load_state_dict (m : Model F) (sd : list (string * torch.Tensor F))
    : result (Model F) :=
  let expected := (state_dict m).*1 in
  if forallb (λ k, bool_decide (k ∈ sd.*1)) expected
     && forallb (λ k, bool_decide (k ∈ expected)) sd.*1
  then
    trained ← match _trained_model m with
              | Some tm => tm' ← load_trained_model sd tm; Ok (Some tm')
              | None => Ok None
              end;
    user_table ← load_embedding sd "embeddings.0" (embeddings m).1;
    item_table ← load_embedding sd "embeddings.1" (embeddings m).2;
    metadata_layers ←
      match metadata_layers m with
      | Some layers =>
          layers' ← rmapM (load_linear sd) (named_layers "metadata_layer_" 0 layers);
          Ok (Some layers')
      | None => Ok None
      end;
    combined_layers ←
      rmapM (load_linear sd) (named_layers "combined_layer_" 0 (combined_layers m));
    Ok {| hparams := hparams m;
          item_metadata := item_metadata m;
          _trained_model := trained;
          embeddings := (user_table, item_table);
          metadata_layers := metadata_layers;
          combined_layers := combined_layers;
          training := training m |}
  else Raise RuntimeError.

Definition eval (m : Model F) : Model F :=
  {| hparams := hparams m;
     item_metadata := item_metadata m;
     _trained_model := _trained_model m;
     embeddings := embeddings m;
     metadata_layers := metadata_layers m;
     combined_layers := combined_layers m;
     training := false |}.

(** What restoring a saved model [m] yields: its hyperparameters with the
    path recorded, its metadata, its tables and layers with the flags of newly
    built ones, and no source model. *)
Definition thaw_layers (layers : list (nn.Linear F)) : list (nn.Linear F) :=
  thaw_linear <$> layers.

Definition restored (m : Model F) (load_model_path : string) : Model F :=
  {| hparams := set_load_model_path (hparams m) load_model_path;
     item_metadata := item_metadata m;
     _trained_model := None;
     embeddings := (nn.set_requires_grad true (embeddings m).1,
                    nn.set_requires_grad true (embeddings m).2);
     metadata_layers := thaw_layers <$> metadata_layers m;
     combined_layers := thaw_linear <$> combined_layers m;
     training := true |}.

(** Modelled from the spec: [BasePipeline._load_model_init_helper], which is
    not in the sources at hand.  It restores the hyperparameter record of the
    model-state file, has [_setup_model] rebuild the structure with dummy
    tables of the recorded shapes, overwrites the parameters from the
    persisted mapping, and leaves the model in evaluation mode. *)
Definition base_load_model_init_helper (self : Attributes F) (path name : string)
    (rng : Rng F) (fs : FS F) : result (Model F) :=
  loaded ← read path name fs;
  match loaded with
  | TorchSave sd hp =>
      let self := {| attr_hparams := set_load_model_path hp (path_join path name);
                     attr_item_metadata := attr_item_metadata self;
                     attr_trained_model := attr_trained_model self |} in
      m ← _setup_model self {| kwargs_trained_model := None;
                               kwargs_item_metadata := None |} rng;
      m ← load_state_dict m sd;
      Ok (eval m)
  | _ => Raise UnpicklingError
  end.

(** [HybridPretrainedModel._load_model_init_helper] *)
Definition _load_model_init_helper (self : Attributes F) (load_model_path : string)
    (rng : Rng F) (fs : FS F) : result (Model F) :=
  blob ← read load_model_path "metadata.pkl" fs;
  match blob with
  | Joblib item_metadata =>
      let self := {| attr_hparams := attr_hparams self;
                     attr_item_metadata := Some item_metadata;
                     attr_trained_model := attr_trained_model self |} in
      base_load_model_init_helper self load_model_path "model.pth" rng fs
  | _ => Raise UnpicklingError
  end.

(** [HybridPretrainedModel(load_model_path=path)]: a new object, whose only
    attributes before the helper runs are the hyperparameters of the call. *)
Definition load (hp : HParams F) (path : string) (rng : Rng F) (fs : FS F)
    : result (Model F) :=
  _load_model_init_helper {| attr_hparams := set_load_model_path hp path;
                             attr_item_metadata := None;
                             attr_trained_model := None |} path rng fs.

End persistence.

(** A small hybrid model on integer entries: two users, three items, two
    metadata columns, one metadata layer and one hidden combined layer. *)
Definition example_table (d : nat) (rows : list (list Z)) : nn.Embedding Z :=
  {| nn.num_embeddings := length rows;
     nn.embedding_dim := d;
     nn.weight := {| nn.data := rows; nn.requires_grad := true |} |}.

Definition example_trained_model : MatrixFactorizationModel.t Z :=
  {| MatrixFactorizationModel.user_embeddings := example_table 2 [[1; 2]; [3; 4]];
     MatrixFactorizationModel.item_embeddings := example_table 2 [[5; 6]; [7; 8]; [9; 10]];
     MatrixFactorizationModel.state_dict :=
       [("user_biases.weight", torch.T2 2 1 [[0]; [0]]);
        ("item_biases.weight", torch.T2 3 1 [[0]; [0]; [0]]);
        ("user_embeddings.weight", torch.T2 2 2 [[1; 2]; [3; 4]]);
        ("item_embeddings.weight", torch.T2 3 2 [[5; 6]; [7; 8]; [9; 10]])] |}.

Definition example_hparams : HParams Z :=
  {| load_model_path := None;
     freeze_embeddings_ := true;
     dropout_p := 0;
     item_metadata_num_cols := 2;
     metadata_layers_dims := Some [2%nat];
     combined_layers_dims := [3%nat];
     num_items := 3;
     user_num_embeddings := 0;
     user_embeddings_dim := 0;
     item_num_embeddings := 0;
     item_embeddings_dim := 0 |}.

Definition example_rng : Rng Z :=
  {| draw_embedding := λ k i j, Z.of_nat (k + i + j);
     draw_weight := λ name i j, Z.of_nat (String.length name + i + 2 * j);
     draw_bias := λ name i, Z.of_nat i - 1 |}.

Definition other_rng : Rng Z :=
  {| draw_embedding := λ _ _ _, 0;
     draw_weight := λ _ _ _, 0;
     draw_bias := λ _ _, 0 |}.

Definition example_attributes : Attributes Z :=
  {| attr_hparams := example_hparams;
     attr_item_metadata := None;
     attr_trained_model := None |}.

Definition example_kwargs : Kwargs Z :=
  {| kwargs_trained_model := Some example_trained_model;
     kwargs_item_metadata := Some (torch.T2 3 2 [[1; 0]; [0; 1]; [1; 1]]) |}.

Definition example_model : Model Z :=
  match _setup_model example_attributes example_kwargs example_rng with
  | Ok m => eval m
  | Raise _ =>
      with_tables example_hparams None None
        (example_table 0 [], example_table 0 [])
  end.

End HybridPretrainedModel.

(** * Properties *)

(** ** Results and tensors *)

Lemma rmapM_Ok {A B} (f : A → result B) (l : list A) (bs : list B) :
  rmapM f l = Ok bs ↔ Forall2 (λ a b, f a = Ok b) l bs.
Proof.
  revert bs. induction l as [|a l IH]; intros bs; simpl.
  - split.
    + intros [= <-]. constructor.
    + intros Hl. inversion Hl. reflexivity.
  - unfold mbind, result_bind. destruct (f a) as [b|e] eqn:Hfa.
    + destruct (rmapM f l) as [bs'|e] eqn:Hrec.
      * split.
        -- intros [= <-]. constructor; [assumption|]. apply IH. reflexivity.
        -- intros Hl. inversion Hl as [|? b' ? bs'' Hb Hrest]; subst.
           apply IH in Hrest. congruence.
      * split; [discriminate|].
        intros Hl. inversion Hl as [|? b' ? bs'' Hb Hrest]; subst.
        apply IH in Hrest. discriminate.
    + split; [discriminate|].
      intros Hl. inversion Hl; subst. congruence.
Qed.

Lemma rmapM_total {A B} (f : A → result B) (l : list A) :
  Forall (λ a, ∃ b, f a = Ok b) l → ∃ bs, rmapM f l = Ok bs.
Proof.
  induction 1 as [|a l [b Hb] _ [bs Hbs]]; simpl.
  - eexists. reflexivity.
  - exists (b :: bs). unfold mbind, result_bind. rewrite Hb, Hbs. reflexivity.
Qed.

Lemma rmapM_ext {A B} (f g : A → result B) (l : list A) :
  Forall (λ a, f a = g a) l → rmapM f l = rmapM g l.
Proof.
  induction 1 as [|a l Ha _ IH]; [reflexivity|].
  simpl. rewrite Ha, IH. reflexivity.
Qed.

Lemma rmapM_fmap {A B C} (f : B → result C) (g : A → B) (l : list A) :
  rmapM f (g <$> l) = rmapM (λ a, f (g a)) l.
Proof.
  induction l as [|a l IH]; [reflexivity|].
  rewrite fmap_cons. simpl. rewrite IH. reflexivity.
Qed.

(** When every failure is the exception [e], one failing element makes the
    whole traversal raise [e]. *)
Lemma rmapM_Raise {A B} (f : A → result B) (l : list A) (e : exn) :
  Forall (λ a, ∀ e', f a = Raise e' → e' = e) l →
  Exists (λ a, f a = Raise e) l →
  rmapM f l = Raise e.
Proof.
  intros Hall Hex. induction Hall as [|a l Ha Hall IH]; [inversion Hex|].
  simpl. unfold mbind, result_bind.
  destruct (f a) as [b|e'] eqn:Hfa.
  - rewrite IH; [reflexivity|]. inversion Hex as [? ? Hhd|? ? Htl]; subst; [congruence|assumption].
  - rewrite (Ha e' eq_refl). reflexivity.
Qed.

(** ** Strings *)

Lemma pretty_N_char_digit (x : N) : is_digit (pretty_N_char x) = true.
Proof. unfold pretty_N_char. repeat case_match; reflexivity. Qed.

Lemma pretty_N_go_digits (x : N) (s : string) :
  all_digits s = true → all_digits (pretty_N_go x s) = true.
Proof.
  revert s. induction (N.lt_wf_0 x) as [x _ IH]; intros s Hs.
  assert (x = 0 ∨ 0 < x)%N as [->|Hx] by lia.
  - rewrite pretty_N_go_0. exact Hs.
  - rewrite pretty_N_go_step by exact Hx. apply IH.
    + apply N.div_lt; [exact Hx | reflexivity].
    + simpl. rewrite pretty_N_char_digit, Hs. reflexivity.
Qed.

Lemma pretty_nat_digits (n : nat) : all_digits (pretty n) = true.
Proof.
  unfold pretty, pretty_nat, pretty, pretty_N.
  destruct (decide (N.of_nat n = 0%N)); [reflexivity|].
  apply pretty_N_go_digits. reflexivity.
Qed.

Lemma digit_not (c d : ascii) : is_digit c = true → is_digit d = false → c ≠ d.
Proof. intros Hc Hd ->. congruence. Qed.

Lemma contains_digits (sub' : string) (c : ascii) (d s : string) :
  is_digit c = false → all_digits d = true →
  contains (String c sub') (d +:+ s) = contains (String c sub') s.
Proof.
  intros Hc. induction d as [|x d IH]; intros Hd; [reflexivity|].
  simpl in Hd. apply andb_prop in Hd as [Hx Hd].
  change (String x d +:+ s) with (String x (d +:+ s)).
  cbn [contains starts_with].
  rewrite bool_decide_false by (intros ->; congruence).
  rewrite IH by exact Hd. reflexivity.
Qed.

Lemma starts_with_digits (sub' : string) (c : ascii) (d s : string) :
  is_digit c = false → all_digits d = true →
  starts_with (String c sub') (d +:+ s) = true → starts_with (String c sub') s = true.
Proof.
  intros Hc Hd. destruct d as [|x d]; [done|].
  simpl in Hd. apply andb_prop in Hd as [Hx Hd].
  change (String x d +:+ s) with (String x (d +:+ s)).
  cbn [starts_with].
  rewrite bool_decide_false by (intros ->; congruence). discriminate.
Qed.

Lemma string_app_assoc (a b c : string) : (a +:+ b) +:+ c = a +:+ (b +:+ c).
Proof.
  induction a as [|x a IH]; [reflexivity|].
  change (String x ((a +:+ b) +:+ c) = String x (a +:+ (b +:+ c))).
  rewrite IH. reflexivity.
Qed.

Lemma contains_after_layer_prefix (X : string) :
  contains "_trained_model" ("metadata_layer_" +:+ X)
  = starts_with "trained_model" X || contains "_trained_model" X
  ∧ contains "_trained_model" ("combined_layer_" +:+ X)
    = starts_with "trained_model" X || contains "_trained_model" X.
Proof. split; reflexivity. Qed.

Lemma layer_key_clean (i : nat) (prefix suffix : string) :
  prefix = "metadata_layer_" ∨ prefix = "combined_layer_" →
  suffix = ".weight" ∨ suffix = ".bias" →
  contains "_trained_model" ((prefix +:+ pretty i) +:+ suffix) = false.
Proof.
  intros Hp Hs.
  assert (contains "_trained_model" (pretty i +:+ suffix) = false) as Htail.
  { rewrite contains_digits by (reflexivity || apply pretty_nat_digits).
    destruct Hs as [-> | ->]; reflexivity. }
  assert (starts_with "trained_model" (pretty i +:+ suffix) = false) as Hhead.
  { apply not_true_is_false. intros Hst.
    apply starts_with_digits in Hst; [|reflexivity|apply pretty_nat_digits].
    destruct Hs as [-> | ->]; discriminate. }
  rewrite string_app_assoc.
  destruct Hp as [-> | ->].
  - rewrite (proj1 (contains_after_layer_prefix _)), Htail, Hhead. reflexivity.
  - rewrite (proj2 (contains_after_layer_prefix _)), Htail, Hhead. reflexivity.
Qed.

(** Strings as lists of characters. *)
Lemma list_ascii_app (a b : string) :
  String.list_ascii_of_string (a +:+ b)
  = (String.list_ascii_of_string a ++ String.list_ascii_of_string b)%list.
Proof.
  induction a as [|x a IH]; [reflexivity|].
  change (x :: String.list_ascii_of_string (a +:+ b)
          = x :: (String.list_ascii_of_string a ++ String.list_ascii_of_string b)%list).
  rewrite IH. reflexivity.
Qed.

Lemma list_ascii_inj (a b : string) :
  String.list_ascii_of_string a = String.list_ascii_of_string b → a = b.
Proof.
  intros Hab. rewrite <- (String.string_of_list_ascii_of_string a), Hab.
  apply String.string_of_list_ascii_of_string.
Qed.

Lemma string_app_inj_r (a b c : string) : a +:+ c = b +:+ c → a = b.
Proof.
  intros Habc. apply list_ascii_inj.
  apply (f_equal String.list_ascii_of_string) in Habc. rewrite !list_ascii_app in Habc.
  exact (app_inv_tail _ _ _ Habc).
Qed.

Lemma weight_ne_bias (a b : string) : a +:+ ".weight" ≠ b +:+ ".bias".
Proof.
  intros Hab. apply (f_equal String.list_ascii_of_string) in Hab.
  rewrite !list_ascii_app in Hab. apply (f_equal reverse) in Hab.
  rewrite !reverse_app in Hab. discriminate.
Qed.

Lemma layer_name_inj (prefix : string) (i j : nat) :
  prefix +:+ pretty i = prefix +:+ pretty j → i = j.
Proof. intros Hij. apply (inj (String.app prefix)) in Hij. exact (inj pretty _ _ Hij). Qed.

(** ** Dictionaries *)

Lemma assoc_cons {A} (k k' : string) (a : A) (l : list (string * A)) :
  assoc k ((k', a) :: l) = if decide (k' = k) then Some a else assoc k l.
Proof. reflexivity. Qed.

Lemma assoc_app {A} (k : string) (l1 l2 : list (string * A)) :
  assoc k (l1 ++ l2) = match assoc k l1 with Some v => Some v | None => assoc k l2 end.
Proof.
  induction l1 as [|[k' v] l1 IH]; [reflexivity|].
  simpl. destruct (decide (k' = k)); [reflexivity | exact IH].
Qed.

Lemma assoc_None {A} (k : string) (l : list (string * A)) :
  (∀ kv, kv ∈ l → kv.1 ≠ k) → assoc k l = None.
Proof.
  induction l as [|[k' v] l IH]; intros Hl; [reflexivity|].
  simpl. rewrite decide_False by (apply (Hl (k', v)); left).
  apply IH. intros kv Hkv. apply Hl. right. exact Hkv.
Qed.

Section tensor_facts.
Context {F : Type} `{Scalar F}.

Lemma stretch_id {A} (n : nat) (l : list A) : length l = n → torch.stretch n l = l.
Proof. intros Hn. unfold torch.stretch. rewrite decide_True by assumption. reflexivity. Qed.

Lemma expand_id (n d : nat) (m : torch.matrix F) :
  torch.has_shape n d m → torch.expand n d m = m.
Proof.
  intros [Hn Hd]. unfold torch.expand.
  assert (torch.stretch d <$> m = m) as ->.
  { clear Hn. induction Hd as [|r m Hr _ IH]; [reflexivity|].
    rewrite fmap_cons, (stretch_id _ _ Hr), IH. reflexivity. }
  apply stretch_id. assumption.
Qed.

Lemma index_one_Ok {A} (t : list A) (i : Z) :
  0 ≤ i < Z.of_nat (length t) →
  ∃ r, t !! Z.to_nat i = Some r ∧ torch.index_one t i = Ok r.
Proof.
  intros Hi. unfold torch.index_one.
  destruct (Z.ltb_spec i 0) as [?|_]; [lia|].
  destruct (Z.leb_spec 0 i) as [_|?]; [|lia].
  destruct (Z.ltb_spec i (Z.of_nat (length t))) as [_|?]; [|lia].
  simpl. destruct (lookup_lt_is_Some_2 t (Z.to_nat i)) as [r Hr]; [lia|].
  exists r. rewrite Hr. split; reflexivity.
Qed.

Lemma index_Ok {A} (t : list A) (ids : list Z) :
  Forall (λ i, 0 ≤ i < Z.of_nat (length t)) ids →
  ∃ rows, torch.index t ids = Ok rows
          ∧ Forall2 (λ i r, t !! Z.to_nat i = Some r) ids rows.
Proof.
  intros Hids. unfold torch.index.
  induction Hids as [|i ids Hi _ (rows & Hrows & Hall)]; simpl.
  - exists []. split; [reflexivity | constructor].
  - destruct (index_one_Ok t i Hi) as (r & Hr & Hidx).
    exists (r :: rows). unfold mbind, result_bind.
    rewrite Hidx, Hrows. split; [reflexivity|]. constructor; assumption.
Qed.

Lemma lookup_one_Ok (e : nn.Embedding F) (i : Z) :
  nn.wf_embedding e → 0 ≤ i < Z.of_nat (nn.num_embeddings e) →
  ∃ r, nn.data (nn.weight e) !! Z.to_nat i = Some r
       ∧ length r = nn.embedding_dim e
       ∧ nn.lookup_one e i = Ok r.
Proof.
  intros [Hn Hd] Hi. unfold nn.lookup_one.
  assert ((0 <=? i) && (i <? Z.of_nat (nn.num_embeddings e)) = true) as ->
    by (apply andb_true_intro; split; lia).
  destruct (lookup_lt_is_Some_2 (nn.data (nn.weight e)) (Z.to_nat i)) as [r Hr]; [lia|].
  exists r. rewrite Hr. split; [reflexivity|]. split; [|reflexivity].
  rewrite Forall_lookup in Hd. exact (Hd _ _ Hr).
Qed.

Lemma lookup_Ok (e : nn.Embedding F) (ids : list Z) :
  nn.wf_embedding e →
  Forall (λ i, 0 ≤ i < Z.of_nat (nn.num_embeddings e)) ids →
  ∃ rows, nn.lookup e ids = Ok (torch.T2 (length ids) (nn.embedding_dim e) rows)
          ∧ torch.has_shape (length ids) (nn.embedding_dim e) rows
          ∧ Forall2 (λ i r, nn.data (nn.weight e) !! Z.to_nat i = Some r) ids rows.
Proof.
  intros Hwf Hids. unfold nn.lookup.
  assert (∃ rows, rmapM (nn.lookup_one e) ids = Ok rows
                  ∧ torch.has_shape (length ids) (nn.embedding_dim e) rows
                  ∧ Forall2 (λ i r, nn.data (nn.weight e) !! Z.to_nat i = Some r) ids rows)
    as (rows & Hrows & Hshape & Hall).
  { induction Hids as [|i ids Hi _ (rows & Hrows & [Hlen Hwid] & Hall)]; simpl.
    - exists []. repeat split; constructor.
    - destruct (lookup_one_Ok e i Hwf Hi) as (r & Hr & Hlr & Hl).
      exists (r :: rows). unfold mbind, result_bind. rewrite Hl, Hrows.
      repeat split; simpl; [congruence | constructor; assumption | constructor; assumption]. }
  exists rows. unfold mbind, result_bind. rewrite Hrows. auto.
Qed.

Lemma bsize_same (a : nat) : torch.bsize a a = Some a.
Proof. unfold torch.bsize. rewrite decide_True by reflexivity. reflexivity. Qed.

Lemma pointwise_same_shape (f : F → F → F) (r c : nat) (m1 m2 : torch.matrix F) :
  torch.has_shape r c m1 → torch.has_shape r c m2 →
  torch.pointwise f (torch.T2 r c m1) (torch.T2 r c m2)
  = Ok (torch.T2 r c (zip_with (zip_with f) m1 m2)).
Proof.
  intros H1 H2. unfold torch.pointwise, torch.as_rank2.
  rewrite !bsize_same, (expand_id _ _ _ H1), (expand_id _ _ _ H2). reflexivity.
Qed.

Lemma pointwise_vectors (f : F → F → F) (v1 v2 : list F) :
  length v1 = length v2 →
  torch.pointwise f (torch.T1 v1) (torch.T1 v2) = Ok (torch.T1 (zip_with f v1 v2)).
Proof.
  intros Hlen. unfold torch.pointwise, torch.as_rank2.
  rewrite <- Hlen, !bsize_same.
  rewrite (expand_id 1 (length v1) [v1]) by (split; [reflexivity | repeat constructor]).
  rewrite (expand_id 1 (length v1) [v2])
    by (split; [reflexivity | repeat constructor; symmetry; exact Hlen]).
  reflexivity.
Qed.

(** A column, read as a vector. *)
Lemma concat_column_length (m : torch.matrix F) :
  Forall (λ r, length r = 1%nat) m → length (concat m) = length m.
Proof.
  induction 1 as [|r m Hr _ IH]; [reflexivity|].
  simpl. rewrite length_app, Hr, IH. reflexivity.
Qed.

Lemma concat_column_lookup (m : torch.matrix F) (k : nat) (r : list F) :
  Forall (λ r, length r = 1%nat) m → m !! k = Some r →
  ∃ x, r = [x] ∧ concat m !! k = Some x.
Proof.
  intros Hm. revert k. induction Hm as [|r' m Hr' _ IH]; intros k Hk; [discriminate|].
  destruct r' as [|x [|]]; try discriminate.
  destruct k as [|k]; simpl in *.
  - injection Hk as <-. exists x. split; reflexivity.
  - exact (IH k Hk).
Qed.

Lemma index_one_Raise {A} (t : list A) (i : Z) (e : exn) :
  torch.index_one t i = Raise e → e = IndexError.
Proof.
  unfold torch.index_one.
  destruct ((0 <=? _) && _); [|congruence].
  destruct (t !! _); congruence.
Qed.

Lemma index_one_out_of_range {A} (t : list A) (i : Z) :
  ¬ (- Z.of_nat (length t) ≤ i < Z.of_nat (length t)) →
  torch.index_one t i = Raise IndexError.
Proof.
  intros Hi. unfold torch.index_one.
  destruct (Z.ltb_spec i 0).
  - assert ((0 <=? i + Z.of_nat (length t)) = false) as -> by lia. reflexivity.
  - assert ((i <? Z.of_nat (length t)) = false) as -> by lia.
    rewrite andb_false_r. reflexivity.
Qed.

(** A negative index counts from the end. *)
Lemma index_one_negative {A} (t : list A) (i : Z) :
  - Z.of_nat (length t) ≤ i < 0 →
  torch.index_one t i = torch.index_one t (i + Z.of_nat (length t)).
Proof.
  intros Hi. unfold torch.index_one.
  assert ((i <? 0) = true) as -> by lia.
  assert ((i + Z.of_nat (length t) <? 0) = false) as -> by lia.
  reflexivity.
Qed.

Lemma index_Raise {A} (t : list A) (ids : list Z) :
  Exists (λ i, ¬ (- Z.of_nat (length t) ≤ i < Z.of_nat (length t))) ids →
  torch.index t ids = Raise IndexError.
Proof.
  intros Hex. apply rmapM_Raise.
  - apply Forall_forall. intros i _ e. apply index_one_Raise.
  - eapply Exists_impl; [exact Hex|]. intros i. apply index_one_out_of_range.
Qed.

Lemma lookup_one_Raise (e : nn.Embedding F) (i : Z) (x : exn) :
  nn.lookup_one e i = Raise x → x = IndexError.
Proof.
  unfold nn.lookup_one.
  destruct ((0 <=? _) && _); [|congruence].
  destruct (_ !! _); congruence.
Qed.

Lemma lookup_one_out_of_range (e : nn.Embedding F) (i : Z) :
  ¬ (0 ≤ i < Z.of_nat (nn.num_embeddings e)) →
  nn.lookup_one e i = Raise IndexError.
Proof.
  intros Hi. unfold nn.lookup_one.
  assert ((0 <=? i) && (i <? Z.of_nat (nn.num_embeddings e)) = false) as ->; [|reflexivity].
  apply andb_false_iff. lia.
Qed.

(** The embedding lookup raises nothing but [IndexError], and raises it as
    soon as one id is negative or beyond the last row. *)
Lemma lookup_Raise (e : nn.Embedding F) (ids : list Z) :
  Exists (λ i, ¬ (0 ≤ i < Z.of_nat (nn.num_embeddings e))) ids →
  nn.lookup e ids = Raise IndexError.
Proof.
  intros Hex. unfold nn.lookup.
  rewrite (rmapM_Raise (nn.lookup_one e) ids IndexError); [reflexivity| |].
  - apply Forall_forall. intros i _ x. apply lookup_one_Raise.
  - eapply Exists_impl; [exact Hex|]. intros i. apply lookup_one_out_of_range.
Qed.

(** Reading a table at [arange(n)] gives its first [n] rows. *)
Lemma lookup_arange (e : nn.Embedding F) (n : nat) :
  nn.wf_embedding e → (n ≤ nn.num_embeddings e)%nat →
  nn.lookup e (seqZ 0 (Z.of_nat n))
  = Ok (torch.T2 n (nn.embedding_dim e) (take n (nn.data (nn.weight e)))).
Proof.
  intros [Hlen Hd] Hn. unfold nn.lookup.
  assert (rmapM (nn.lookup_one e) (seqZ 0 (Z.of_nat n))
          = Ok (take n (nn.data (nn.weight e)))) as ->.
  { apply rmapM_Ok. apply Forall2_same_length_lookup. split.
    - rewrite length_seqZ, length_take. lia.
    - intros k i r Hi Hr. apply lookup_seqZ in Hi as [-> Hk].
      rewrite lookup_take_Some in Hr. destruct Hr as [Hr _].
      unfold nn.lookup_one.
      assert ((0 <=? 0 + Z.of_nat k) && (0 + Z.of_nat k <? Z.of_nat (nn.num_embeddings e)) = true)
        as -> by (apply andb_true_intro; split; lia).
      replace (Z.to_nat (0 + Z.of_nat k)) with k by lia.
      rewrite Hr. reflexivity. }
  cbn [mbind result_bind]. rewrite length_seqZ.
  replace (Z.to_nat (Z.of_nat n)) with n by lia. reflexivity.
Qed.

Lemma bsize_1_l (n : nat) : torch.bsize 1 n = Some n.
Proof.
  unfold torch.bsize. destruct (decide (1%nat = n)) as [<-|_]; [reflexivity|].
  rewrite decide_True by reflexivity. reflexivity.
Qed.

Lemma bsize_1_r (n : nat) : torch.bsize n 1 = Some n.
Proof.
  unfold torch.bsize. destruct (decide (n = 1%nat)) as [->|_]; [reflexivity|].
  rewrite decide_True by reflexivity. reflexivity.
Qed.

Lemma bsize_None (a b : nat) :
  a ≠ b → a ≠ 1%nat → b ≠ 1%nat → torch.bsize a b = None.
Proof.
  intros Hab Ha Hb. unfold torch.bsize. rewrite !decide_False by assumption. reflexivity.
Qed.

Lemma stretch_singleton {A} (n : nat) (x : A) : torch.stretch n [x] = replicate n x.
Proof.
  unfold torch.stretch. destruct (decide (length [x] = n)) as [<-|_]; reflexivity.
Qed.

Lemma expand_row (n d : nat) (r : list F) :
  length r = d → torch.expand n d [r] = replicate n r.
Proof.
  intros Hr. unfold torch.expand. rewrite fmap_cons, (stretch_id _ _ Hr).
  apply stretch_singleton.
Qed.

Lemma concat_replicate_singleton {A} (n : nat) (x : A) :
  concat (replicate n [x]) = replicate n x.
Proof. induction n as [|n IH]; [reflexivity|]. simpl. rewrite IH. reflexivity. Qed.

(** A vector plus a vector of one entry: the entry is added to each. *)
Lemma pointwise_vector_scalar (f : F → F → F) (v : list F) (x : F) :
  torch.pointwise f (torch.T1 v) (torch.T1 [x])
  = Ok (torch.T1 (zip_with f v (replicate (length v) x))).
Proof.
  unfold torch.pointwise, torch.as_rank2.
  rewrite bsize_same. change (length [x]) with 1%nat. rewrite bsize_1_r.
  rewrite (expand_id 1 (length v) [v]) by (split; [reflexivity | repeat constructor]).
  unfold torch.expand. rewrite fmap_cons, stretch_singleton.
  rewrite stretch_id by reflexivity. reflexivity.
Qed.

(** One row against a matrix: the row is repeated. *)
Lemma pointwise_row (f : F → F → F) (n d : nat) (r : list F) (m : torch.matrix F) :
  length r = d → torch.has_shape n d m →
  torch.pointwise f (torch.T2 1 d [r]) (torch.T2 n d m)
  = Ok (torch.T2 n d (zip_with (zip_with f) (replicate n r) m)).
Proof.
  intros Hr Hm. unfold torch.pointwise, torch.as_rank2.
  rewrite bsize_1_l, bsize_same, (expand_row _ _ _ Hr), (expand_id _ _ _ Hm).
  reflexivity.
Qed.

Lemma lookup_one_row (e : nn.Embedding F) (u : Z) (r : list F) :
  nn.lookup_one e u = Ok r →
  nn.lookup e [u] = Ok (torch.T2 1 (nn.embedding_dim e) [r]).
Proof. intros Hr. unfold nn.lookup. simpl. rewrite Hr. reflexivity. Qed.

Lemma lookup_repeated (e : nn.Embedding F) (n : nat) (u : Z) (r : list F) :
  nn.lookup_one e u = Ok r →
  nn.lookup e (replicate n u) = Ok (torch.T2 n (nn.embedding_dim e) (replicate n r)).
Proof.
  intros Hr. unfold nn.lookup.
  assert (rmapM (nn.lookup_one e) (replicate n u) = Ok (replicate n r)) as ->.
  { induction n as [|n IH]; [reflexivity|]. simpl. rewrite Hr, IH. reflexivity. }
  cbn [mbind result_bind]. rewrite length_replicate. reflexivity.
Qed.

End tensor_facts.

(** ** ColdStartModel: the bucket expansion *)

Module ColdStartModel_properties.
Import ColdStartModel.

Section expansion.
Context {F : Type} `{Scalar F}.

Lemma getattr_update_eq (a : attr) (e : nn.Embedding F) (m : Model F) :
  getattr a (update a e m) = e.
Proof. destruct a; reflexivity. Qed.

Lemma getattr_update_ne (a b : attr) (e : nn.Embedding F) (m : Model F) :
  a ≠ b → getattr b (update a e m) = getattr b m.
Proof. intros Hab. destruct a, b; try reflexivity; congruence. Qed.

Lemma hparams_update (a : attr) (e : nn.Embedding F) (m : Model F) :
  hparams (update a e m) = hparams m.
Proof. reflexivity. Qed.

Lemma update_getattr (a : attr) (m : Model F) : update a (getattr a m) m = m.
Proof. destruct m, a; reflexivity. Qed.

Lemma update_update (a : attr) (e1 e2 : nn.Embedding F) (m : Model F) :
  update a e2 (update a e1 m) = update a e2 m.
Proof. destruct a; reflexivity. Qed.

(** What one run of the copy does, outcome and state, in one equation. *)
Lemma _copy_weights_unfold (old new : attr) (buckets : list Z) (w : World F) :
  _copy_weights old new buckets w =
  match
    src ← torch.index (nn.data (nn.weight (getattr old (self w)))) buckets;
    torch.copy_ (nn.num_embeddings (getattr new (self w)))
                (nn.embedding_dim (getattr new (self w)))
                (length buckets) (nn.embedding_dim (getattr old (self w))) src
  with
  | Ok dst =>
      (Ok (), on_self (update new (nn.set_weight_data (getattr new (self w)) dst)) w)
  | Raise e => (Raise e, w)
  end.
Proof.
  unfold _copy_weights, mbind, M_bind, result_bind, get, lift, modify.
  destruct (torch.index _ buckets) as [src|e]; [|reflexivity].
  destruct (torch.copy_ _ _ _ _ src) as [dst|e]; reflexivity.
Qed.

(** A failed copy leaves the whole state as it was. *)
Lemma _copy_weights_Raise (old new : attr) (buckets : list Z) (w : World F) (e : exn) :
  (_copy_weights old new buckets w).1 = Raise e → (_copy_weights old new buckets w).2 = w.
Proof.
  rewrite _copy_weights_unfold.
  destruct (_ ← torch.index _ buckets; _) as [dst|e']; simpl; [discriminate | reflexivity].
Qed.

(** The copy writes to its destination only. *)
Lemma _copy_weights_frame (old new a : attr) (buckets : list Z) (w : World F) :
  a ≠ new →
  getattr a (self (_copy_weights old new buckets w).2) = getattr a (self w).
Proof.
  intros Ha. rewrite _copy_weights_unfold.
  destruct (_ ← torch.index _ buckets; _) as [dst|e]; simpl; [|reflexivity].
  apply getattr_update_ne. congruence.
Qed.

(** On tables of matching shapes and an assignment within the source, the
    copy succeeds and the destination becomes the rows the assignment names. *)
Lemma _copy_weights_Ok (old new : attr) (buckets : list Z) (w : World F) :
  nn.wf_embedding (getattr old (self w)) →
  length buckets = nn.num_embeddings (getattr new (self w)) →
  nn.embedding_dim (getattr old (self w)) = nn.embedding_dim (getattr new (self w)) →
  Forall (λ b, 0 ≤ b < Z.of_nat (nn.num_embeddings (getattr old (self w)))) buckets →
  ∃ rows,
    Forall2 (λ b r, nn.data (nn.weight (getattr old (self w))) !! Z.to_nat b = Some r)
            buckets rows
    ∧ _copy_weights old new buckets w
      = (Ok (), on_self (update new (nn.set_weight_data (getattr new (self w)) rows)) w).
Proof.
  intros [Hn Hd] Hlen Hdim Hrange.
  destruct (index_Ok (nn.data (nn.weight (getattr old (self w)))) buckets)
    as (rows & Hidx & Hrows).
  { rewrite Hn. exact Hrange. }
  exists rows. split; [exact Hrows|].
  rewrite _copy_weights_unfold, Hidx. unfold mbind, result_bind, torch.copy_.
  rewrite decide_True by (split; left; [exact Hlen | exact Hdim]).
  rewrite expand_id; [reflexivity|]. split.
  - rewrite <- Hlen. symmetry. exact (Forall2_length _ _ _ Hrows).
  - rewrite <- Hdim. apply Forall_forall. intros r Hr.
    apply list_elem_of_lookup in Hr as [k Hk].
    destruct (Forall2_lookup_r _ _ _ _ _ Hrows Hk) as (b & _ & Hb).
    rewrite Forall_lookup in Hd. exact (Hd _ _ Hb).
Qed.


(** C3: for two tables, a source and a destination, and any assignment,
    running the bucket-expansion copy a second time gives the outcome and the
    state of the first run (idempotence), and the source table is the same
    after the copy as before it. *)
Theorem _copy_weights_idempotent (old new : attr) (buckets : list Z) (w : World F) :
  old ≠ new →
  _copy_weights old new buckets (_copy_weights old new buckets w).2
  = _copy_weights old new buckets w
  ∧ getattr old (self (_copy_weights old new buckets w).2) = getattr old (self w).
Proof.
  intros Hne. split; [|apply _copy_weights_frame; exact Hne].
  rewrite (_copy_weights_unfold old new buckets w).
  destruct (_ ← torch.index _ buckets; _) as [dst|e] eqn:Hrun; simpl.
  - rewrite _copy_weights_unfold. simpl.
    rewrite getattr_update_eq, getattr_update_ne by congruence.
    simpl. rewrite Hrun. unfold on_self. simpl. rewrite update_update.
    reflexivity.
  - rewrite _copy_weights_unfold, Hrun. reflexivity.
Qed.

End expansion.

Section stages.
Context {F : Type} `{Scalar F}.

Lemma set_stage_unfold (stage : string) (w : World F) :
  set_stage stage w =
  if bool_decide (stage ∈ stage_list (hparams (self w))) then
    if bool_decide (ColdStartModel.stage (hparams (self w)) = "item_buckets")
       && bool_decide (stage = "no_buckets")
    then
      match _copy_weights attr_item_bucket_biases attr_item_biases
                          (item_buckets (hparams (self w)))
                          (printed "item embeddings initialized" w) with
      | (Ok _, w2) =>
          match _copy_weights attr_item_bucket_embeddings attr_item_embeddings
                              (item_buckets (hparams (self w))) w2 with
          | (Ok _, w3) => (Ok (), staged stage w3)
          | (Raise e, w3) => (Raise e, w3)
          end
      | (Raise e, w2) => (Raise e, w2)
      end
    else (Ok (), staged stage w)
  else
    (Raise (ValueError (stage +:+ " is not a valid stage, please choose one of "
                        +:+ str_list (stage_list (hparams (self w))))), w).
Proof.
  unfold set_stage, print, mbind, M_bind, get, raise, modify, mret, M_ret.
  destruct (bool_decide (stage ∈ _)); [|reflexivity].
  destruct (bool_decide (_ = "item_buckets") && bool_decide (stage = "no_buckets"));
    [|reflexivity].
  unfold printed.
  destruct (_copy_weights attr_item_bucket_biases _ _ _) as [[[]|e] w2]; [|reflexivity].
  destruct (_copy_weights attr_item_bucket_embeddings _ _ _) as [[[]|e] w3]; reflexivity.
Qed.

(** Right after the switch from "item_buckets" to "no_buckets", every item
    row is the row of the item's bucket, in the latent and in the bias table,
    and the bucket tables are as before. *)
Lemma set_stage_no_buckets_rows (w : World F) :
  wf_model (self w) →
  stage (hparams (self w)) = "item_buckets" →
  "no_buckets" ∈ stage_list (hparams (self w)) →
  ∃ w', set_stage "no_buckets" w = (Ok (), w')
    ∧ stage (hparams (self w')) = "no_buckets"
    ∧ item_bucket_embeddings (self w') = item_bucket_embeddings (self w)
    ∧ item_bucket_biases (self w') = item_bucket_biases (self w)
    ∧ ∀ i : nat, (i < num_items (hparams (self w)))%nat →
        ∃ b latent bias,
          item_buckets (hparams (self w)) !! i = Some b
          ∧ nn.data (nn.weight (item_bucket_embeddings (self w'))) !! Z.to_nat b = Some latent
          ∧ nn.data (nn.weight (item_embeddings (self w'))) !! i = Some latent
          ∧ nn.data (nn.weight (item_bucket_biases (self w'))) !! Z.to_nat b = Some bias
          ∧ nn.data (nn.weight (item_biases (self w'))) !! i = Some bias.
Proof.
  intros Hwf Hstage Hin.
  rewrite set_stage_unfold, bool_decide_true by exact Hin.
  rewrite Hstage. simpl.
  destruct Hwf as [Hlen Hrange [Hbb [Hbbn Hbbd]] [Hbe [Hben Hbed]] _
                   [_ [Hibn Hibd]] _ [_ [Hien Hied]]].
  destruct (_copy_weights_Ok attr_item_bucket_biases attr_item_biases
              (item_buckets (hparams (self w))) (printed "item embeddings initialized" w))
    as (rows1 & Hrows1 & ->); simpl; try congruence.
  { rewrite Hbbn. exact Hrange. }
  destruct (_copy_weights_Ok attr_item_bucket_embeddings attr_item_embeddings
              (item_buckets (hparams (self w)))
              (on_self (update attr_item_biases
                          (nn.set_weight_data (item_biases (self w)) rows1))
                       (printed "item embeddings initialized" w)))
    as (rows2 & Hrows2 & ->); simpl; try congruence.
  { rewrite Hben. exact Hrange. }
  simpl in Hrows1, Hrows2.
  eexists. split; [reflexivity|]. simpl.
  split; [reflexivity|]. split; [reflexivity|]. split; [reflexivity|].
  intros i Hi.
  destruct (lookup_lt_is_Some_2 (item_buckets (hparams (self w))) i) as [b Hb]; [lia|].
  destruct (Forall2_lookup_l _ _ _ _ _ Hrows1 Hb) as (bias & Hbias & Hsrc1).
  destruct (Forall2_lookup_l _ _ _ _ _ Hrows2 Hb) as (latent & Hlatent & Hsrc2).
  exists b, latent, bias. auto.
Qed.


(** C5: [set_stage] with a name that is not in [stage_list] raises a
    [ValueError] whose message lists the registered names and leaves the
    whole state, the current stage included, as it was; with a registered
    name, on a model of the shapes [_setup_model] builds, it returns and the
    current stage is the target. *)
Theorem set_stage_validates_name (target : string) (w : World F) :
  (target ∉ stage_list (hparams (self w)) →
   set_stage target w
   = (Raise (ValueError (target +:+ " is not a valid stage, please choose one of "
                         +:+ str_list (stage_list (hparams (self w))))), w))
  ∧ (target ∈ stage_list (hparams (self w)) → wf_model (self w) →
     ∃ w', set_stage target w = (Ok (), w') ∧ stage (hparams (self w')) = target).
Proof.
  split.
  - intros Hnot. rewrite set_stage_unfold, bool_decide_false by exact Hnot. reflexivity.
  - intros Hin Hwf. rewrite set_stage_unfold, bool_decide_true by exact Hin.
    destruct (bool_decide (_ = "item_buckets") && bool_decide (target = "no_buckets"));
      [|eexists; split; reflexivity].
    destruct Hwf as [Hlen Hrange [Hbb [Hbbn Hbbd]] [Hbe [Hben Hbed]] _
                     [_ [Hibn Hibd]] _ [_ [Hien Hied]]].
    destruct (_copy_weights_Ok attr_item_bucket_biases attr_item_biases
                (item_buckets (hparams (self w))) (printed "item embeddings initialized" w))
      as (rows1 & _ & ->); simpl; try congruence.
    { rewrite Hbbn. exact Hrange. }
    destruct (_copy_weights_Ok attr_item_bucket_embeddings attr_item_embeddings
                (item_buckets (hparams (self w)))
                (on_self (update attr_item_biases
                            (nn.set_weight_data (item_biases (self w)) rows1))
                         (printed "item embeddings initialized" w)))
      as (rows2 & _ & ->); simpl; try congruence.
    { rewrite Hben. exact Hrange. }
    eexists. split; reflexivity.
Qed.

(** C10: from stage "no_buckets", [set_stage "item_buckets"] raises nothing:
    it sets the current stage to "item_buckets", prints its confirmation
    line, and copies nothing, so that all six tables are as before. *)
Theorem set_stage_back_to_item_buckets (w : World F) :
  stage (hparams (self w)) = "no_buckets" →
  "item_buckets" ∈ stage_list (hparams (self w)) →
  set_stage "item_buckets" w = (Ok (), staged "item_buckets" w)
  ∧ stage (hparams (self (staged "item_buckets" w))) = "item_buckets"
  ∧ ∀ a, getattr a (self (staged "item_buckets" w)) = getattr a (self w).
Proof.
  intros Hstage Hin. split; [|split; [reflexivity | intros []; reflexivity]].
  rewrite set_stage_unfold, bool_decide_true by exact Hin.
  rewrite Hstage. reflexivity.
Qed.

(** The shapes are what [_setup_model] builds, for an assignment that has
    passed the checks of [__init__]. *)
Lemma ZeroEmbedding_wf (n d : nat) : nn.wf_embedding (base.ZeroEmbedding (F := F) n d).
Proof.
  split; simpl; [apply length_replicate|].
  apply Forall_replicate. apply length_replicate.
Qed.

Lemma ScaledEmbedding_wf (draw : nat → nat → F) (n d : nat) :
  nn.wf_embedding (base.ScaledEmbedding draw n d).
Proof.
  split; simpl; [rewrite length_fmap, length_seq; reflexivity|].
  apply Forall_fmap, Forall_forall. intros i _. simpl.
  rewrite length_fmap, length_seq. reflexivity.
Qed.

(** X1: the six tables [_setup_model] builds have the shapes the
    hyperparameters give, so that the model is well-formed as soon as the
    assignment has one in-range bucket id per item. *)
Lemma _setup_model_wf (hp : HParams) (draw_bucket draw_user draw_item : nat → nat → F) :
  length (item_buckets hp) = num_items hp →
  Forall (λ b, 0 ≤ b < Z.of_nat (num_item_buckets hp)) (item_buckets hp) →
  wf_model (_setup_model hp draw_bucket draw_user draw_item).
Proof.
  intros Hlen Hrange.
  split; try assumption; simpl;
    (split; [apply ZeroEmbedding_wf || apply ScaledEmbedding_wf | split; reflexivity]).
Qed.

End stages.

(** ** ColdStartModel: the forward scores *)

Section scoring.
Context {F : Type} `{Scalar F}.
Variable mask : nat → torch.Tensor F → torch.Tensor F.

Lemma scores_of_length (n d : nat) (UE IE UB IB : torch.matrix F) :
  torch.has_shape n d UE → torch.has_shape n d IE →
  torch.has_shape n 1 UB → torch.has_shape n 1 IB →
  length (scores_of UE IE UB IB) = n.
Proof.
  intros [HUE _] [HIE _] [HUB HUB1] [HIB HIB1]. unfold scores_of.
  rewrite !length_zip_with, length_fmap, length_zip_with.
  rewrite !concat_column_length by assumption. lia.
Qed.

Lemma scores_of_lookup (UE IE UB IB : torch.matrix F) (k : nat)
    (ul il : list F) (ub ib : F) :
  UE !! k = Some ul → IE !! k = Some il → UB !! k = Some [ub] → IB !! k = Some [ib] →
  Forall (λ r, length r = 1%nat) UB → Forall (λ r, length r = 1%nat) IB →
  scores_of UE IE UB IB !! k = Some (score ul il ub ib).
Proof.
  intros HUE HIE HUB HIB HUB1 HIB1. unfold scores_of.
  destruct (concat_column_lookup UB k [ub] HUB1 HUB) as (x & [= <-] & Hx).
  destruct (concat_column_lookup IB k [ib] HIB1 HIB) as (y & [= <-] & Hy).
  rewrite !lookup_zip_with, list_lookup_fmap, lookup_zip_with.
  rewrite HUE, HIE, Hx, Hy. reflexivity.
Qed.

Lemma forward_tail (n d : nat) (UE IE UB IB : torch.matrix F) :
  torch.has_shape n d UE → torch.has_shape n d IE →
  torch.has_shape n 1 UB → torch.has_shape n 1 IB →
  (product ← torch.mul_ (torch.T2 n d UE) (torch.T2 n d IE);
   dot ← torch.sum_axis1 product;
   user_biases ← torch.squeeze1 (torch.T2 n 1 UB);
   item_biases ← torch.squeeze1 (torch.T2 n 1 IB);
   partial ← torch.add_ dot user_biases;
   pred_scores ← torch.add_ partial item_biases;
   Ok (torch.squeeze pred_scores))
  = Ok (torch.squeeze (torch.T1 (scores_of UE IE UB IB))).
Proof.
  intros HUE HIE HUB HIB.
  unfold torch.mul_, torch.add_. rewrite (pointwise_same_shape _ _ _ _ _ HUE HIE).
  cbn [mbind result_bind torch.sum_axis1 torch.squeeze1].
  repeat (destruct (decide (1%nat = 1%nat)) as [_|?]; [|congruence]).
  cbn [mbind result_bind].
  destruct HUE as [HUE _], HIE as [HIE _], HUB as [HUB HUB1], HIB as [HIB HIB1].
  rewrite pointwise_vectors
    by (rewrite length_fmap, length_zip_with, concat_column_length by assumption; lia).
  cbn [mbind result_bind].
  rewrite pointwise_vectors
    by (rewrite length_zip_with, length_fmap, length_zip_with,
          !concat_column_length by assumption; lia).
  reflexivity.
Qed.

Lemma Forall2_column (e : nn.Embedding F) (ids : list Z) (rows : torch.matrix F)
    (k : nat) (i : Z) :
  torch.has_shape (length ids) 1 rows →
  Forall2 (λ i r, nn.data (nn.weight e) !! Z.to_nat i = Some r) ids rows →
  ids !! k = Some i →
  ∃ x, rows !! k = Some [x] ∧ nn.data (nn.weight e) !! Z.to_nat i = Some [x].
Proof.
  intros [_ Hw] Hall Hk.
  destruct (Forall2_lookup_l _ _ _ _ _ Hall Hk) as (r & Hr & Hsrc).
  rewrite Forall_lookup in Hw. specialize (Hw _ _ Hr).
  destruct r as [|x [|]]; try discriminate. exists x. split; assumption.
Qed.

(** C6: outside training, for id arrays of equal length with every id in
    range, [forward] returns one score per pair: the sum over the latent
    axis of the products of the user and item latent vectors, plus the user
    bias and the item bias.  In stage "item_buckets" the item vector and bias
    are the rows of the bucket tables at [item_buckets[i]]; in stage
    "no_buckets" they are the rows of the item tables at [i]. *)
Theorem forward_scores (m : Model F) (users items : list Z) :
  wf_model m →
  training m = false →
  length users = length items →
  Forall (λ u, 0 ≤ u < Z.of_nat (num_users (hparams m))) users →
  Forall (λ i, 0 ≤ i < Z.of_nat (num_items (hparams m))) items →
  stage (hparams m) = "item_buckets" ∨ stage (hparams m) = "no_buckets" →
  ∃ scores,
    forward mask m users items = Ok (torch.squeeze (torch.T1 scores))
    ∧ length scores = length users
    ∧ ∀ k u i, users !! k = Some u → items !! k = Some i →
        ∃ user_latent user_bias item_latent item_bias,
          nn.data (nn.weight (user_embeddings m)) !! Z.to_nat u = Some user_latent
          ∧ nn.data (nn.weight (user_biases m)) !! Z.to_nat u = Some [user_bias]
          ∧ item_rows m i item_latent item_bias
          ∧ scores !! k = Some (score user_latent item_latent user_bias item_bias).
Proof.
  intros Hwf Htrain Hlen Husers Hitems Hstage.
  destruct Hwf as [Hblen Hbrange [Hbb [Hbbn Hbbd]] [Hbe [Hben Hbed]] [Hub [Hubn Hubd]]
                   [Hib [Hibn Hibd]] [Hue [Huen Hued]] [Hie [Hien Hied]]].
  destruct (lookup_Ok (user_embeddings m) users Hue) as (UE & HUE & HUEs & HUEa).
  { rewrite Huen. exact Husers. }
  destruct (lookup_Ok (user_biases m) users Hub) as (UB & HUB & HUBs & HUBa).
  { rewrite Hubn. exact Husers. }
  rewrite Hued in HUE, HUEs. rewrite Hubd in HUB, HUBs.
  assert (∃ IE IB,
    (if bool_decide (stage (hparams m) = "item_buckets") then
       items ← torch.index (item_buckets (hparams m)) items;
       item_embeddings ← nn.lookup (item_bucket_embeddings m) items;
       item_biases ← nn.lookup (item_bucket_biases m) items;
       Ok (item_embeddings, item_biases)
     else if bool_decide (stage (hparams m) = "no_buckets") then
       item_embeddings ← nn.lookup (item_embeddings m) items;
       item_biases ← nn.lookup (item_biases m) items;
       Ok (item_embeddings, item_biases)
     else Raise (UnboundLocalError "item_embeddings"))
    = Ok (torch.T2 (length users) (embedding_dim (hparams m)) IE,
          torch.T2 (length users) 1 IB)
    ∧ torch.has_shape (length users) (embedding_dim (hparams m)) IE
    ∧ torch.has_shape (length users) 1 IB
    ∧ ∀ k i, items !! k = Some i →
        ∃ il ib, IE !! k = Some il ∧ IB !! k = Some [ib] ∧ item_rows m i il ib)
    as (IE & IB & Hbranch & HIEs & HIBs & Hrows).
  { rewrite Hlen. destruct Hstage as [Hs|Hs]; rewrite Hs; simpl.
    - destruct (index_Ok (item_buckets (hparams m)) items) as (bs & Hbs & Hbsa).
      { rewrite Hblen. exact Hitems. }
      assert (Forall (λ b, 0 ≤ b < Z.of_nat (num_item_buckets (hparams m))) bs) as Hbsr.
      { apply Forall_forall. intros b Hb. apply list_elem_of_lookup in Hb as [k Hk].
        destruct (Forall2_lookup_r _ _ _ _ _ Hbsa Hk) as (i & _ & Hi).
        rewrite Forall_lookup in Hbrange. exact (Hbrange _ _ Hi). }
      destruct (lookup_Ok (item_bucket_embeddings m) bs Hbe) as (IE & HIE & HIEs & HIEa).
      { rewrite Hben. exact Hbsr. }
      destruct (lookup_Ok (item_bucket_biases m) bs Hbb) as (IB & HIB & HIBs & HIBa).
      { rewrite Hbbn. exact Hbsr. }
      pose proof (Forall2_length _ _ _ Hbsa) as Hbl.
      rewrite Hbed, <- Hbl in HIE, HIEs. rewrite Hbbd, <- Hbl in HIB, HIBs.
      exists IE, IB. rewrite Hbs. cbn [mbind result_bind]. rewrite HIE.
      cbn [mbind result_bind]. rewrite HIB. cbn [mbind result_bind].
      repeat split; try assumption; try apply HIEs; try apply HIBs.
      intros k i Hk.
      destruct (Forall2_lookup_l _ _ _ _ _ Hbsa Hk) as (b & Hb & Hib').
      destruct (Forall2_lookup_l _ _ _ _ _ HIEa Hb) as (il & Hil & Hsrc).
      destruct (Forall2_column (item_bucket_biases m) bs IB k b) as (ib & Hibk & Hsrcb);
        [rewrite <- Hbl; exact HIBs | exact HIBa | exact Hb |].
      exists il, ib. split; [exact Hil|]. split; [exact Hibk|]. split.
      + intros _. exists b. auto.
      + rewrite Hs. discriminate.
    - destruct (lookup_Ok (item_embeddings m) items Hie) as (IE & HIE & HIEs & HIEa).
      { rewrite Hien. exact Hitems. }
      destruct (lookup_Ok (item_biases m) items Hib) as (IB & HIB & HIBs & HIBa).
      { rewrite Hibn. exact Hitems. }
      rewrite Hied in HIE, HIEs. rewrite Hibd in HIB, HIBs.
      exists IE, IB. rewrite HIE. cbn [mbind result_bind]. rewrite HIB.
      cbn [mbind result_bind].
      repeat split; try assumption; try apply HIEs; try apply HIBs.
      intros k i Hk.
      destruct (Forall2_lookup_l _ _ _ _ _ HIEa Hk) as (il & Hil & Hsrc).
      destruct (Forall2_column (item_biases m) items IB k i HIBs HIBa Hk)
        as (ib & Hibk & Hsrcb).
      exists il, ib. split; [exact Hil|]. split; [exact Hibk|]. split.
      + rewrite Hs. discriminate.
      + intros _. auto. }
  exists (scores_of UE IE UB IB).
  split; [|split].
  - unfold forward. rewrite HUE. cbn [mbind result_bind]. rewrite HUB.
    cbn [mbind result_bind]. rewrite Hbranch. cbn [mbind result_bind].
    rewrite Htrain. unfold dropout.
    exact (forward_tail _ _ UE IE UB IB HUEs HIEs HUBs HIBs).
  - exact (scores_of_length _ _ UE IE UB IB HUEs HIEs HUBs HIBs).
  - intros k u i Hu Hi.
    destruct (Forall2_lookup_l _ _ _ _ _ HUEa Hu) as (ul & Hul & Hsrc).
    destruct (Forall2_column (user_biases m) users UB k u HUBs HUBa Hu)
      as (ub & Hubk & Hsrcb).
    destruct (Hrows k i Hi) as (il & ib & Hil & Hibk & Hir).
    exists ul, ub, il, ib. split; [exact Hsrc|]. split; [exact Hsrcb|].
    split; [exact Hir|].
    apply scores_of_lookup; try assumption; [apply HUBs | apply HIBs].
Qed.

End scoring.

Ltac wf_by_computation :=
  repeat match goal with
         | |- wf_model _ => constructor
         | |- nn.wf_embedding _ => split
         | |- _ ∧ _ => split
         | |- Forall _ _ => repeat constructor
         end;
  simpl; try reflexivity; try lia.

Lemma docstring_model_wf : wf_model docstring_model.
Proof. wf_by_computation. Qed.

(** C2: right after the switch from "item_buckets" to "no_buckets", for every
    item id [i] below [num_items], row [i] of the item latent table is row
    [item_buckets[i]] of the bucket latent table, and row [i] of the item bias
    table is row [item_buckets[i]] of the bucket bias table; on the bucket
    table [[9],[8],[7]] and the assignment [1,0,2,2,1] the item table becomes
    [[8],[9],[7],[7],[8]]. *)
Theorem set_stage_expands_buckets :
  (∀ (F : Type) (HF : Scalar F) (w : World F),
     wf_model (self w) →
     stage (hparams (self w)) = "item_buckets" →
     "no_buckets" ∈ stage_list (hparams (self w)) →
     ∃ w', set_stage "no_buckets" w = (Ok (), w')
       ∧ stage (hparams (self w')) = "no_buckets"
       ∧ item_bucket_embeddings (self w') = item_bucket_embeddings (self w)
       ∧ item_bucket_biases (self w') = item_bucket_biases (self w)
       ∧ ∀ i : nat, (i < num_items (hparams (self w)))%nat →
           ∃ b latent bias,
             item_buckets (hparams (self w)) !! i = Some b
             ∧ nn.data (nn.weight (item_bucket_embeddings (self w'))) !! Z.to_nat b
               = Some latent
             ∧ nn.data (nn.weight (item_embeddings (self w'))) !! i = Some latent
             ∧ nn.data (nn.weight (item_bucket_biases (self w'))) !! Z.to_nat b
               = Some bias
             ∧ nn.data (nn.weight (item_biases (self w'))) !! i = Some bias)
  ∧ (nn.data (nn.weight (item_bucket_embeddings docstring_model)) = [[9]; [8]; [7]]
     ∧ item_buckets (hparams docstring_model) = [1; 0; 2; 2; 1]
     ∧ ∃ w', set_stage "no_buckets" docstring_world = (Ok (), w')
         ∧ nn.data (nn.weight (item_embeddings (self w'))) = [[8]; [9]; [7]; [7]; [8]]).
Proof.
  split.
  - intros F HF w. apply set_stage_no_buckets_rows.
  - split; [reflexivity|]. split; [reflexivity|].
    eexists. split; vm_compute; reflexivity.
Qed.

Lemma set_stage_expands_buckets_witness :
  wf_model docstring_model
  ∧ stage (hparams docstring_model) = "item_buckets"
  ∧ "no_buckets" ∈ stage_list (hparams docstring_model)
  ∧ ∃ w', set_stage "no_buckets" docstring_world = (Ok (), w')
      ∧ stage (hparams (self w')) = "no_buckets".
Proof.
  assert (wf_model docstring_model) as Hwf by wf_by_computation.
  assert ("no_buckets" ∈ stage_list (hparams docstring_model)) as Hin
    by (apply (bool_decide_unpack _); vm_compute; exact I).
  split; [exact Hwf|]. split; [reflexivity|]. split; [exact Hin|].
  destruct (proj1 set_stage_expands_buckets Z _ docstring_world Hwf eq_refl Hin)
    as (w' & Hrun & Hstage & _).
  exists w'. split; assumption.
Defined.

Lemma _copy_weights_idempotent_witness :
  attr_item_bucket_embeddings ≠ attr_item_embeddings
  ∧ (_copy_weights attr_item_bucket_embeddings attr_item_embeddings [1; 0; 2; 2; 1]
       (_copy_weights attr_item_bucket_embeddings attr_item_embeddings [1; 0; 2; 2; 1]
          docstring_world).2
     = _copy_weights attr_item_bucket_embeddings attr_item_embeddings [1; 0; 2; 2; 1]
         docstring_world
     ∧ getattr attr_item_bucket_embeddings
         (self (_copy_weights attr_item_bucket_embeddings attr_item_embeddings
                  [1; 0; 2; 2; 1] docstring_world).2)
       = getattr attr_item_bucket_embeddings (self docstring_world)).
Proof.
  split; [discriminate|].
  apply (_copy_weights_idempotent attr_item_bucket_embeddings attr_item_embeddings
           [1; 0; 2; 2; 1] docstring_world).
  discriminate.
Defined.

Lemma set_stage_validates_name_witness :
  (("warmup" ∉ stage_list (hparams docstring_model))
   ∧ set_stage "warmup" docstring_world
     = (Raise (ValueError "warmup is not a valid stage, please choose one of ['item_buckets', 'no_buckets']"),
        docstring_world))
  ∧ ("no_buckets" ∈ stage_list (hparams docstring_model)
     ∧ wf_model docstring_model
     ∧ ∃ w', set_stage "no_buckets" docstring_world = (Ok (), w')
         ∧ stage (hparams (self w')) = "no_buckets").
Proof.
  assert ("warmup" ∉ stage_list (hparams docstring_model)) as Hout
    by (apply (bool_decide_unpack _); vm_compute; exact I).
  assert ("no_buckets" ∈ stage_list (hparams docstring_model)) as Hin
    by (apply (bool_decide_unpack _); vm_compute; exact I).
  assert (wf_model docstring_model) as Hwf by wf_by_computation.
  split.
  - split; [exact Hout|].
    exact (proj1 (set_stage_validates_name "warmup" docstring_world) Hout).
  - split; [exact Hin|]. split; [exact Hwf|].
    exact (proj2 (set_stage_validates_name "no_buckets" docstring_world) Hin Hwf).
Defined.

Lemma set_stage_back_to_item_buckets_witness :
  let w := on_self (set_hparams_stage "no_buckets") docstring_world in
  stage (hparams (self w)) = "no_buckets"
  ∧ "item_buckets" ∈ stage_list (hparams (self w))
  ∧ set_stage "item_buckets" w = (Ok (), staged "item_buckets" w).
Proof.
  intros w.
  assert ("item_buckets" ∈ stage_list (hparams (self w))) as Hin
    by (apply (bool_decide_unpack _); vm_compute; exact I).
  split; [reflexivity|]. split; [exact Hin|].
  exact (proj1 (set_stage_back_to_item_buckets w eq_refl Hin)).
Defined.

(** C1: the validity test of [__init__] compares the set of bucket ids with
    [range(train.num_users)].  The assignment of the docstring, five items in
    three buckets, is valid, and [__init__] rejects it for a dataset of ten
    users. *)
Theorem __init___rejects_docstring_item_buckets :
  valid_item_buckets 5 docstring_item_buckets
  ∧ __init__ {| Interactions.num_users := 10; Interactions.num_items := 5 |}
             docstring_item_buckets
    = Raise (ValueError "``item_buckets`` must contain every integer between 0 and 9.").
Proof.
  split; [|vm_compute; reflexivity].
  unfold valid_item_buckets, docstring_item_buckets.
  split; [reflexivity|]. split; [discriminate|].
  split; [intros b Hb; set_unfold; lia|].
  split; [set_unfold; lia|].
  intros b k Hb Hk. set_unfold. lia.
Qed.

Lemma forward_scores_witness :
  let users := [0; 1] in
  let items := [0; 3] in
  wf_model docstring_model
  ∧ training docstring_model = false
  ∧ length users = length items
  ∧ Forall (λ u, 0 ≤ u < Z.of_nat (num_users (hparams docstring_model))) users
  ∧ Forall (λ i, 0 ≤ i < Z.of_nat (num_items (hparams docstring_model))) items
  ∧ ∃ scores,
      forward (λ _ t, t) docstring_model users items = Ok (torch.squeeze (torch.T1 scores))
      ∧ length scores = length users.
Proof.
  intros users items.
  assert (wf_model docstring_model) as Hwf by wf_by_computation.
  assert (Forall (λ u, 0 ≤ u < Z.of_nat (num_users (hparams docstring_model))) users)
    as Hu by (repeat constructor; simpl; lia).
  assert (Forall (λ i, 0 ≤ i < Z.of_nat (num_items (hparams docstring_model))) items)
    as Hi by (repeat constructor; simpl; lia).
  split; [exact Hwf|]. split; [reflexivity|]. split; [reflexivity|].
  split; [exact Hu|]. split; [exact Hi|].
  destruct (forward_scores (λ _ t, t) docstring_model users items
              Hwf eq_refl eq_refl Hu Hi (or_introl eq_refl))
    as (scores & Hrun & Hlen & _).
  exists scores. split; assumption.
Defined.

Example forward_docstring_model :
  forward (λ _ t, t) docstring_model [0; 1] [0; 3] = Ok (torch.T1 [31; 47]).
Proof. vm_compute. reflexivity. Qed.

Example forward_docstring_model_single :
  forward (λ _ t, t) docstring_model [1] [3] = Ok (torch.T0 47).
Proof. vm_compute. reflexivity. Qed.

(** What [__init__] accepts.  An accepted assignment is valid, the number of
    buckets is its largest id plus one, and that is the number of users. *)
Lemma py_min_Ok (xs : list Z) (lo : Z) :
  py_min xs = Ok lo → lo ∈ xs ∧ ∀ x, x ∈ xs → lo ≤ x.
Proof.
  destruct xs as [|x xs]; [discriminate|]. simpl. intros [= <-].
  revert x. induction xs as [|y xs IH]; intros x; simpl.
  - split; [set_solver|]. intros z Hz. set_unfold. lia.
  - destruct (IH (Z.min x y)) as [Hin Hle]. split.
    + set_unfold. destruct Hin as [Hin|Hin]; [|auto]. lia.
    + intros z Hz. set_unfold. destruct Hz as [->|[->|Hz]].
      * specialize (Hle (x `min` y)). lia.
      * specialize (Hle (x `min` y)). lia.
      * apply Hle. auto.
Qed.

Lemma tensor_max_Ok (xs : list Z) (hi : Z) :
  tensor_max xs = Ok hi → hi ∈ xs ∧ ∀ x, x ∈ xs → x ≤ hi.
Proof.
  destruct xs as [|x xs]; [discriminate|]. simpl. intros [= <-].
  revert x. induction xs as [|y xs IH]; intros x; simpl.
  - split; [set_solver|]. intros z Hz. set_unfold. lia.
  - destruct (IH (Z.max x y)) as [Hin Hle]. split.
    + set_unfold. destruct Hin as [Hin|Hin]; [|auto]. lia.
    + intros z Hz. set_unfold. destruct Hz as [->|[->|Hz]].
      * specialize (Hle (x `max` y)). lia.
      * specialize (Hle (x `max` y)). lia.
      * apply Hle. auto.
Qed.

Lemma __init___Ok_valid (train : Interactions.t) (item_buckets : list Z)
    (args : InitArguments) :
  __init__ train item_buckets = Ok args →
  valid_item_buckets (Interactions.num_items train) item_buckets
  ∧ (∃ hi, tensor_max item_buckets = Ok hi ∧ init_num_item_buckets args = hi + 1)
  ∧ init_num_item_buckets args = Z.of_nat (Interactions.num_users train).
Proof.
  unfold __init__, torch.tensor.
  destruct (forallb _ item_buckets); [|discriminate].
  cbn [mbind result_bind negb bool_decide decide_rel].
  rewrite bool_decide_true by reflexivity. cbn [negb].
  case_bool_decide as Hlen; [discriminate|].
  destruct (py_min item_buckets) as [lo|] eqn:Hmin; [|discriminate].
  cbn [mbind result_bind].
  case_bool_decide as Hlo; [discriminate|].
  case_bool_decide as Hset; [discriminate|].
  destruct (tensor_max item_buckets) as [hi|] eqn:Hmax; [|discriminate].
  cbn [mbind result_bind]. intros [= <-]. simpl.
  try apply dec_stable in Hlen. try apply dec_stable in Hlo.
  try apply dec_stable in Hset.
  subst lo.
  destruct (py_min_Ok _ _ Hmin) as [H0 Hge].
  destruct (tensor_max_Ok _ _ Hmax) as [Hhi Hle].
  assert (∀ x, x ∈ item_buckets ↔ 0 ≤ x < Z.of_nat (Interactions.num_users train))
    as Hcover.
  { intros x. rewrite <- (elem_of_list_to_set (C := gset Z)), Hset.
    rewrite elem_of_list_to_set, elem_of_seqZ. lia. }
  split; [|split].
  - split; [exact Hlen|]. split; [intros ->; set_solver|].
    split; [exact Hge|]. split; [exact H0|].
    intros b k Hb Hk. apply Hcover. apply Hcover in Hb. lia.
  - exists hi. split; reflexivity.
  - apply Hcover in Hhi.
    assert (Z.of_nat (Interactions.num_users train) - 1 ∈ item_buckets) as Htop
      by (apply Hcover; lia).
    apply Hle in Htop. lia.
Qed.

(** ** ColdStartModel: the stages, beyond the expansion *)

Section transitions.
Context {F : Type} `{Scalar F}.
Variable mask : nat → torch.Tensor F → torch.Tensor F.

Lemma _copy_weights_hparams (old new : attr) (buckets : list Z) (w : World F) :
  hparams (self (_copy_weights old new buckets w).2) = hparams (self w)
  ∧ training (self (_copy_weights old new buckets w).2) = training (self w).
Proof.
  rewrite _copy_weights_unfold.
  destruct (_ ← torch.index _ buckets; _) as [dst|e]; split; reflexivity.
Qed.

(** The state [set_stage] reaches from a well-formed model in stage
    "item_buckets" when asked for "no_buckets". *)
Lemma set_stage_no_buckets_state (w : World F) :
  wf_model (self w) →
  stage (hparams (self w)) = "item_buckets" →
  "no_buckets" ∈ stage_list (hparams (self w)) →
  ∃ biases latents,
    Forall2 (λ b r, nn.data (nn.weight (item_bucket_biases (self w))) !! Z.to_nat b = Some r)
            (item_buckets (hparams (self w))) biases
    ∧ Forall2 (λ b r, nn.data (nn.weight (item_bucket_embeddings (self w))) !! Z.to_nat b
                      = Some r)
              (item_buckets (hparams (self w))) latents
    ∧ set_stage "no_buckets" w
      = (Ok (),
         staged "no_buckets"
           (on_self (update attr_item_embeddings
                       (nn.set_weight_data (item_embeddings (self w)) latents))
              (on_self (update attr_item_biases
                          (nn.set_weight_data (item_biases (self w)) biases))
                 (printed "item embeddings initialized" w)))).
Proof.
  intros Hwf Hstage Hin.
  rewrite set_stage_unfold, bool_decide_true by exact Hin.
  rewrite Hstage. simpl.
  destruct Hwf as [Hlen Hrange [Hbb [Hbbn Hbbd]] [Hbe [Hben Hbed]] _
                   [_ [Hibn Hibd]] _ [_ [Hien Hied]]].
  destruct (_copy_weights_Ok attr_item_bucket_biases attr_item_biases
              (item_buckets (hparams (self w))) (printed "item embeddings initialized" w))
    as (rows1 & Hrows1 & ->); simpl; try congruence.
  { rewrite Hbbn. exact Hrange. }
  destruct (_copy_weights_Ok attr_item_bucket_embeddings attr_item_embeddings
              (item_buckets (hparams (self w)))
              (on_self (update attr_item_biases
                          (nn.set_weight_data (item_biases (self w)) rows1))
                       (printed "item embeddings initialized" w)))
    as (rows2 & Hrows2 & ->); simpl; try congruence.
  { rewrite Hben. exact Hrange. }
  simpl in Hrows1, Hrows2.
  exists rows1, rows2. split; [exact Hrows1|]. split; [exact Hrows2|]. reflexivity.
Qed.

Lemma Forall2_rows_shape (e : nn.Embedding F) (ids : list Z) (rows : torch.matrix F) :
  nn.wf_embedding e →
  Forall2 (λ b r, nn.data (nn.weight e) !! Z.to_nat b = Some r) ids rows →
  torch.has_shape (length ids) (nn.embedding_dim e) rows.
Proof.
  intros [_ Hd] Hrows. split.
  - symmetry. exact (Forall2_length _ _ _ Hrows).
  - apply Forall_forall. intros r Hr.
    apply list_elem_of_lookup in Hr as [k Hk].
    destruct (Forall2_lookup_r _ _ _ _ _ Hrows Hk) as (b & _ & Hb).
    rewrite Forall_lookup in Hd. exact (Hd _ _ Hb).
Qed.

(** X2: [set_stage] never writes to the user tables or to the bucket tables,
    nor to any hyperparameter but the stage, nor to the training mode,
    whatever its target and its outcome. *)
Theorem set_stage_frame (target : string) (w : World F) :
  let m' := self (set_stage target w).2 in
  item_bucket_biases m' = item_bucket_biases (self w)
  ∧ item_bucket_embeddings m' = item_bucket_embeddings (self w)
  ∧ user_biases m' = user_biases (self w)
  ∧ user_embeddings m' = user_embeddings (self w)
  ∧ training m' = training (self w)
  ∧ stage_list (hparams m') = stage_list (hparams (self w))
  ∧ item_buckets (hparams m') = item_buckets (hparams (self w))
  ∧ num_users (hparams m') = num_users (hparams (self w))
  ∧ num_items (hparams m') = num_items (hparams (self w))
  ∧ num_item_buckets (hparams m') = num_item_buckets (hparams (self w))
  ∧ embedding_dim (hparams m') = embedding_dim (hparams (self w))
  ∧ sparse (hparams m') = sparse (hparams (self w)).
Proof.
  cbv zeta. rewrite set_stage_unfold.
  destruct (bool_decide (target ∈ _)); [|repeat split].
  destruct (bool_decide _ && bool_decide _); [|repeat split].
  set (w1 := printed "item embeddings initialized" w).
  set (bs := item_buckets (hparams (self w))).
  pose proof (λ a, _copy_weights_frame attr_item_bucket_biases attr_item_biases a bs w1) as Hf1.
  pose proof (_copy_weights_hparams attr_item_bucket_biases attr_item_biases bs w1) as [Hh1 Ht1].
  destruct (_copy_weights attr_item_bucket_biases _ _ _) as [[[]|e] w2]; simpl in Hf1, Hh1, Ht1.
  - pose proof (λ a, _copy_weights_frame attr_item_bucket_embeddings attr_item_embeddings a bs w2)
      as Hf2.
    pose proof (_copy_weights_hparams attr_item_bucket_embeddings attr_item_embeddings bs w2)
      as [Hh2 Ht2].
    assert (∀ a, a ≠ attr_item_biases → a ≠ attr_item_embeddings →
              getattr a (self (_copy_weights attr_item_bucket_embeddings attr_item_embeddings
                                 bs w2).2) = getattr a (self w)) as Hf.
    { intros a Ha1 Ha2. rewrite (Hf2 a Ha2). exact (Hf1 a Ha1). }
    clear Hf1 Hf2.
    destruct (_copy_weights attr_item_bucket_embeddings _ _ _) as [[[]|e] w3];
      simpl in Hf, Hh2, Ht2; simpl; rewrite ?Hh2, ?Hh1, ?Ht2, ?Ht1;
      (split; [exact (Hf attr_item_bucket_biases ltac:(discriminate) ltac:(discriminate))|]);
      (split; [exact (Hf attr_item_bucket_embeddings ltac:(discriminate) ltac:(discriminate))|]);
      (split; [exact (Hf attr_user_biases ltac:(discriminate) ltac:(discriminate))|]);
      (split; [exact (Hf attr_user_embeddings ltac:(discriminate) ltac:(discriminate))|]);
      repeat split.
  - simpl. rewrite ?Hh1, ?Ht1.
    split; [exact (Hf1 attr_item_bucket_biases ltac:(discriminate))|].
    split; [exact (Hf1 attr_item_bucket_embeddings ltac:(discriminate))|].
    split; [exact (Hf1 attr_user_biases ltac:(discriminate))|].
    split; [exact (Hf1 attr_user_embeddings ltac:(discriminate))|].
    repeat split.
Qed.

(** X3: a call of [set_stage] that raises leaves the stage, and the whole
    hyperparameter record, as it was. *)
Theorem set_stage_Raise_keeps_stage (target : string) (w : World F) (e : exn) :
  (set_stage target w).1 = Raise e →
  hparams (self (set_stage target w).2) = hparams (self w).
Proof.
  rewrite set_stage_unfold.
  destruct (bool_decide (target ∈ _)); [|reflexivity].
  destruct (bool_decide _ && bool_decide _); [|discriminate].
  set (w1 := printed "item embeddings initialized" w).
  set (bs := item_buckets (hparams (self w))).
  pose proof (_copy_weights_hparams attr_item_bucket_biases attr_item_biases bs w1) as [Hh1 _].
  destruct (_copy_weights attr_item_bucket_biases _ _ _) as [[[]|e1] w2];
    simpl in Hh1; [|intros _; exact Hh1].
  pose proof (_copy_weights_hparams attr_item_bucket_embeddings attr_item_embeddings bs w2)
    as [Hh2 _].
  destruct (_copy_weights attr_item_bucket_embeddings _ _ _) as [[[]|e2] w3];
    simpl in Hh2; [discriminate|].
  intros _. simpl. rewrite Hh2. exact Hh1.
Qed.

(** X4: [set_stage] keeps the shapes: from a well-formed model, whatever the
    target, the model it leaves is well-formed. *)
Theorem set_stage_wf (target : string) (w : World F) :
  wf_model (self w) → wf_model (self (set_stage target w).2).
Proof.
  intros Hwf.
  destruct (decide (stage (hparams (self w)) = "item_buckets" ∧ target = "no_buckets"
                    ∧ target ∈ stage_list (hparams (self w)))) as [(Hs & -> & Hin)|Hno].
  - destruct (set_stage_no_buckets_state w Hwf Hs Hin) as (biases & latents & Hb & Hl & ->).
    destruct Hwf as [Hlen Hrange [Hbb [Hbbn Hbbd]] [Hbe [Hben Hbed]] Hub
                     [Hib [Hibn Hibd]] Hue [Hie [Hien Hied]]].
    pose proof (Forall2_rows_shape _ _ _ Hbb Hb) as Hsb.
    pose proof (Forall2_rows_shape _ _ _ Hbe Hl) as Hsl.
    split; simpl; try assumption; try (split; [assumption | split; assumption]).
    + split; [|split; assumption]. unfold nn.wf_embedding. simpl.
      rewrite Hibn, Hibd, <- Hlen, <- Hbbd. exact Hsb.
    + split; [|split; assumption]. unfold nn.wf_embedding. simpl.
      rewrite Hien, Hied, <- Hlen, <- Hbed. exact Hsl.
  - rewrite set_stage_unfold.
    case_bool_decide as Hin; [|exact Hwf].
    destruct (bool_decide _ && bool_decide _) eqn:Hgo.
    + apply andb_prop in Hgo as [Hs Ht].
      apply bool_decide_eq_true in Hs, Ht. tauto.
    + destruct Hwf. split; assumption.
Qed.

(** X5: [set_stage] copies on the way from "item_buckets" to "no_buckets"
    and on no other: any other call with a registered name returns, sets the
    stage, and leaves all six tables as they are, so that asking for
    "no_buckets" a second time keeps what the item tables have become. *)
Theorem set_stage_copies_only_on_expansion (target : string) (w : World F) :
  target ∈ stage_list (hparams (self w)) →
  stage (hparams (self w)) ≠ "item_buckets" ∨ target ≠ "no_buckets" →
  set_stage target w = (Ok (), staged target w)
  ∧ ∀ a, getattr a (self (staged target w)) = getattr a (self w).
Proof.
  intros Hin Hno. split; [|intros []; reflexivity].
  rewrite set_stage_unfold, bool_decide_true by exact Hin.
  destruct Hno as [Hno|Hno]; rewrite (bool_decide_false _ Hno);
    rewrite ?andb_false_r; reflexivity.
Qed.


(** In stage "item_buckets" the scores read the user tables, the bucket
    tables and the assignment, and nothing else of the model. *)
Lemma forward_item_buckets_ext (m m' : Model F) (users items : list Z) :
  stage (hparams m) = "item_buckets" →
  hparams m' = hparams m →
  user_embeddings m' = user_embeddings m →
  user_biases m' = user_biases m →
  item_bucket_embeddings m' = item_bucket_embeddings m →
  item_bucket_biases m' = item_bucket_biases m →
  training m' = training m →
  forward mask m' users items = forward mask m users items.
Proof.
  intros Hs Hhp Hue Hub Hbe Hbb Ht. unfold forward.
  rewrite Hhp, Hue, Hub, Hbe, Hbb, Ht, Hs. reflexivity.
Qed.


(** X7: going to "no_buckets" and back to "item_buckets" changes no score:
    both calls return, the hyperparameters are as at the start, and
    [forward] returns what it returned at the start, for all ids. *)
Theorem set_stage_round_trip (w : World F) :
  wf_model (self w) →
  stage (hparams (self w)) = "item_buckets" →
  "no_buckets" ∈ stage_list (hparams (self w)) →
  "item_buckets" ∈ stage_list (hparams (self w)) →
  ∃ w1 w2,
    set_stage "no_buckets" w = (Ok (), w1)
    ∧ set_stage "item_buckets" w1 = (Ok (), w2)
    ∧ hparams (self w2) = hparams (self w)
    ∧ ∀ users items,
        forward mask (self w2) users items = forward mask (self w) users items.
Proof.
  intros Hwf Hs Hin1 Hin2.
  destruct (set_stage_no_buckets_state w Hwf Hs Hin1) as (biases & latents & _ & _ & ->).
  eexists. eexists. split; [reflexivity|].
  rewrite set_stage_unfold. cbn [self staged printed on_self set_hparams_stage update hparams
                                 stage stage_list].
  rewrite (bool_decide_true _ Hin2).
  rewrite (bool_decide_false ("no_buckets" = "item_buckets")) by discriminate.
  cbn [andb]. split; [reflexivity|].
  assert (hparams (self (staged "item_buckets"
            (staged "no_buckets"
               (on_self (update attr_item_embeddings
                           (nn.set_weight_data (item_embeddings (self w)) latents))
                  (on_self (update attr_item_biases
                              (nn.set_weight_data (item_biases (self w)) biases))
                     (printed "item embeddings initialized" w))))))
          = hparams (self w)) as Hhp.
  { simpl. rewrite <- Hs. destruct (hparams (self w)). reflexivity. }
  split; [exact Hhp|].
  intros users items. apply forward_item_buckets_ext; try reflexivity; assumption.
Qed.

End transitions.

(** ** ColdStartModel: errors and edges of the scores *)

Section errors.
Context {F : Type} `{Scalar F}.
Variable mask : nat → torch.Tensor F → torch.Tensor F.

(** X8: [forward] on an id out of range.  A user id that is negative or not
    below [num_users] raises [IndexError], in every stage.  With the user ids
    in range, an item id raises [IndexError] in stage "no_buckets" when it is
    negative or not below [num_items], and in stage "item_buckets" when it is
    below [-num_items] or not below [num_items]. *)
Theorem forward_IndexError (m : Model F) (users items : list Z) :
  wf_model m →
  (Exists (λ u, ¬ (0 ≤ u < Z.of_nat (num_users (hparams m)))) users →
   forward mask m users items = Raise IndexError)
  ∧ (Forall (λ u, 0 ≤ u < Z.of_nat (num_users (hparams m))) users →
     stage (hparams m) = "no_buckets" →
     Exists (λ i, ¬ (0 ≤ i < Z.of_nat (num_items (hparams m)))) items →
     forward mask m users items = Raise IndexError)
  ∧ (Forall (λ u, 0 ≤ u < Z.of_nat (num_users (hparams m))) users →
     stage (hparams m) = "item_buckets" →
     Exists (λ i, ¬ (- Z.of_nat (num_items (hparams m)) ≤ i
                     < Z.of_nat (num_items (hparams m)))) items →
     forward mask m users items = Raise IndexError).
Proof.
  intros [Hlen _ _ _ [Hub [Hubn _]] [_ [Hibn _]] [Hue [Huen _]] [_ [Hien _]]].
  split; [|split].
  - intros Hex. unfold forward.
    rewrite (lookup_Raise (user_embeddings m) users); [reflexivity|].
    rewrite Huen. exact Hex.
  - intros Husers Hs Hex. unfold forward.
    destruct (lookup_Ok (user_embeddings m) users Hue) as (UE & -> & _).
    { rewrite Huen. exact Husers. }
    destruct (lookup_Ok (user_biases m) users Hub) as (UB & -> & _).
    { rewrite Hubn. exact Husers. }
    cbn [mbind result_bind]. rewrite Hs.
    rewrite (bool_decide_false ("no_buckets" = "item_buckets")) by discriminate.
    rewrite (bool_decide_true ("no_buckets" = "no_buckets")) by reflexivity.
    rewrite (lookup_Raise (item_embeddings m) items); [reflexivity|].
    rewrite Hien. exact Hex.
  - intros Husers Hs Hex. unfold forward.
    destruct (lookup_Ok (user_embeddings m) users Hue) as (UE & -> & _).
    { rewrite Huen. exact Husers. }
    destruct (lookup_Ok (user_biases m) users Hub) as (UB & -> & _).
    { rewrite Hubn. exact Husers. }
    cbn [mbind result_bind]. rewrite Hs.
    rewrite (bool_decide_true ("item_buckets" = "item_buckets")) by reflexivity.
    rewrite index_Raise; [reflexivity|]. rewrite Hlen. exact Hex.
Qed.

(** X9: [forward] knows the two stages only: in any other stage, with the
    user ids in range, it stops at the unbound [item_embeddings]. *)
Theorem forward_other_stage (m : Model F) (users items : list Z) :
  wf_model m →
  Forall (λ u, 0 ≤ u < Z.of_nat (num_users (hparams m))) users →
  stage (hparams m) ≠ "item_buckets" → stage (hparams m) ≠ "no_buckets" →
  forward mask m users items = Raise (UnboundLocalError "item_embeddings").
Proof.
  intros [_ _ _ _ [Hub [Hubn _]] _ [Hue [Huen _]] _] Husers Hs1 Hs2. unfold forward.
  destruct (lookup_Ok (user_embeddings m) users Hue) as (UE & -> & _).
  { rewrite Huen. exact Husers. }
  destruct (lookup_Ok (user_biases m) users Hub) as (UB & -> & _).
  { rewrite Hubn. exact Husers. }
  cbn [mbind result_bind].
  rewrite !bool_decide_false by assumption. reflexivity.
Qed.

(** X10: in stage "item_buckets" the item ids index a tensor, where a negative
    id counts from the end: item [-k] is scored as item [num_items - k]. *)
Theorem forward_item_buckets_negative_item (m : Model F) (users items : list Z) :
  stage (hparams m) = "item_buckets" →
  length (item_buckets (hparams m)) = num_items (hparams m) →
  Forall (λ i, - Z.of_nat (num_items (hparams m)) ≤ i < Z.of_nat (num_items (hparams m)))
         items →
  forward mask m users items
  = forward mask m users
      ((λ i, if i <? 0 then i + Z.of_nat (num_items (hparams m)) else i) <$> items).
Proof.
  intros Hs Hlen Hitems. unfold forward. rewrite Hs.
  rewrite (bool_decide_true ("item_buckets" = "item_buckets")) by reflexivity.
  assert (torch.index (item_buckets (hparams m))
            ((λ i, if i <? 0 then i + Z.of_nat (num_items (hparams m)) else i) <$> items)
          = torch.index (item_buckets (hparams m)) items) as ->; [|reflexivity].
  unfold torch.index. rewrite rmapM_fmap. apply rmapM_ext.
  eapply Forall_impl; [exact Hitems|]. intros i Hi. simpl.
  destruct (Z.ltb_spec i 0); [|reflexivity].
  rewrite <- Hlen in Hi |- *. symmetry. apply index_one_negative. lia.
Qed.

(** X11: [_get_item_embeddings] returns the whole item table, one row per
    item, in every stage: in stage "item_buckets" too it reads the item
    table, not the bucket table. *)
Theorem _get_item_embeddings_table (m : Model F) :
  wf_model m →
  _get_item_embeddings m
  = Ok (torch.T2 (num_items (hparams m)) (embedding_dim (hparams m))
                 (nn.data (nn.weight (item_embeddings m)))).
Proof.
  intros [_ _ _ _ _ _ _ [Hie [Hien Hied]]]. unfold _get_item_embeddings.
  rewrite lookup_arange by (assumption || lia).
  rewrite Hied, <- Hien. rewrite take_ge; [reflexivity|].
  destruct Hie as [-> _]. lia.
Qed.

(** X12: right after the switch to "no_buckets", the item embeddings that
    [_get_item_embeddings] reports are the bucket embeddings, gathered by the
    assignment. *)
Theorem _get_item_embeddings_after_expansion (w : World F) :
  wf_model (self w) →
  stage (hparams (self w)) = "item_buckets" →
  "no_buckets" ∈ stage_list (hparams (self w)) →
  ∃ w' latents,
    set_stage "no_buckets" w = (Ok (), w')
    ∧ _get_item_embeddings (self w')
      = Ok (torch.T2 (num_items (hparams (self w))) (embedding_dim (hparams (self w)))
                     latents)
    ∧ Forall2 (λ b r, nn.data (nn.weight (item_bucket_embeddings (self w))) !! Z.to_nat b
                      = Some r)
              (item_buckets (hparams (self w))) latents.
Proof.
  intros Hwf Hs Hin.
  destruct (set_stage_no_buckets_state w Hwf Hs Hin) as (biases & latents & Hb & Hl & Hrun).
  eexists. exists latents. split; [exact Hrun|]. split; [|exact Hl].
  destruct Hwf as [Hlen _ _ [Hbe [_ Hbed]] _ _ _ [_ [Hien Hied]]].
  pose proof (Forall2_rows_shape _ _ _ Hbe Hl) as Hsl.
  rewrite Hlen, Hbed, <- Hien, <- Hied in Hsl.
  unfold _get_item_embeddings.
  change (nn.lookup (nn.set_weight_data (item_embeddings (self w)) latents)
            (seqZ 0 (Z.of_nat (num_items (hparams (self w)))))
          = Ok (torch.T2 (num_items (hparams (self w))) (embedding_dim (hparams (self w)))
                         latents)).
  rewrite lookup_arange; [|exact Hsl|simpl; lia].
  simpl. rewrite Hied, take_ge; [reflexivity|].
  destruct Hsl as [-> _]. lia.
Qed.

(** X13: the three outcomes of [_copy_weights], [src] being the rows of the
    source table and [dst] the destination: an id outside [-rows, rows) raises
    [IndexError]; else shapes that do not broadcast raise [RuntimeError]; and
    a run that raises leaves the whole state as it was.  Else it returns, and
    writes to the destination only. *)
Theorem _copy_weights_outcome (old new : attr) (buckets : list Z) (w : World F) :
  let src := getattr old (self w) in
  let dst := getattr new (self w) in
  let rows := Z.of_nat (length (nn.data (nn.weight src))) in
  let broadcasts :=
    (length buckets = nn.num_embeddings dst ∨ length buckets = 1%nat)
    ∧ (nn.embedding_dim src = nn.embedding_dim dst ∨ nn.embedding_dim src = 1%nat) in
  (Exists (λ b, ¬ (- rows ≤ b < rows)) buckets →
   _copy_weights old new buckets w = (Raise IndexError, w))
  ∧ (Forall (λ b, - rows ≤ b < rows) buckets → ¬ broadcasts →
     _copy_weights old new buckets w = (Raise RuntimeError, w))
  ∧ (Forall (λ b, - rows ≤ b < rows) buckets → broadcasts →
     ∃ data,
       _copy_weights old new buckets w
       = (Ok (), on_self (update new (nn.set_weight_data dst data)) w)).
Proof.
  cbv zeta. rewrite _copy_weights_unfold.
  assert (Forall (λ b, - Z.of_nat (length (nn.data (nn.weight (getattr old (self w))))) ≤ b
                       < Z.of_nat (length (nn.data (nn.weight (getattr old (self w))))))
                 buckets →
          ∃ rows, torch.index (nn.data (nn.weight (getattr old (self w)))) buckets = Ok rows)
    as Hidx.
  { intros Hall. apply rmapM_total. eapply Forall_impl; [exact Hall|].
    intros b Hb. cbv beta in Hb |- *.
    destruct (Z.ltb_spec b 0).
    - rewrite index_one_negative by lia.
      destruct (index_one_Ok (nn.data (nn.weight (getattr old (self w))))
                  (b + Z.of_nat (length (nn.data (nn.weight (getattr old (self w)))))))
        as (r & _ & Hr); [lia|]. exists r. exact Hr.
    - destruct (index_one_Ok (nn.data (nn.weight (getattr old (self w)))) b)
        as (r & _ & Hr); [lia|]. exists r. exact Hr. }
  split; [|split].
  - intros Hex. rewrite index_Raise by exact Hex. reflexivity.
  - intros Hall Hno. destruct (Hidx Hall) as [rows ->].
    cbn [mbind result_bind]. unfold torch.copy_.
    rewrite decide_False by exact Hno. reflexivity.
  - intros Hall Hyes. destruct (Hidx Hall) as [rows ->].
    cbn [mbind result_bind]. unfold torch.copy_.
    rewrite decide_True by exact Hyes. eexists. reflexivity.
Qed.

(** The item side of [forward] on a well-formed model, with the item ids in
    range: the rows of a latent table and of a bias table, one per id. *)
Lemma item_side_Ok (m : Model F) (items : list Z) :
  wf_model m →
  stage (hparams m) = "item_buckets" ∨ stage (hparams m) = "no_buckets" →
  Forall (λ i, 0 ≤ i < Z.of_nat (num_items (hparams m))) items →
  ∃ IE IB,
    (if bool_decide (stage (hparams m) = "item_buckets") then
       items ← torch.index (item_buckets (hparams m)) items;
       item_embeddings ← nn.lookup (item_bucket_embeddings m) items;
       item_biases ← nn.lookup (item_bucket_biases m) items;
       Ok (item_embeddings, item_biases)
     else if bool_decide (stage (hparams m) = "no_buckets") then
       item_embeddings ← nn.lookup (item_embeddings m) items;
       item_biases ← nn.lookup (item_biases m) items;
       Ok (item_embeddings, item_biases)
     else Raise (UnboundLocalError "item_embeddings"))
    = Ok (torch.T2 (length items) (embedding_dim (hparams m)) IE,
          torch.T2 (length items) 1 IB)
    ∧ torch.has_shape (length items) (embedding_dim (hparams m)) IE
    ∧ torch.has_shape (length items) 1 IB.
Proof.
  intros [Hblen Hbrange [Hbb [Hbbn Hbbd]] [Hbe [Hben Hbed]] _
          [Hib [Hibn Hibd]] _ [Hie [Hien Hied]]] Hstage Hitems.
  destruct Hstage as [Hs|Hs]; rewrite Hs.
  - rewrite (bool_decide_true ("item_buckets" = "item_buckets")) by reflexivity.
    destruct (index_Ok (item_buckets (hparams m)) items) as (bs & Hbs & Hbsa).
    { rewrite Hblen. exact Hitems. }
    assert (Forall (λ b, 0 ≤ b < Z.of_nat (num_item_buckets (hparams m))) bs) as Hbsr.
    { apply Forall_forall. intros b Hb. apply list_elem_of_lookup in Hb as [k Hk].
      destruct (Forall2_lookup_r _ _ _ _ _ Hbsa Hk) as (i & _ & Hi).
      rewrite Forall_lookup in Hbrange. exact (Hbrange _ _ Hi). }
    destruct (lookup_Ok (item_bucket_embeddings m) bs Hbe) as (IE & HIE & HIEs & _).
    { rewrite Hben. exact Hbsr. }
    destruct (lookup_Ok (item_bucket_biases m) bs Hbb) as (IB & HIB & HIBs & _).
    { rewrite Hbbn. exact Hbsr. }
    pose proof (Forall2_length _ _ _ Hbsa) as Hbl.
    rewrite Hbed, <- Hbl in HIE, HIEs. rewrite Hbbd, <- Hbl in HIB, HIBs.
    exists IE, IB. rewrite Hbs. cbn [mbind result_bind]. rewrite HIE, HIB.
    split; [reflexivity|]. split; assumption.
  - rewrite (bool_decide_false ("no_buckets" = "item_buckets")) by discriminate.
    rewrite (bool_decide_true ("no_buckets" = "no_buckets")) by reflexivity.
    destruct (lookup_Ok (item_embeddings m) items Hie) as (IE & HIE & HIEs & _).
    { rewrite Hien. exact Hitems. }
    destruct (lookup_Ok (item_biases m) items Hib) as (IB & HIB & HIBs & _).
    { rewrite Hibn. exact Hitems. }
    rewrite Hied in HIE, HIEs. rewrite Hibd in HIB, HIBs.
    exists IE, IB. rewrite HIE, HIB. split; [reflexivity|]. split; assumption.
Qed.

(** X14: ids arrays of two lengths, neither of them 1, do not broadcast:
    outside training, with every id in range, [forward] raises
    [RuntimeError]. *)
Theorem forward_length_mismatch (m : Model F) (users items : list Z) :
  wf_model m →
  training m = false →
  stage (hparams m) = "item_buckets" ∨ stage (hparams m) = "no_buckets" →
  Forall (λ u, 0 ≤ u < Z.of_nat (num_users (hparams m))) users →
  Forall (λ i, 0 ≤ i < Z.of_nat (num_items (hparams m))) items →
  length users ≠ length items → length users ≠ 1%nat → length items ≠ 1%nat →
  forward mask m users items = Raise RuntimeError.
Proof.
  intros Hwf Htrain Hstage Husers Hitems Hne Hu1 Hi1.
  destruct (item_side_Ok m items Hwf Hstage Hitems) as (IE & IB & Hside & _).
  destruct Hwf as [_ _ _ _ [Hub [Hubn _]] _ [Hue [Huen _]] _].
  destruct (lookup_Ok (user_embeddings m) users Hue) as (UE & HUE & _).
  { rewrite Huen. exact Husers. }
  destruct (lookup_Ok (user_biases m) users Hub) as (UB & HUB & _).
  { rewrite Hubn. exact Husers. }
  unfold forward. rewrite HUE, HUB. cbn [mbind result_bind].
  rewrite Hside. cbn [mbind result_bind]. rewrite Htrain. unfold dropout.
  unfold torch.mul_, torch.pointwise, torch.as_rank2.
  rewrite (bsize_None _ _ Hne Hu1 Hi1). reflexivity.
Qed.

(** X15: one user id against any number of item ids: outside training,
    [forward] broadcasts the user, and returns what it returns for the user
    id repeated once per item. *)
Theorem forward_single_user (m : Model F) (u : Z) (items : list Z) :
  wf_model m →
  training m = false →
  stage (hparams m) = "item_buckets" ∨ stage (hparams m) = "no_buckets" →
  0 ≤ u < Z.of_nat (num_users (hparams m)) →
  Forall (λ i, 0 ≤ i < Z.of_nat (num_items (hparams m))) items →
  forward mask m [u] items = forward mask m (replicate (length items) u) items.
Proof.
  intros Hwf Htrain Hstage Hu Hitems.
  destruct (item_side_Ok m items Hwf Hstage Hitems) as (IE & IB & Hside & HIEs & HIBs).
  destruct Hwf as [_ _ _ _ [Hub [Hubn Hubd]] _ [Hue [Huen Hued]] _].
  destruct (lookup_one_Ok (user_embeddings m) u Hue) as (ue & _ & Huel & Hue1);
    [rewrite Huen; exact Hu|].
  destruct (lookup_one_Ok (user_biases m) u Hub) as (ub & _ & Hubl & Hub1);
    [rewrite Hubn; exact Hu|].
  rewrite Hubd in Hubl. destruct ub as [|x [|]]; try discriminate.
  rewrite Hued in Huel.
  unfold forward.
  rewrite (lookup_one_row _ _ _ Hue1), (lookup_one_row _ _ _ Hub1).
  rewrite (lookup_repeated _ _ _ _ Hue1), (lookup_repeated _ _ _ _ Hub1).
  cbn [mbind result_bind]. rewrite Hside. cbn [mbind result_bind].
  rewrite Htrain, Hued, Hubd. unfold dropout.
  set (n := length items) in *.
  assert (torch.has_shape n (embedding_dim (hparams m)) (replicate n ue)) as HUEs.
  { split; [apply length_replicate|]. apply Forall_replicate. exact Huel. }
  assert (torch.has_shape n 1 (replicate n [x])) as HUBs.
  { split; [apply length_replicate|]. apply Forall_replicate. reflexivity. }
  rewrite (forward_tail _ _ _ _ _ _ HUEs HIEs HUBs HIBs).
  unfold torch.mul_, torch.add_. rewrite (pointwise_row _ _ _ _ _ Huel HIEs).
  cbn [mbind result_bind torch.sum_axis1 torch.squeeze1].
  repeat (destruct (decide (1%nat = 1%nat)) as [_|?]; [|congruence]).
  cbn [mbind result_bind concat app].
  rewrite pointwise_vector_scalar. cbn [mbind result_bind].
  destruct HIEs as [HIEn _], HIBs as [HIBn HIB1].
  assert (length (torch.sum_list <$> zip_with (zip_with mul) (replicate n ue) IE) = n)
    as Hdots by (rewrite length_fmap, length_zip_with, length_replicate; lia).
  rewrite Hdots.
  rewrite pointwise_vectors
    by (rewrite length_zip_with, Hdots, length_replicate,
          concat_column_length by assumption; lia).
  unfold scores_of. rewrite concat_replicate_singleton. reflexivity.
Qed.

End errors.



Lemma set_stage_copies_only_on_expansion_witness :
  let w := (set_stage "no_buckets" docstring_world).2 in
  "no_buckets" ∈ stage_list (hparams (self w))
  ∧ (stage (hparams (self w)) ≠ "item_buckets" ∨ "no_buckets" ≠ "no_buckets")
  ∧ set_stage "no_buckets" w = (Ok (), staged "no_buckets" w).
Proof.
  intros w.
  assert ("no_buckets" ∈ stage_list (hparams (self w))) as Hin
    by (apply (bool_decide_unpack _); vm_compute; exact I).
  assert (stage (hparams (self w)) ≠ "item_buckets" ∨ "no_buckets" ≠ "no_buckets") as Hno
    by (left; vm_compute; discriminate).
  split; [exact Hin|]. split; [exact Hno|].
  exact (proj1 (set_stage_copies_only_on_expansion "no_buckets" w Hin Hno)).
Defined.

Lemma set_stage_Raise_keeps_stage_witness :
  (set_stage "no_buckets" short_item_table_world).1 = Raise RuntimeError
  ∧ hparams (self (set_stage "no_buckets" short_item_table_world).2)
    = hparams (self short_item_table_world).
Proof.
  assert ((set_stage "no_buckets" short_item_table_world).1 = Raise RuntimeError) as Hrun
    by (vm_compute; reflexivity).
  split; [exact Hrun|].
  exact (set_stage_Raise_keeps_stage "no_buckets" short_item_table_world RuntimeError Hrun).
Defined.

Lemma set_stage_wf_witness :
  wf_model (self docstring_world)
  ∧ wf_model (self (set_stage "no_buckets" docstring_world).2).
Proof.
  assert (wf_model (self docstring_world)) as Hwf by wf_by_computation.
  split; [exact Hwf|]. exact (set_stage_wf "no_buckets" docstring_world Hwf).
Defined.


Lemma set_stage_round_trip_witness :
  wf_model (self docstring_world)
  ∧ stage (hparams (self docstring_world)) = "item_buckets"
  ∧ "no_buckets" ∈ stage_list (hparams (self docstring_world))
  ∧ "item_buckets" ∈ stage_list (hparams (self docstring_world))
  ∧ ∃ w1 w2,
      set_stage "no_buckets" docstring_world = (Ok (), w1)
      ∧ set_stage "item_buckets" w1 = (Ok (), w2)
      ∧ hparams (self w2) = hparams (self docstring_world).
Proof.
  assert (wf_model (self docstring_world)) as Hwf by wf_by_computation.
  assert ("no_buckets" ∈ stage_list (hparams (self docstring_world))) as Hin1
    by (apply (bool_decide_unpack _); vm_compute; exact I).
  assert ("item_buckets" ∈ stage_list (hparams (self docstring_world))) as Hin2
    by (apply (bool_decide_unpack _); vm_compute; exact I).
  split; [exact Hwf|]. split; [reflexivity|]. split; [exact Hin1|]. split; [exact Hin2|].
  destruct (set_stage_round_trip (λ _ t, t) docstring_world Hwf eq_refl Hin1 Hin2)
    as (w1 & w2 & Hrun1 & Hrun2 & Hhp & _).
  exists w1, w2. auto.
Defined.

Lemma forward_IndexError_witness :
  wf_model docstring_model
  ∧ (Exists (λ u, ¬ (0 ≤ u < Z.of_nat (num_users (hparams docstring_model)))) [0; 2]
     ∧ forward (λ _ t, t) docstring_model [0; 2] [0; 3] = Raise IndexError)
  ∧ (Forall (λ u, 0 ≤ u < Z.of_nat (num_users (hparams docstring_model))) [0; 1]
     ∧ stage (hparams docstring_model) = "item_buckets"
     ∧ Exists (λ i, ¬ (- Z.of_nat (num_items (hparams docstring_model)) ≤ i
                       < Z.of_nat (num_items (hparams docstring_model)))) [0; 5]
     ∧ forward (λ _ t, t) docstring_model [0; 1] [0; 5] = Raise IndexError).
Proof.
  assert (wf_model docstring_model) as Hwf by wf_by_computation.
  assert (Exists (λ u, ¬ (0 ≤ u < Z.of_nat (num_users (hparams docstring_model)))) [0; 2])
    as Hu by (right; left; simpl; lia).
  assert (Forall (λ u, 0 ≤ u < Z.of_nat (num_users (hparams docstring_model))) [0; 1])
    as Hu' by (repeat constructor; simpl; lia).
  assert (Exists (λ i, ¬ (- Z.of_nat (num_items (hparams docstring_model)) ≤ i
                          < Z.of_nat (num_items (hparams docstring_model)))) [0; 5])
    as Hi by (right; left; simpl; lia).
  split; [exact Hwf|]. split.
  - split; [exact Hu|].
    exact (proj1 (forward_IndexError (λ _ t, t) docstring_model [0; 2] [0; 3] Hwf) Hu).
  - split; [exact Hu'|]. split; [reflexivity|]. split; [exact Hi|].
    exact (proj2 (proj2 (forward_IndexError (λ _ t, t) docstring_model [0; 1] [0; 5] Hwf))
             Hu' eq_refl Hi).
Defined.

Lemma forward_other_stage_witness :
  let m := set_hparams_stage "warmup" docstring_model in
  wf_model m
  ∧ Forall (λ u, 0 ≤ u < Z.of_nat (num_users (hparams m))) [0; 1]
  ∧ stage (hparams m) ≠ "item_buckets" ∧ stage (hparams m) ≠ "no_buckets"
  ∧ forward (λ _ t, t) m [0; 1] [0; 3] = Raise (UnboundLocalError "item_embeddings").
Proof.
  intros m.
  assert (wf_model m) as Hwf by wf_by_computation.
  assert (Forall (λ u, 0 ≤ u < Z.of_nat (num_users (hparams m))) [0; 1]) as Hu
    by (repeat constructor; simpl; lia).
  assert (stage (hparams m) ≠ "item_buckets") as Hs1 by discriminate.
  assert (stage (hparams m) ≠ "no_buckets") as Hs2 by discriminate.
  split; [exact Hwf|]. split; [exact Hu|]. split; [exact Hs1|]. split; [exact Hs2|].
  exact (forward_other_stage (λ _ t, t) m [0; 1] [0; 3] Hwf Hu Hs1 Hs2).
Defined.

Lemma forward_item_buckets_negative_item_witness :
  stage (hparams docstring_model) = "item_buckets"
  ∧ length (item_buckets (hparams docstring_model)) = num_items (hparams docstring_model)
  ∧ Forall (λ i, - Z.of_nat (num_items (hparams docstring_model)) ≤ i
                 < Z.of_nat (num_items (hparams docstring_model))) [-1; 2]
  ∧ forward (λ _ t, t) docstring_model [0; 1] [-1; 2]
    = forward (λ _ t, t) docstring_model [0; 1] [4; 2].
Proof.
  assert (Forall (λ i, - Z.of_nat (num_items (hparams docstring_model)) ≤ i
                       < Z.of_nat (num_items (hparams docstring_model))) [-1; 2]) as Hi
    by (repeat constructor; simpl; lia).
  split; [reflexivity|]. split; [reflexivity|]. split; [exact Hi|].
  exact (forward_item_buckets_negative_item (λ _ t, t) docstring_model [0; 1] [-1; 2]
           eq_refl eq_refl Hi).
Defined.

Lemma _get_item_embeddings_table_witness :
  wf_model docstring_model
  ∧ _get_item_embeddings docstring_model
    = Ok (torch.T2 5 1 [[1]; [1]; [1]; [1]; [1]]).
Proof.
  assert (wf_model docstring_model) as Hwf by wf_by_computation.
  split; [exact Hwf|]. exact (_get_item_embeddings_table docstring_model Hwf).
Defined.

Lemma _get_item_embeddings_after_expansion_witness :
  wf_model (self docstring_world)
  ∧ stage (hparams (self docstring_world)) = "item_buckets"
  ∧ "no_buckets" ∈ stage_list (hparams (self docstring_world))
  ∧ ∃ w' latents,
      set_stage "no_buckets" docstring_world = (Ok (), w')
      ∧ _get_item_embeddings (self w') = Ok (torch.T2 5 1 latents).
Proof.
  assert (wf_model (self docstring_world)) as Hwf by wf_by_computation.
  assert ("no_buckets" ∈ stage_list (hparams (self docstring_world))) as Hin
    by (apply (bool_decide_unpack _); vm_compute; exact I).
  split; [exact Hwf|]. split; [reflexivity|]. split; [exact Hin|].
  destruct (_get_item_embeddings_after_expansion docstring_world Hwf eq_refl Hin)
    as (w' & latents & Hrun & Hget & _).
  exists w', latents. split; assumption.
Defined.


Lemma _copy_weights_outcome_witness :
  Exists (λ b, ¬ (- 3 ≤ b < 3)) [1; 0; 3; 2; 1]
  ∧ _copy_weights attr_item_bucket_embeddings attr_item_embeddings [1; 0; 3; 2; 1]
      docstring_world
    = (Raise IndexError, docstring_world).
Proof.
  assert (Exists (λ b, ¬ (- 3 ≤ b < 3)) [1; 0; 3; 2; 1]) as Hex
    by (right; right; left; lia).
  split; [exact Hex|].
  exact (proj1 (_copy_weights_outcome attr_item_bucket_embeddings attr_item_embeddings
                  [1; 0; 3; 2; 1] docstring_world) Hex).
Defined.

Lemma forward_length_mismatch_witness :
  let users := [0; 1] in
  let items := [0; 1; 2] in
  wf_model docstring_model
  ∧ training docstring_model = false
  ∧ Forall (λ u, 0 ≤ u < Z.of_nat (num_users (hparams docstring_model))) users
  ∧ Forall (λ i, 0 ≤ i < Z.of_nat (num_items (hparams docstring_model))) items
  ∧ length users ≠ length items ∧ length users ≠ 1%nat ∧ length items ≠ 1%nat
  ∧ forward (λ _ t, t) docstring_model users items = Raise RuntimeError.
Proof.
  intros users items.
  assert (wf_model docstring_model) as Hwf by wf_by_computation.
  assert (Forall (λ u, 0 ≤ u < Z.of_nat (num_users (hparams docstring_model))) users)
    as Hu by (repeat constructor; simpl; lia).
  assert (Forall (λ i, 0 ≤ i < Z.of_nat (num_items (hparams docstring_model))) items)
    as Hi by (repeat constructor; simpl; lia).
  assert (length users ≠ length items) as Hne by discriminate.
  assert (length users ≠ 1%nat) as Hu1 by discriminate.
  assert (length items ≠ 1%nat) as Hi1 by discriminate.
  split; [exact Hwf|]. split; [reflexivity|]. split; [exact Hu|]. split; [exact Hi|].
  split; [exact Hne|]. split; [exact Hu1|]. split; [exact Hi1|].
  exact (forward_length_mismatch (λ _ t, t) docstring_model users items
           Hwf eq_refl (or_introl eq_refl) Hu Hi Hne Hu1 Hi1).
Defined.

Lemma forward_single_user_witness :
  let items := [0; 3; 4] in
  wf_model docstring_model
  ∧ training docstring_model = false
  ∧ 0 ≤ 1 < Z.of_nat (num_users (hparams docstring_model))
  ∧ Forall (λ i, 0 ≤ i < Z.of_nat (num_items (hparams docstring_model))) items
  ∧ forward (λ _ t, t) docstring_model [1] items
    = forward (λ _ t, t) docstring_model [1; 1; 1] items.
Proof.
  intros items.
  assert (wf_model docstring_model) as Hwf by wf_by_computation.
  assert (0 ≤ 1 < Z.of_nat (num_users (hparams docstring_model))) as Hu by (simpl; lia).
  assert (Forall (λ i, 0 ≤ i < Z.of_nat (num_items (hparams docstring_model))) items)
    as Hi by (repeat constructor; simpl; lia).
  split; [exact Hwf|]. split; [reflexivity|]. split; [exact Hu|]. split; [exact Hi|].
  exact (forward_single_user (λ _ t, t) docstring_model 1 items
           Hwf eq_refl (or_introl eq_refl) Hu Hi).
Defined.

Lemma _setup_model_wf_witness :
  let hp := hparams docstring_model in
  length (item_buckets hp) = num_items hp
  ∧ Forall (λ b, 0 ≤ b < Z.of_nat (num_item_buckets hp)) (item_buckets hp)
  ∧ wf_model (_setup_model hp (λ i j, Z.of_nat (i + j)) (λ i j, Z.of_nat i)
                (λ i j, Z.of_nat j)).
Proof.
  intros hp.
  assert (Forall (λ b, 0 ≤ b < Z.of_nat (num_item_buckets hp)) (item_buckets hp)) as Hr
    by (repeat constructor; simpl; lia).
  split; [reflexivity|]. split; [exact Hr|].
  exact (_setup_model_wf hp _ _ _ eq_refl Hr).
Defined.

Example forward_single_user_docstring_model :
  forward (λ _ t, t) docstring_model [1] [0; 3; 4] = Ok (torch.T1 [49; 47; 49]).
Proof. vm_compute. reflexivity. Qed.

End ColdStartModel_properties.

(** ** HybridPretrainedModel: freezing and persistence *)

Module HybridPretrainedModel_properties.
Import HybridPretrainedModel.

Section freezing.
Context {F : Type} `{Scalar F}.

(** C9: [freeze_embeddings] sets the gradient-tracking flag of both borrowed
    tables to false and [unfreeze_embeddings] sets it to true, so that
    freezing and then unfreezing leaves both flags true; neither changes the
    flag of a parameter of any other name, nor the value of any parameter,
    nor anything else of the model. *)
Theorem freeze_unfreeze_embeddings (m : Model F) :
  table_flags (freeze_embeddings m) = (false, false)
  ∧ table_flags (unfreeze_embeddings m) = (true, true)
  ∧ table_flags (unfreeze_embeddings (freeze_embeddings m)) = (true, true)
  ∧ same_but_table_flags m (freeze_embeddings m)
  ∧ same_but_table_flags m (unfreeze_embeddings m).
Proof.
  split; [reflexivity|]. split; [reflexivity|]. split; [reflexivity|].
  split.
  - split; [reflexivity|]. split; [|repeat split].
    intros name H0 H1. unfold requires_grad_flags.
    rewrite !assoc_app. cbn [freeze_embeddings with_embeddings _trained_model].
    destruct (assoc name _) as [flag|]; [reflexivity|].
    simpl. rewrite !decide_False by congruence. reflexivity.
  - split; [reflexivity|]. split; [|repeat split].
    intros name H0 H1. unfold requires_grad_flags.
    rewrite !assoc_app. cbn [unfreeze_embeddings with_embeddings _trained_model].
    destruct (assoc name _) as [flag|]; [reflexivity|].
    simpl. rewrite !decide_False by congruence. reflexivity.
Qed.

Example freeze_example_model :
  requires_grad_flags (unfreeze_embeddings example_model)
  = [("_trained_model.user_embeddings.weight", true);
     ("_trained_model.item_embeddings.weight", true);
     ("embeddings.0.weight", true); ("embeddings.1.weight", true);
     ("metadata_layer_0.weight", true); ("metadata_layer_0.bias", true);
     ("combined_layer_0.weight", true); ("combined_layer_0.bias", true);
     ("combined_layer_1.weight", true); ("combined_layer_1.bias", true)]
  ∧ requires_grad_flags (freeze_embeddings (unfreeze_embeddings example_model))
    = [("_trained_model.user_embeddings.weight", true);
       ("_trained_model.item_embeddings.weight", true);
       ("embeddings.0.weight", false); ("embeddings.1.weight", false);
       ("metadata_layer_0.weight", true); ("metadata_layer_0.bias", true);
       ("combined_layer_0.weight", true); ("combined_layer_0.bias", true);
       ("combined_layer_1.weight", true); ("combined_layer_1.bias", true)].
Proof. split; vm_compute; reflexivity. Qed.

End freezing.

Section persistence.
Context {F : Type} `{Scalar F}.

Lemma zip_filter_keys {A} (P : string → Prop) `{∀ k, Decision (P k)} (l : list (string * A)) :
  zip (filter P l.*1) (filter (λ kv, P kv.1) l).*2 = filter (λ kv, P kv.1) l.
Proof.
  induction l as [|[k v] l IH]; [reflexivity|].
  rewrite fmap_cons, !filter_cons. cbn [fst].
  destruct (decide (P k)); [|exact IH].
  rewrite fmap_cons. cbn [zip zip_with snd]. f_equal. exact IH.
Qed.

Lemma state_dict_to_save_filter (m : Model F) :
  state_dict_to_save m
  = filter (λ kv, contains "_trained_model" kv.1 = false) (state_dict m).
Proof.
  unfold state_dict_to_save.
  exact (zip_filter_keys (λ k, contains "_trained_model" k = false) (state_dict m)).
Qed.

Lemma listdir_empty (files : gmap string (Blob F)) :
  elements (dom files) = [] ↔ files = ∅.
Proof.
  rewrite elements_empty_iff. split.
  - intros Hd. apply dom_empty_iff_L. apply leibniz_equiv. exact Hd.
  - intros ->. rewrite dom_empty_L. reflexivity.
Qed.

(** The outcome and the file system after [save_model], case by case. *)
Lemma save_model_unfold (m : Model F) (path : string) (overwrite : bool) (fs : FS F) :
  save_model m path overwrite fs =
  let files := default ∅ (fs !! path) in
  if bool_decide (files ≠ ∅) && bool_decide (overwrite = false) then
    (Raise (ValueError ("Data exists in ``path`` at " +:+ path
                        +:+ " and ``overwrite`` is False.")), fs)
  else
    match item_metadata m with
    | Some md =>
        (Ok (),
         <[path := <["model.pth" := TorchSave (state_dict_to_save m) (hparams m)]>
                     (<["metadata.pkl" := Joblib md]> files)]> fs)
    | None => (Raise (AttributeError "item_metadata"), <[path := files]> fs)
    end.
Proof.
  unfold save_model, listdir, mkdir, write, exists_, mbind, M_bind, mret, M_ret,
    get, raise, modify, lift.
  destruct (fs !! path) as [files|] eqn:Hpath; simpl.
  - rewrite Hpath.
    assert (bool_decide (elements (dom files) ≠ []) = bool_decide (files ≠ ∅)) as ->.
    { apply bool_decide_ext. rewrite listdir_empty. reflexivity. }
    destruct (bool_decide (files ≠ ∅) && bool_decide (overwrite = false)); [reflexivity|].
    destruct (item_metadata m) as [md|].
    + rewrite Hpath. rewrite Hpath. rewrite lookup_insert_eq, insert_insert_eq. reflexivity.
    + rewrite Hpath. rewrite insert_id by exact Hpath. reflexivity.
  - rewrite (bool_decide_false (∅ ≠ ∅)) by (intros Hne; apply Hne; reflexivity).
    simpl. destruct (item_metadata m) as [md|].
    + rewrite Hpath. rewrite !lookup_insert_eq, !insert_insert_eq. reflexivity.
    + rewrite Hpath. reflexivity.
Qed.

(** C8: [save_model] on a destination that holds files, with
    [overwrite = False], raises a [ValueError] and leaves the file system as it
    was; with [overwrite = True], or on an empty or absent destination, it
    returns, and the destination then holds the metadata file and the
    model-state file, in place of any earlier files of these names. *)
Theorem save_model_overwrite (m : Model F) (path : string) (overwrite : bool) (fs : FS F) :
  (∀ files, fs !! path = Some files → files ≠ ∅ → overwrite = false →
     save_model m path overwrite fs
     = (Raise (ValueError ("Data exists in ``path`` at " +:+ path
                           +:+ " and ``overwrite`` is False.")), fs))
  ∧ (∀ md, item_metadata m = Some md →
       overwrite = true ∨ fs !! path = None ∨ fs !! path = Some ∅ →
       ∃ fs', save_model m path overwrite fs = (Ok (), fs')
         ∧ (∃ files, fs' !! path = Some files
              ∧ files !! "metadata.pkl" = Some (Joblib md)
              ∧ files !! "model.pth" = Some (TorchSave (state_dict_to_save m) (hparams m))
              ∧ ∀ name, name ≠ "metadata.pkl" → name ≠ "model.pth" →
                  files !! name = default ∅ (fs !! path) !! name)
         ∧ ∀ other, other ≠ path → fs' !! other = fs !! other).
Proof.
  split.
  - intros files Hpath Hne ->. rewrite save_model_unfold, Hpath. simpl.
    rewrite bool_decide_true by exact Hne. reflexivity.
  - intros md Hmd Hcase. rewrite save_model_unfold. simpl.
    assert (bool_decide (default ∅ (fs !! path) ≠ ∅) && bool_decide (overwrite = false)
            = false) as ->.
    { destruct Hcase as [-> | [-> | ->]]; simpl.
      - apply andb_false_r.
      - rewrite bool_decide_false by (intros Hne; apply Hne; reflexivity). reflexivity.
      - rewrite bool_decide_false by (intros Hne; apply Hne; reflexivity). reflexivity. }
    rewrite Hmd. eexists. split; [reflexivity|]. split.
    + eexists. split; [apply lookup_insert_eq|].
      split; [rewrite lookup_insert_ne by discriminate; apply lookup_insert_eq|].
      split; [apply lookup_insert_eq|].
      intros name Hn1 Hn2. rewrite !lookup_insert_ne by congruence. reflexivity.
    + intros other Hother. rewrite lookup_insert_ne by congruence. reflexivity.
Qed.

End persistence.

Section state_dicts.
Context {F : Type} `{Scalar F}.
Local Open Scope nat_scope.

Lemma layer_entries_cons (prefix : string) (i : nat) (l : nn.Linear F)
    (ls : list (nn.Linear F)) :
  layer_entries prefix i (l :: ls)
  = ((prefix +:+ pretty i) +:+ ".weight",
     torch.T2 (nn.out_features l) (nn.in_features l) (nn.data (nn.lin_weight l)))
    :: ((prefix +:+ pretty i) +:+ ".bias", torch.T1 (nn.data (nn.lin_bias l)))
    :: layer_entries prefix (S i) ls.
Proof. reflexivity. Qed.

Lemma layer_entries_keys (prefix : string) (i : nat) (ls ls' : list (nn.Linear F)) :
  length ls = length ls' →
  (layer_entries prefix i ls).*1 = (layer_entries prefix i ls').*1.
Proof.
  revert i ls'. induction ls as [|l ls IH]; intros i [|l' ls'] Hlen; try discriminate.
  - reflexivity.
  - rewrite !layer_entries_cons, !fmap_cons. cbn [fst].
    rewrite (IH (S i) ls') by (simpl in Hlen; lia). reflexivity.
Qed.

Lemma layer_entries_prefixed (prefix : string) (i : nat) (ls : list (nn.Linear F))
    (kv : string * torch.Tensor F) :
  kv ∈ layer_entries prefix i ls →
  ∃ (j : nat) suffix, (suffix = ".weight" ∨ suffix = ".bias")
              ∧ kv.1 = (prefix +:+ pretty j) +:+ suffix.
Proof.
  revert i. induction ls as [|l ls IH]; intros i Hin.
  - inversion Hin.
  - rewrite layer_entries_cons in Hin.
    apply elem_of_cons in Hin as [-> | Hin]; [exists i, ".weight"; auto|].
    apply elem_of_cons in Hin as [-> | Hin]; [exists i, ".bias"; auto|].
    exact (IH _ Hin).
Qed.

Lemma assoc_layer_entries (prefix : string) (i j : nat) (ls : list (nn.Linear F))
    (l : nn.Linear F) :
  ls !! j = Some l →
  assoc ((prefix +:+ pretty (i + j)) +:+ ".weight") (layer_entries prefix i ls)
  = Some (torch.T2 (nn.out_features l) (nn.in_features l) (nn.data (nn.lin_weight l)))
  ∧ assoc ((prefix +:+ pretty (i + j)) +:+ ".bias") (layer_entries prefix i ls)
    = Some (torch.T1 (nn.data (nn.lin_bias l))).
Proof.
  revert i j. induction ls as [|l0 ls IH]; intros i j Hj; [discriminate|].
  rewrite layer_entries_cons. destruct j as [|j].
  - injection Hj as ->. rewrite Nat.add_0_r. simpl.
    rewrite decide_True by reflexivity.
    rewrite decide_False by (intros Heq; exact (weight_ne_bias _ _ Heq)).
    rewrite decide_True by reflexivity. split; reflexivity.
  - simpl in Hj. specialize (IH (S i) j Hj).
    replace (i + S j)%nat with (S i + j)%nat by lia.
    assert (prefix +:+ pretty i ≠ prefix +:+ pretty (S i + j)) as Hne
      by (intros Heq; apply layer_name_inj in Heq; lia).
    rewrite !assoc_cons.
    rewrite !decide_False
      by (intros Heq;
          first [ exact (weight_ne_bias _ _ Heq)
                | symmetry in Heq; exact (weight_ne_bias _ _ Heq)
                | apply string_app_inj_r in Heq; exact (Hne Heq) ]).
    exact IH.
Qed.

End state_dicts.

Section round_trip.
Context {F : Type} `{Scalar F}.
Local Open Scope nat_scope.
Variable mask : nat → torch.Tensor F → torch.Tensor F.

Lemma filter_all {A} (P : A → Prop) `{∀ x, Decision (P x)} (l : list A) :
  Forall P l → filter P l = l.
Proof.
  induction 1 as [|x l Hx _ IH]; [reflexivity|].
  rewrite filter_cons_True by exact Hx. rewrite IH. reflexivity.
Qed.

Lemma filter_none {A} (P : A → Prop) `{∀ x, Decision (P x)} (l : list A) :
  Forall (λ x, ¬ P x) l → filter P l = [].
Proof.
  induction 1 as [|x l Hx _ IH]; [reflexivity|].
  rewrite filter_cons_False by exact Hx. exact IH.
Qed.

Lemma own_entries_eq (m : Model F) :
  own_entries m
  = embedding_entry "embeddings.0" (embeddings m).1
    :: embedding_entry "embeddings.1" (embeddings m).2
    :: (layer_entries "metadata_layer_" 0 (default [] (metadata_layers m))
        ++ layer_entries "combined_layer_" 0 (combined_layers m)).
Proof. reflexivity. Qed.

Lemma own_entries_clean (m : Model F) :
  Forall (λ kv, contains "_trained_model" kv.1 = false) (own_entries m).
Proof.
  rewrite own_entries_eq.
  repeat (apply Forall_cons; split; [reflexivity|]).
  apply Forall_app. split; apply Forall_forall; intros kv Hkv;
    apply layer_entries_prefixed in Hkv as (j & suffix & Hs & ->);
    apply layer_key_clean; auto.
Qed.

Lemma trained_model_entries_marked (m : Model F) :
  Forall (λ kv, ¬ contains "_trained_model" kv.1 = false) (trained_model_entries m).
Proof.
  unfold trained_model_entries. destruct (_trained_model m) as [tm|]; [|constructor].
  apply Forall_fmap, Forall_forall. intros [k v] _.
  change (¬ contains "_trained_model" ("_trained_model." +:+ k) = false).
  assert (contains "_trained_model" ("_trained_model." +:+ k) = true) as ->
    by reflexivity.
  discriminate.
Qed.

Lemma state_dict_to_save_own (m : Model F) : state_dict_to_save m = own_entries m.
Proof.
  rewrite state_dict_to_save_filter.
  unfold state_dict. rewrite filter_app.
  rewrite (filter_none _ _ (trained_model_entries_marked m)).
  rewrite (filter_all _ _ (own_entries_clean m)). reflexivity.
Qed.

Lemma head_char_ne (a b : string) : head_char a ≠ head_char b → a ≠ b.
Proof. intros Hne ->. exact (Hne eq_refl). Qed.

Lemma assoc_own_tables (m : Model F) :
  assoc ("embeddings.0" +:+ ".weight") (own_entries m)
  = Some (torch.T2 (nn.num_embeddings (embeddings m).1) (nn.embedding_dim (embeddings m).1)
                   (nn.data (nn.weight (embeddings m).1)))
  ∧ assoc ("embeddings.1" +:+ ".weight") (own_entries m)
    = Some (torch.T2 (nn.num_embeddings (embeddings m).2) (nn.embedding_dim (embeddings m).2)
                     (nn.data (nn.weight (embeddings m).2))).
Proof. split; reflexivity. Qed.

Lemma assoc_own_metadata_layer (m : Model F) (j : nat) (l : nn.Linear F) :
  default [] (metadata_layers m) !! j = Some l →
  assoc (("metadata_layer_" +:+ pretty j) +:+ ".weight") (own_entries m)
  = Some (torch.T2 (nn.out_features l) (nn.in_features l) (nn.data (nn.lin_weight l)))
  ∧ assoc (("metadata_layer_" +:+ pretty j) +:+ ".bias") (own_entries m)
    = Some (torch.T1 (nn.data (nn.lin_bias l))).
Proof.
  intros Hj. rewrite own_entries_eq. unfold embedding_entry. rewrite !assoc_cons.
  rewrite !decide_False by (apply head_char_ne; discriminate).
  rewrite !assoc_app.
  destruct (assoc_layer_entries "metadata_layer_" 0 j _ l Hj) as [Hw Hb].
  change (0 + j)%nat with j in Hw, Hb. rewrite Hw, Hb.
  split; reflexivity.
Qed.

Lemma assoc_own_combined_layer (m : Model F) (j : nat) (l : nn.Linear F) :
  combined_layers m !! j = Some l →
  assoc (("combined_layer_" +:+ pretty j) +:+ ".weight") (own_entries m)
  = Some (torch.T2 (nn.out_features l) (nn.in_features l) (nn.data (nn.lin_weight l)))
  ∧ assoc (("combined_layer_" +:+ pretty j) +:+ ".bias") (own_entries m)
    = Some (torch.T1 (nn.data (nn.lin_bias l))).
Proof.
  intros Hj. rewrite own_entries_eq. unfold embedding_entry. rewrite !assoc_cons.
  rewrite !decide_False by (apply head_char_ne; discriminate).
  rewrite !assoc_app.
  rewrite !(assoc_None _ (layer_entries "metadata_layer_" 0 _)).
  - exact (assoc_layer_entries "combined_layer_" 0 j _ l Hj).
  - intros kv Hkv. apply layer_entries_prefixed in Hkv as (i & suffix & _ & ->).
    apply head_char_ne. discriminate.
  - intros kv Hkv. apply layer_entries_prefixed in Hkv as (i & suffix & _ & ->).
    apply head_char_ne. discriminate.
Qed.

Lemma load_linear_Ok (sd : list (string * torch.Tensor F)) (rng : Rng F) (name : string)
    (d_in d_out : nat) (l : nn.Linear F) :
  nn.in_features l = d_in → nn.out_features l = d_out →
  length (nn.data (nn.lin_bias l)) = d_out →
  assoc (name +:+ ".weight") sd
  = Some (torch.T2 (nn.out_features l) (nn.in_features l) (nn.data (nn.lin_weight l))) →
  assoc (name +:+ ".bias") sd = Some (torch.T1 (nn.data (nn.lin_bias l))) →
  load_linear sd (name, new_linear rng name d_in d_out) = Ok (thaw_linear l).
Proof.
  intros Hin Hout Hbias Hw Hb. unfold load_linear. cbn [fst snd]. rewrite Hw, Hb.
  cbn [new_linear nn.out_features nn.in_features].
  rewrite decide_True by auto.
  unfold thaw_linear. rewrite Hin, Hout. reflexivity.
Qed.

Lemma load_layers_Ok (sd : list (string * torch.Tensor F)) (rng : Rng F) (prefix : string)
    (dims : list nat) (d_in i : nat) (layers : list (nn.Linear F)) :
  layers_shaped d_in dims layers →
  (∀ j l, layers !! j = Some l →
     assoc ((prefix +:+ pretty (i + j)) +:+ ".weight") sd
     = Some (torch.T2 (nn.out_features l) (nn.in_features l) (nn.data (nn.lin_weight l)))
     ∧ assoc ((prefix +:+ pretty (i + j)) +:+ ".bias") sd
       = Some (torch.T1 (nn.data (nn.lin_bias l)))) →
  rmapM (load_linear sd) (named_layers prefix i (new_layers rng prefix i d_in dims))
  = Ok (thaw_linear <$> layers).
Proof.
  revert d_in i layers. induction dims as [|d dims IH]; intros d_in i [|l layers] Hshape Hsd;
    try contradiction.
  - reflexivity.
  - destruct Hshape as (Hin & Hout & Hbias & Hshape).
    cbn [new_layers named_layers rmapM].
    destruct (Hsd 0%nat l eq_refl) as [Hw Hb]. rewrite Nat.add_0_r in Hw, Hb.
    rewrite (load_linear_Ok sd rng _ d_in d l Hin Hout Hbias Hw Hb).
    cbn [mbind result_bind].
    rewrite (IH d (S i) layers Hshape).
    + reflexivity.
    + intros j l' Hj. replace (S i + j)%nat with (i + S j)%nat by lia.
      apply Hsd. exact Hj.
Qed.

Lemma new_layers_length (rng : Rng F) (prefix : string) (dims : list nat) (d_in i : nat) :
  length (new_layers rng prefix i d_in dims) = length dims.
Proof.
  revert d_in i. induction dims as [|d dims IH]; intros d_in i; [reflexivity|].
  simpl. rewrite IH. reflexivity.
Qed.

Lemma layers_shaped_length (d_in : nat) (dims : list nat) (layers : list (nn.Linear F)) :
  layers_shaped d_in dims layers → length layers = length dims.
Proof.
  revert d_in layers. induction dims as [|d dims IH]; intros d_in [|l layers] Hs;
    try contradiction; [reflexivity|].
  destruct Hs as (_ & _ & _ & Hs). simpl. rewrite (IH _ _ Hs). reflexivity.
Qed.

Lemma forallb_elem_of_self (l : list string) :
  forallb (λ k, bool_decide (k ∈ l)) l = true.
Proof.
  apply forallb_forall. intros k Hk. apply bool_decide_eq_true.
  apply list_elem_of_In. exact Hk.
Qed.

Lemma hidden_layers_thaw (training : bool) (k : nat) (layers : list (nn.Linear F))
    (x : torch.Tensor F) :
  hidden_layers mask training k (thaw_linear <$> layers) x
  = hidden_layers mask training k layers x.
Proof.
  revert k x. induction layers as [|l layers IH]; intros k x; [reflexivity|].
  rewrite fmap_cons. cbn [hidden_layers].
  change (nn.linear (thaw_linear l) x) with (nn.linear l x).
  destruct (nn.linear l x) as [y|e]; [|reflexivity].
  cbn [mbind result_bind]. apply IH.
Qed.

Lemma removelast_fmap {A B} (f : A → B) (l : list A) :
  removelast (f <$> l) = f <$> removelast l.
Proof.
  induction l as [|a [|b l] IH]; [reflexivity | reflexivity |].
  change (f a :: removelast (f <$> b :: l) = f a :: (f <$> removelast (b :: l))).
  rewrite IH. reflexivity.
Qed.

Lemma forward_restored (m : Model F) (path : string) (users items : list Z) :
  training m = false →
  forward mask (eval (restored m path)) users items = forward mask m users items.
Proof.
  intros Htrain. unfold forward. cbn [eval restored item_metadata metadata_layers
    embeddings combined_layers training fst snd]. rewrite Htrain.
  destruct (item_metadata m) as [md|]; [|reflexivity]. cbn [mbind result_bind].
  destruct (torch.index_rows md items) as [rows|e]; [|reflexivity].
  cbn [mbind result_bind].
  assert (match thaw_layers <$> metadata_layers m with
          | Some layers => hidden_layers mask false 0 layers rows
          | None => Ok rows
          end
          = match metadata_layers m with
            | Some layers => hidden_layers mask false 0 layers rows
            | None => Ok rows
            end) as ->.
  { destruct (metadata_layers m) as [layers|]; [|reflexivity]. apply hidden_layers_thaw. }
  destruct (match metadata_layers m with Some _ => _ | None => _ end) as [out|e];
    [|reflexivity].
  cbn [mbind result_bind].
  change (nn.lookup (nn.set_requires_grad true (embeddings m).1) users)
    with (nn.lookup (embeddings m).1 users).
  change (nn.lookup (nn.set_requires_grad true (embeddings m).2) items)
    with (nn.lookup (embeddings m).2 items).
  destruct (nn.lookup (embeddings m).1 users) as [u|e]; [|reflexivity].
  cbn [mbind result_bind].
  destruct (nn.lookup (embeddings m).2 items) as [i|e]; [|reflexivity].
  cbn [mbind result_bind].
  destruct (torch.cat1 [u; i; out]) as [c|e]; [|reflexivity].
  cbn [mbind result_bind].
  assert (length (default [] (thaw_layers <$> metadata_layers m))
          = length (default [] (metadata_layers m))) as ->.
  { destruct (metadata_layers m); [apply length_fmap | reflexivity]. }
  unfold thaw_layers.
  rewrite removelast_fmap, hidden_layers_thaw.
  destruct (hidden_layers mask false _ _ c) as [h|e]; [|reflexivity].
  cbn [mbind result_bind].
  rewrite fmap_last.
  destruct (last (combined_layers m)) as [l|]; [|reflexivity].
  reflexivity.
Qed.

Lemma own_entries_keys (m m' : Model F) :
  length (default [] (metadata_layers m')) = length (default [] (metadata_layers m)) →
  length (combined_layers m') = length (combined_layers m) →
  (own_entries m').*1 = (own_entries m).*1.
Proof.
  intros Hm Hc. rewrite !own_entries_eq, !fmap_cons, !fmap_app.
  rewrite (layer_entries_keys "metadata_layer_" 0 _ _ Hm).
  rewrite (layer_entries_keys "combined_layer_" 0 _ _ Hc). reflexivity.
Qed.

Lemma load_embedding_Ok (sd : list (string * torch.Tensor F)) (name : string)
    (draw : nat → nat → F) (e : nn.Embedding F) (n d : nat) :
  nn.num_embeddings e = n → nn.embedding_dim e = d →
  assoc (name +:+ ".weight") sd
  = Some (torch.T2 (nn.num_embeddings e) (nn.embedding_dim e) (nn.data (nn.weight e))) →
  load_embedding sd name (base.ScaledEmbedding draw n d) = Ok (nn.set_requires_grad true e).
Proof.
  intros Hn Hd Hsd. unfold load_embedding. rewrite Hsd.
  cbn [base.ScaledEmbedding nn.num_embeddings nn.embedding_dim].
  rewrite decide_True by auto.
  unfold nn.set_weight_data, nn.set_requires_grad, nn.set_data. simpl.
  rewrite Hn, Hd. reflexivity.
Qed.

(** Restoring from what [save_model] wrote gives the saved model again, up to
    the gradient-tracking flags, the retained source model and the recorded
    path. *)
Lemma _setup_model_load_state_dict (m : Model F) (path : string) (rng : Rng F) :
  wf_model m →
  (m0 ← _setup_model {| attr_hparams := set_load_model_path (hparams m) path;
                        attr_item_metadata := item_metadata m;
                        attr_trained_model := None |}
                     {| kwargs_trained_model := None; kwargs_item_metadata := None |} rng;
   load_state_dict m0 (own_entries m))
  = Ok (restored m path).
Proof.
  intros [[Hun Hud] [Hin Hid] Hml Hcl _].
  unfold _setup_model. cbn [attr_hparams set_load_model_path load_model_path].
  cbn [mbind result_bind].
  set (hp := set_load_model_path (hparams m) path).
  set (m0 := with_layers _ _ _ _).
  assert (metadata_layers m0
          = match metadata_layers_dims (hparams m) with
            | Some dims => Some (new_layers rng "metadata_layer_" 0
                                   (item_metadata_num_cols (hparams m)) dims)
            | None => None
            end) as Hm0 by reflexivity.
  assert (combined_layers m0
          = new_layers rng "combined_layer_" 0 (combined_dimension_input (hparams m))
              (combined_layers_dims (hparams m) ++ [1%nat])) as Hc0 by reflexivity.
  unfold load_state_dict.
  assert ((state_dict m0).*1 = (own_entries m).*1) as ->.
  { change (state_dict m0) with (own_entries m0). apply own_entries_keys.
    - rewrite Hm0. destruct (metadata_layers_dims (hparams m)) as [dims|],
        (metadata_layers m) as [layers|]; try contradiction; [|reflexivity].
      simpl. rewrite new_layers_length. symmetry.
      exact (layers_shaped_length _ _ _ Hml).
    - rewrite Hc0, new_layers_length. symmetry.
      exact (layers_shaped_length _ _ _ Hcl). }
  rewrite forallb_elem_of_self. cbn [andb].
  change (_trained_model m0) with (@None (MatrixFactorizationModel.t F)).
  cbn [mbind result_bind].
  destruct (assoc_own_tables m) as [Hu Hi].
  change (embeddings m0).1
    with (base.ScaledEmbedding (draw_embedding rng 0)
            (user_num_embeddings (hparams m)) (user_embeddings_dim (hparams m))).
  change (embeddings m0).2
    with (base.ScaledEmbedding (draw_embedding rng 1)
            (item_num_embeddings (hparams m)) (item_embeddings_dim (hparams m))).
  rewrite (load_embedding_Ok _ _ _ _ _ _ Hun Hud Hu). cbn [mbind result_bind].
  rewrite (load_embedding_Ok _ _ _ _ _ _ Hin Hid Hi). cbn [mbind result_bind].
  rewrite Hm0, Hc0.
  rewrite (load_layers_Ok (own_entries m) rng "combined_layer_" _ _ 0 _ Hcl)
    by (intros j l Hj; exact (assoc_own_combined_layer m j l Hj)).
  destruct (metadata_layers_dims (hparams m)) as [dims|] eqn:Hdims,
    (metadata_layers m) as [layers|] eqn:Hlayers; try contradiction.
  - rewrite (load_layers_Ok (own_entries m) rng "metadata_layer_" _ _ 0 _ Hml).
    + cbn [mbind result_bind]. unfold restored. rewrite Hlayers. reflexivity.
    + intros j l Hj. apply assoc_own_metadata_layer. rewrite Hlayers. exact Hj.
  - cbn [mbind result_bind]. unfold restored. rewrite Hlayers. reflexivity.
Qed.

Lemma save_model_Ok_inv (m : Model F) (path : string) (overwrite : bool) (fs fs' : FS F) :
  save_model m path overwrite fs = (Ok (), fs') →
  ∃ md, item_metadata m = Some md
    ∧ fs' = <[path := <["model.pth" := TorchSave (state_dict_to_save m) (hparams m)]>
                        (<["metadata.pkl" := Joblib md]> (default ∅ (fs !! path)))]> fs.
Proof.
  rewrite save_model_unfold. cbv zeta.
  destruct (bool_decide _ && bool_decide _); [discriminate|].
  destruct (item_metadata m) as [md|]; [|discriminate].
  intros [= <-]. exists md. split; reflexivity.
Qed.

Lemma load_saved (m : Model F) (path : string) (overwrite : bool) (fs fs' : FS F)
    (hp : HParams F) (rng : Rng F) :
  wf_model m →
  save_model m path overwrite fs = (Ok (), fs') →
  load hp path rng fs' = Ok (eval (restored m (path_join path "model.pth"))).
Proof.
  intros Hwf Hsave. apply save_model_Ok_inv in Hsave as (md & Hmd & ->).
  unfold load, _load_model_init_helper, read.
  rewrite lookup_insert_eq. rewrite lookup_insert_ne by discriminate.
  rewrite lookup_insert_eq. cbn [mbind result_bind attr_hparams attr_trained_model].
  unfold base_load_model_init_helper, read.
  rewrite lookup_insert_eq. rewrite lookup_insert_eq.
  cbn [mbind result_bind attr_hparams attr_trained_model attr_item_metadata].
  rewrite state_dict_to_save_own.
  pose proof (_setup_model_load_state_dict m (path_join path "model.pth") rng Hwf) as Hload.
  rewrite Hmd in Hload.
  destruct (_setup_model _ _ rng) as [m0|e]; [|discriminate Hload].
  cbn [mbind result_bind] in Hload |- *. rewrite Hload. reflexivity.
Qed.

(** C4: for a model in evaluation mode, loading from the path it was saved to
    gives a model whose forward scores are those of the saved model, for all
    users and items. *)
Theorem save_load_round_trip (m : Model F) (path : string) (overwrite : bool)
    (fs fs' : FS F) (hp : HParams F) (rng : Rng F) :
  wf_model m →
  training m = false →
  save_model m path overwrite fs = (Ok (), fs') →
  ∃ m', load hp path rng fs' = Ok m'
    ∧ training m' = false
    ∧ ∀ users items, forward mask m' users items = forward mask m users items.
Proof.
  intros Hwf Htrain Hsave.
  exists (eval (restored m (path_join path "model.pth"))).
  split; [exact (load_saved m path overwrite fs fs' hp rng Hwf Hsave)|].
  split; [reflexivity|].
  intros users items. apply forward_restored. exact Htrain.
Qed.

(** C7, as the code has it: the trained model stays an attribute of the
    hybrid model, yet it is no part of what [save_model] persists.  The
    mapping written to the model-state file is the model's own entries: it
    holds no entry whose name contains "_trained_model", so none of the
    entries of the trained model, and the two files written are the metadata
    blob and that mapping with the hyperparameters. *)
Theorem save_model_excludes_trained_model (m : Model F) (path : string)
    (overwrite : bool) (fs fs' : FS F) :
  save_model m path overwrite fs = (Ok (), fs') →
  ∃ md files,
    item_metadata m = Some md
    ∧ fs' !! path = Some files
    ∧ files !! "metadata.pkl" = Some (Joblib md)
    ∧ files !! "model.pth" = Some (TorchSave (state_dict_to_save m) (hparams m))
    ∧ (∀ name, name ≠ "metadata.pkl" → name ≠ "model.pth" →
         files !! name = default ∅ (fs !! path) !! name)
    ∧ state_dict_to_save m = own_entries m
    ∧ (∀ kv, kv ∈ state_dict_to_save m → contains "_trained_model" kv.1 = false)
    ∧ (∀ kv, kv ∈ trained_model_entries m → kv.1 ∉ (state_dict_to_save m).*1).
Proof.
  intros Hsave. apply save_model_Ok_inv in Hsave as (md & Hmd & ->).
  exists md. eexists. split; [exact Hmd|].
  split; [apply lookup_insert_eq|].
  split; [rewrite lookup_insert_ne by discriminate; apply lookup_insert_eq|].
  split; [apply lookup_insert_eq|].
  split; [intros name Hn1 Hn2; rewrite !lookup_insert_ne by congruence; reflexivity|].
  split; [apply state_dict_to_save_own|].
  pose proof (own_entries_clean m) as Hclean. rewrite Forall_forall in Hclean.
  split.
  - intros kv Hkv. rewrite state_dict_to_save_own in Hkv. exact (Hclean kv Hkv).
  - intros kv Hkv Hin. rewrite state_dict_to_save_own in Hin.
    apply list_elem_of_fmap in Hin as (kv' & Hkey & Hkv').
    pose proof (trained_model_entries_marked m) as Hmarked.
    rewrite Forall_forall in Hmarked.
    apply (Hmarked kv Hkv). rewrite Hkey. exact (Hclean kv' Hkv').
Qed.

(** The shapes are what [_setup_model] builds, in both of its branches. *)
Lemma new_layers_shaped (rng : Rng F) (prefix : string) (dims : list nat) (d_in i : nat) :
  layers_shaped d_in dims (new_layers rng prefix i d_in dims).
Proof.
  revert d_in i. induction dims as [|d dims IH]; intros d_in i; [exact I|].
  cbn [new_layers layers_shaped new_linear nn.in_features nn.out_features
       nn.lin_bias nn.data].
  split; [reflexivity|]. split; [reflexivity|].
  split; [rewrite length_fmap, length_seq; reflexivity | apply IH].
Qed.

(** X17: whatever [_setup_model] returns is well-formed: the tables have
    the shapes recorded in the hyperparameters and the layers the shapes of
    [metadata_layers_dims] and [combined_layers_dims], with a last combined
    layer of one output. *)
Lemma _setup_model_shapes (self : Attributes F) (kwargs : Kwargs F) (rng : Rng F) (m : Model F) :
  (is_Some (load_model_path (attr_hparams self)) → is_Some (attr_item_metadata self)) →
  _setup_model self kwargs rng = Ok m → wf_model m.
Proof.
  intros Hmd. unfold _setup_model.
  destruct (load_model_path (attr_hparams self)) as [p|] eqn:Hpath.
  - cbn [mbind result_bind]. intros [= <-].
    split; cbn [with_layers with_tables hparams embeddings metadata_layers
                combined_layers item_metadata fst snd].
    + split; reflexivity.
    + split; reflexivity.
    + destruct (metadata_layers_dims (attr_hparams self)); [apply new_layers_shaped | exact I].
    + apply new_layers_shaped.
    + apply Hmd. eexists. reflexivity.
  - destruct (match attr_trained_model self with Some _ => _ | None => _ end) as [tm|];
      [|discriminate].
    cbn [mbind result_bind].
    destruct (match attr_item_metadata self with Some _ => _ | None => _ end) as [md|];
      [|discriminate].
    cbn [mbind result_bind]. cbv zeta. cbn [with_tables hparams]. intros [= <-].
    destruct (freeze_embeddings_ (attr_hparams self));
      (split; cbn [with_layers with_tables hparams embeddings metadata_layers
                   combined_layers item_metadata fst snd freeze_embeddings
                   unfreeze_embeddings with_embeddings set_embedding_shapes
                   metadata_layers_dims item_metadata_num_cols combined_layers_dims
                   user_num_embeddings user_embeddings_dim item_num_embeddings
                   item_embeddings_dim];
       [ split; reflexivity
       | split; reflexivity
       | destruct (metadata_layers_dims (attr_hparams self));
           [apply new_layers_shaped | exact I]
       | apply new_layers_shaped
       | eexists; reflexivity ]).
Qed.

End round_trip.

Ltac shapes_by_computation :=
  constructor; vm_compute; repeat split; try reflexivity; eexists; reflexivity.

Lemma save_load_round_trip_witness :
  let saved := save_model example_model "model" false ∅ in
  wf_model example_model
  ∧ training example_model = false
  ∧ saved = (Ok (), saved.2)
  ∧ ∃ m', load example_hparams "model" other_rng saved.2 = Ok m'
      ∧ training m' = false
      ∧ ∀ users items,
          forward (λ _ t, t) m' users items = forward (λ _ t, t) example_model users items.
Proof.
  intros saved.
  assert (wf_model example_model) as Hwf by shapes_by_computation.
  assert (saved = (Ok (), saved.2)) as Hsaved by (vm_compute; reflexivity).
  split; [exact Hwf|]. split; [reflexivity|]. split; [exact Hsaved|].
  exact (save_load_round_trip (λ _ t, t) example_model "model" false ∅ saved.2
           example_hparams other_rng Hwf eq_refl Hsaved).
Defined.

Example load_saved_example_model :
  ∃ m', load example_hparams "model" other_rng
          (save_model example_model "model" false ∅).2 = Ok m'
    ∧ forward (λ _ t, t) m' [0; 1] [1; 2] = Ok (torch.T1 [71715; 126905])
    ∧ forward (λ _ t, t) example_model [0; 1] [1; 2] = Ok (torch.T1 [71715; 126905]).
Proof. eexists. repeat split; vm_compute; reflexivity. Qed.

Lemma save_model_excludes_trained_model_witness :
  let saved := save_model example_model "model" false ∅ in
  saved = (Ok (), saved.2)
  ∧ ∃ md files,
      item_metadata example_model = Some md
      ∧ saved.2 !! "model" = Some files
      ∧ files !! "model.pth"
        = Some (TorchSave (state_dict_to_save example_model) (hparams example_model))
      ∧ ∀ kv, kv ∈ trained_model_entries example_model →
          kv.1 ∉ (state_dict_to_save example_model).*1.
Proof.
  intros saved.
  assert (saved = (Ok (), saved.2)) as Hsaved by (vm_compute; reflexivity).
  split; [exact Hsaved|].
  pose proof (save_model_excludes_trained_model example_model "model" false ∅ saved.2
                Hsaved) as Hsplit.
  destruct Hsplit as (md & files & Hmd & Hfiles & _ & Hpth & _ & _ & _ & Hout).
  exists md, files. auto.
Defined.

(** After construction the trained model is still an attribute of the hybrid
    model, and its parameters are entries of [state_dict()]. *)
Lemma trained_model_retained_after_setup :
  ∃ m, _setup_model example_attributes example_kwargs example_rng = Ok m
    ∧ _trained_model m = Some example_trained_model
    ∧ ("_trained_model.user_embeddings.weight", torch.T2 2 2 [[1; 2]; [3; 4]])
      ∈ state_dict m.
Proof.
  eexists. split; [vm_compute; reflexivity|]. split; [reflexivity|].
  apply list_elem_of_In. vm_compute. auto.
Qed.

Lemma save_model_overwrite_witness :
  let occupied : FS Z := {["model" := {["notes.txt" := Other "kept"]}]} in
  ((occupied !! "model" = Some {["notes.txt" := Other "kept"]}
    ∧ ({["notes.txt" := Other "kept"]} : gmap string (Blob Z)) ≠ ∅
    ∧ save_model example_model "model" false occupied
      = (Raise (ValueError "Data exists in ``path`` at model and ``overwrite`` is False."),
         occupied))
   ∧ ∃ fs', save_model example_model "model" true occupied = (Ok (), fs')
       ∧ ∃ files, fs' !! "model" = Some files
           ∧ files !! "model.pth"
             = Some (TorchSave (state_dict_to_save example_model) (hparams example_model))
           ∧ files !! "notes.txt" = Some (Other "kept")).
Proof.
  intros occupied.
  assert (occupied !! "model" = Some {["notes.txt" := Other "kept"]}) as Hdir
    by apply lookup_singleton_eq.
  assert (({["notes.txt" := Other "kept"]} : gmap string (Blob Z)) ≠ ∅) as Hfiles
    by apply insert_non_empty.
  assert (∃ md, item_metadata example_model = Some md) as [md Hmd]
    by (eexists; vm_compute; reflexivity).
  split.
  - split; [exact Hdir|]. split; [exact Hfiles|].
    exact (proj1 (save_model_overwrite example_model "model" false occupied)
             _ Hdir Hfiles eq_refl).
  - destruct (proj2 (save_model_overwrite example_model "model" true occupied)
                md Hmd (or_introl eq_refl))
      as (fs' & Hsave & (files & Hpath & _ & Hpth & Hother) & _).
    exists fs'. split; [exact Hsave|]. exists files. split; [exact Hpath|].
    split; [exact Hpth|].
    rewrite Hother by discriminate. rewrite Hdir. apply lookup_singleton_eq.
Defined.

(** ** HybridPretrainedModel: construction, persistence and scores *)

Section construction.
Context {F : Type} `{Scalar F}.
Variable mask : nat → torch.Tensor F → torch.Tensor F.

(** X18: the gradient flags of the borrowed tables are seen neither by
    [forward] nor by [save_model]: a frozen or unfrozen model gives the
    scores, and writes the files, of the model as it was. *)
Theorem freezing_is_invisible (m : Model F) :
  (∀ users items,
     forward mask (freeze_embeddings m) users items = forward mask m users items
     ∧ forward mask (unfreeze_embeddings m) users items = forward mask m users items)
  ∧ (∀ path overwrite fs,
       save_model (freeze_embeddings m) path overwrite fs = save_model m path overwrite fs
       ∧ save_model (unfreeze_embeddings m) path overwrite fs
         = save_model m path overwrite fs).
Proof.
  split.
  - intros users items. split; reflexivity.
  - intros path overwrite fs. split; reflexivity.
Qed.

(** X19: without a load path, [_setup_model] needs the trained model and the
    item metadata, each as an attribute already set or else as a keyword
    argument: it returns exactly when both are at hand, and raises [KeyError]
    for the first one that is not; with a load path it always returns. *)
Theorem _setup_model_KeyError (self : Attributes F) (kwargs : Kwargs F) (rng : Rng F) :
  (is_Some (load_model_path (attr_hparams self)) →
   ∃ m, _setup_model self kwargs rng = Ok m)
  ∧ (load_model_path (attr_hparams self) = None →
     (attr_trained_model self = None → kwargs_trained_model kwargs = None →
      _setup_model self kwargs rng = Raise (KeyError "trained_model"))
     ∧ ((is_Some (attr_trained_model self) ∨ is_Some (kwargs_trained_model kwargs)) →
        attr_item_metadata self = None → kwargs_item_metadata kwargs = None →
        _setup_model self kwargs rng = Raise (KeyError "item_metadata"))
     ∧ ((is_Some (attr_trained_model self) ∨ is_Some (kwargs_trained_model kwargs)) →
        (is_Some (attr_item_metadata self) ∨ is_Some (kwargs_item_metadata kwargs)) →
        ∃ m, _setup_model self kwargs rng = Ok m)).
Proof.
  unfold _setup_model. split.
  - intros [p ->]. eexists. reflexivity.
  - intros ->. split; [|split].
    + intros -> ->. reflexivity.
    + intros Htm -> ->.
      destruct (attr_trained_model self) as [tm|]; [reflexivity|].
      destruct (kwargs_trained_model kwargs) as [tm|]; [reflexivity|].
      destruct Htm as [[? [=]]|[? [=]]].
    + intros Htm Hmd.
      assert (∃ tm, match attr_trained_model self with
                    | Some tm => Ok tm
                    | None => pop "trained_model" (kwargs_trained_model kwargs)
                    end = Ok tm) as [tm ->].
      { destruct (attr_trained_model self) as [tm|]; [eexists; reflexivity|].
        destruct (kwargs_trained_model kwargs) as [tm|]; [eexists; reflexivity|].
        destruct Htm as [[? [=]]|[? [=]]]. }
      assert (∃ md, match attr_item_metadata self with
                    | Some md => Ok md
                    | None => pop "item_metadata" (kwargs_item_metadata kwargs)
                    end = Ok md) as [md ->].
      { destruct (attr_item_metadata self) as [md|]; [eexists; reflexivity|].
        destruct (kwargs_item_metadata kwargs) as [md|]; [eexists; reflexivity|].
        destruct Hmd as [[? [=]]|[? [=]]]. }
      eexists. reflexivity.
Qed.

(** X20: what [_setup_model] builds without a load path.  The trained model
    stays as it is, an attribute already set taking precedence over the
    keyword argument; the two tables have the entries and the shapes of the
    trained model's, with the gradient flag that [hparams.freeze_embeddings]
    asks for; the shapes are recorded in the hyperparameters; and there is one
    combined layer more than [combined_layers_dims] has entries. *)
Theorem _setup_model_borrows (self : Attributes F) (kwargs : Kwargs F) (rng : Rng F)
    (m : Model F) :
  load_model_path (attr_hparams self) = None →
  _setup_model self kwargs rng = Ok m →
  ∃ tm,
    _trained_model m = Some tm
    ∧ (attr_trained_model self = Some tm
       ∨ attr_trained_model self = None ∧ kwargs_trained_model kwargs = Some tm)
    ∧ nn.data (nn.weight (embeddings m).1)
      = nn.data (nn.weight (MatrixFactorizationModel.user_embeddings tm))
    ∧ nn.data (nn.weight (embeddings m).2)
      = nn.data (nn.weight (MatrixFactorizationModel.item_embeddings tm))
    ∧ table_flags m = (negb (freeze_embeddings_ (attr_hparams self)),
                       negb (freeze_embeddings_ (attr_hparams self)))
    ∧ user_num_embeddings (hparams m)
      = nn.num_embeddings (MatrixFactorizationModel.user_embeddings tm)
    ∧ user_embeddings_dim (hparams m)
      = nn.embedding_dim (MatrixFactorizationModel.user_embeddings tm)
    ∧ item_num_embeddings (hparams m)
      = nn.num_embeddings (MatrixFactorizationModel.item_embeddings tm)
    ∧ item_embeddings_dim (hparams m)
      = nn.embedding_dim (MatrixFactorizationModel.item_embeddings tm)
    ∧ length (combined_layers m) = S (length (combined_layers_dims (attr_hparams self)))
    ∧ training m = true.
Proof.
  intros Hpath. unfold _setup_model. rewrite Hpath.
  destruct (match attr_trained_model self with
            | Some tm => Ok tm
            | None => pop "trained_model" (kwargs_trained_model kwargs)
            end) as [tm|e] eqn:Htm; [|discriminate].
  destruct (match attr_item_metadata self with
            | Some md => Ok md
            | None => pop "item_metadata" (kwargs_item_metadata kwargs)
            end) as [md|e] eqn:Hmd; [|discriminate].
  cbn [mbind result_bind]. cbv zeta. cbn [with_tables hparams].
  intros [= <-]. exists tm.
  split; [destruct (freeze_embeddings_ (attr_hparams self)); reflexivity|].
  split.
  { destruct (attr_trained_model self) as [tm'|].
    - left. congruence.
    - right. split; [reflexivity|].
      destruct (kwargs_trained_model kwargs); [simpl in Htm; congruence | discriminate]. }
  destruct (freeze_embeddings_ (attr_hparams self)); cbn;
    rewrite new_layers_length, length_app, Nat.add_1_r; repeat split; reflexivity.
Qed.

(** X21: after a save that returned, the destination holds files: a second
    save without [overwrite] raises and leaves the first one in place,
    whatever the model; saving the same model again with [overwrite] changes
    nothing; and saving another model with [overwrite] leaves what saving it
    in place of the first one would have left. *)
Theorem save_model_twice (m m2 : Model F) (path : string) (overwrite : bool)
    (fs fs1 : FS F) :
  save_model m path overwrite fs = (Ok (), fs1) →
  save_model m2 path false fs1
  = (Raise (ValueError ("Data exists in ``path`` at " +:+ path
                        +:+ " and ``overwrite`` is False.")), fs1)
  ∧ save_model m path true fs1 = (Ok (), fs1)
  ∧ (is_Some (item_metadata m2) →
     save_model m2 path true fs1 = save_model m2 path true fs).
Proof.
  intros Hsave. apply save_model_Ok_inv in Hsave as (md & Hmd & ->).
  set (files := default ∅ (fs !! path)).
  rewrite !save_model_unfold. cbv zeta.
  rewrite !lookup_insert_eq. cbn [from_option]. unfold id. rewrite !andb_false_r.
  split; [|split].
  - rewrite bool_decide_true by apply insert_non_empty. reflexivity.
  - rewrite Hmd, insert_insert_eq. f_equal. f_equal.
    apply map_eq. intros name.
    destruct (decide (name = "model.pth")) as [->|Hn1];
      [|destruct (decide (name = "metadata.pkl")) as [->|Hn2]];
      repeat (rewrite lookup_insert_eq || rewrite lookup_insert_ne by congruence);
      reflexivity.
  - intros [md2 ->]. rewrite insert_insert_eq. fold files. f_equal. f_equal.
    apply map_eq. intros name.
    destruct (decide (name = "model.pth")) as [->|Hn1];
      [|destruct (decide (name = "metadata.pkl")) as [->|Hn2]];
      repeat (rewrite lookup_insert_eq || rewrite lookup_insert_ne by congruence);
      reflexivity.
Qed.

(** X22: loading reads the metadata file first: from a directory that is
    absent or holds no "metadata.pkl", [_load_model_init_helper] raises
    [FileNotFoundError] for that file, whatever else is there. *)
Theorem _load_model_init_helper_no_metadata (self : Attributes F) (path : string)
    (rng : Rng F) (fs : FS F) :
  default ∅ (fs !! path) !! "metadata.pkl" = None →
  _load_model_init_helper self path rng fs
  = Raise (FileNotFoundError (path_join path "metadata.pkl")).
Proof.
  intros Hno. unfold _load_model_init_helper, read.
  destruct (fs !! path) as [files|]; [|reflexivity].
  simpl in Hno. rewrite Hno. reflexivity.
Qed.

Lemma layer_entries_thaw (prefix : string) (i : nat) (layers : list (nn.Linear F)) :
  layer_entries prefix i (thaw_linear <$> layers) = layer_entries prefix i layers.
Proof.
  revert i. induction layers as [|l layers IH]; intros i; [reflexivity|].
  rewrite fmap_cons, !layer_entries_cons, IH. reflexivity.
Qed.

Lemma own_entries_restored (m : Model F) (path : string) :
  own_entries (restored m path) = own_entries m.
Proof.
  rewrite !own_entries_eq. unfold restored.
  cbn [embeddings metadata_layers combined_layers fst snd].
  rewrite layer_entries_thaw.
  destruct (metadata_layers m) as [layers|]; [|reflexivity].
  change (default [] (thaw_layers <$> Some layers)) with (thaw_linear <$> layers).
  rewrite layer_entries_thaw. reflexivity.
Qed.

(** X23: the shapes [_setup_model] records in the hyperparameters are enough
    to rebuild the model: from the hyperparameters of a model, with a load
    path, [_setup_model] builds a structure into which [load_state_dict]
    loads what [save_model] writes of that model, for every random
    initialisation.  The loaded model has the saved parameters under their
    names, no trained model, and both table flags true. *)
Theorem rebuilt_model_accepts_saved_state (m : Model F) (path : string) (rng : Rng F) :
  wf_model m →
  ∃ m0 m1,
    _setup_model {| attr_hparams := set_load_model_path (hparams m) path;
                    attr_item_metadata := item_metadata m;
                    attr_trained_model := None |}
                 {| kwargs_trained_model := None; kwargs_item_metadata := None |} rng
    = Ok m0
    ∧ load_state_dict m0 (state_dict_to_save m) = Ok m1
    ∧ state_dict m1 = state_dict_to_save m
    ∧ _trained_model m1 = None
    ∧ item_metadata m1 = item_metadata m
    ∧ table_flags m1 = (true, true).
Proof.
  intros Hwf.
  pose proof (_setup_model_load_state_dict m path rng Hwf) as Hload.
  destruct (_setup_model _ _ rng) as [m0|e]; [|discriminate Hload].
  cbn [mbind result_bind] in Hload.
  exists m0, (restored m path). split; [reflexivity|].
  rewrite state_dict_to_save_own. split; [exact Hload|].
  split; [|repeat split].
  unfold state_dict, trained_model_entries. cbn [restored _trained_model].
  apply own_entries_restored.
Qed.

(** X24: [_get_item_embeddings] reads the first [hparams.num_items] rows of
    the borrowed item table: it returns them when the table has as many, and
    raises [IndexError] when it has fewer. *)
Theorem _get_item_embeddings_rows (m : Model F) :
  nn.wf_embedding (embeddings m).2 →
  ((num_items (hparams m) ≤ nn.num_embeddings (embeddings m).2)%nat →
   _get_item_embeddings m
   = Ok (torch.T2 (num_items (hparams m)) (nn.embedding_dim (embeddings m).2)
                  (take (num_items (hparams m)) (nn.data (nn.weight (embeddings m).2)))))
  ∧ ((nn.num_embeddings (embeddings m).2 < num_items (hparams m))%nat →
     _get_item_embeddings m = Raise IndexError).
Proof.
  intros Hwf. unfold _get_item_embeddings. split.
  - intros Hle. apply lookup_arange; assumption.
  - intros Hlt. apply lookup_Raise. apply Exists_exists.
    exists (Z.of_nat (nn.num_embeddings (embeddings m).2)). split; [|lia].
    apply elem_of_seqZ. lia.
Qed.

End construction.

Section scoring.
Context {F : Type} `{Scalar F}.
Variable mask : nat → torch.Tensor F → torch.Tensor F.
Local Open Scope nat_scope.

Lemma List_last_default {A} (d d' : A) (l : list A) :
  l ≠ [] → List.last l d = List.last l d'.
Proof.
  induction l as [|x l IH]; [congruence|]. intros _.
  destruct l as [|y l]; [reflexivity|].
  change (List.last (y :: l) d = List.last (y :: l) d'). apply IH. discriminate.
Qed.

Lemma List_last_cons {A} (x d : A) (l : list A) : List.last (x :: l) d = List.last l x.
Proof.
  destruct l as [|y l]; [reflexivity|].
  change (List.last (y :: l) d = List.last (y :: l) x). apply List_last_default. discriminate.
Qed.

(** Outside training, layers of the shapes [dims] take a batch of width
    [d_in] to a batch of the last width, row by row. *)
Lemma hidden_layers_Ok (dims : list nat) (layers : list (nn.Linear F)) (d_in k n : nat)
    (M : torch.matrix F) :
  layers_shaped d_in dims layers →
  ∃ M', hidden_layers mask false k layers (torch.T2 n d_in M)
        = Ok (torch.T2 n (List.last dims d_in) M')
        ∧ length M' = length M.
Proof.
  revert layers d_in k M.
  induction dims as [|d dims IH]; intros [|l layers] d_in k M Hshaped;
    try contradiction.
  - exists M. split; reflexivity.
  - destruct Hshaped as (Hin & Hout & _ & Hrest).
    cbn [hidden_layers nn.linear]. rewrite decide_True by (symmetry; exact Hin).
    cbn [mbind result_bind torch.map_entries dropout]. rewrite Hout.
    destruct (IH layers d (S k)
                ((λ row : list F, leaky_relu <$> row) <$> (nn.affine l <$> M)) Hrest)
      as (M' & -> & Hlen).
    exists M'. split.
    + rewrite List_last_cons. reflexivity.
    + rewrite Hlen, !length_fmap. reflexivity.
Qed.

Lemma layers_shaped_snoc (dims : list nat) (o : nat) (layers : list (nn.Linear F))
    (d_in : nat) :
  layers_shaped d_in (dims ++ [o])%list layers →
  ∃ init l, layers = (init ++ [l])%list
            ∧ layers_shaped d_in dims init
            ∧ nn.in_features l = List.last dims d_in
            ∧ nn.out_features l = o.
Proof.
  revert layers d_in. induction dims as [|d dims IH]; intros [|l layers] d_in Hshaped;
    try contradiction.
  - destruct layers; [|destruct Hshaped as (_ & _ & _ & [])].
    destruct Hshaped as (Hin & Hout & _ & _).
    exists [], l. repeat split; assumption.
  - destruct Hshaped as (Hin & Hout & Hb & Hrest).
    destruct (IH layers d Hrest) as (init & l' & -> & Hinit & Hin' & Hout').
    exists (l :: init), l'. split; [reflexivity|].
    split; [repeat split; assumption|]. split; [|exact Hout'].
    rewrite Hin', List_last_cons. reflexivity.
Qed.

Lemma cat1_three (n n' n'' a b c : nat) (A B C : torch.matrix F) :
  torch.cat1 [torch.T2 n a A; torch.T2 n' b B; torch.T2 n'' c C]
  = if decide (n' = n'') then
      if decide (n = n')
      then Ok (torch.T2 n (a + (b + c)) (zip_with app A (zip_with app B C)))
      else Raise RuntimeError
    else Raise RuntimeError.
Proof.
  cbn [torch.cat1 mbind result_bind].
  destruct (decide (n' = n'')); [|reflexivity].
  cbn [mbind result_bind]. reflexivity.
Qed.

Lemma forward_inputs (m : Model F) (users items : list Z) :
  scorable m users items →
  ∃ MD UE IE,
    length MD = length items ∧ length UE = length users ∧ length IE = length items
    ∧ forward mask m users items
      = (combined_output ←
           torch.cat1 [torch.T2 (length users) (user_embeddings_dim (hparams m)) UE;
                       torch.T2 (length items) (item_embeddings_dim (hparams m)) IE;
                       torch.T2 (length items) (metadata_output_dim (hparams m)) MD];
         combined_output ←
           hidden_layers mask false (length (default [] (metadata_layers m)))
                         (removelast (combined_layers m)) combined_output;
         last_layer ← match last (combined_layers m) with
                      | Some layer => Ok layer
                      | None => Raise IndexError
                      end;
         pred_scores ← nn.linear last_layer combined_output;
         Ok (torch.squeeze pred_scores)).
Proof.
  intros [Hwf Heval (r & md & Hmd & Hrows) Hut Hit Husers Hitems].
  destruct Hwf as [[Hun Hud] [Hin Hid] Hml _ _].
  destruct (index_Ok md items Hrows) as (rows & Hidx & Hall).
  pose proof (Forall2_length _ _ _ Hall) as Hrl.
  destruct (lookup_Ok (embeddings m).1 users Hut) as (UE & HUE & [HUEl _] & _).
  { rewrite Hun. exact Husers. }
  destruct (lookup_Ok (embeddings m).2 items Hit) as (IE & HIE & [HIEl _] & _).
  { rewrite Hin. exact Hitems. }
  rewrite Hud in HUE. rewrite Hid in HIE.
  assert (∃ MD,
    length MD = length items
    ∧ match metadata_layers m with
      | Some layers =>
          hidden_layers mask false 0 layers
            (torch.T2 (length items) (item_metadata_num_cols (hparams m)) rows)
      | None => Ok (torch.T2 (length items) (item_metadata_num_cols (hparams m)) rows)
      end = Ok (torch.T2 (length items) (metadata_output_dim (hparams m)) MD))
    as (MD & HMDl & HMD).
  { unfold metadata_output_dim.
    destruct (metadata_layers_dims (hparams m)) as [dims|],
             (metadata_layers m) as [layers|]; try contradiction.
    - destruct (hidden_layers_Ok dims layers _ 0 (length items) rows Hml) as (MD & -> & Hl).
      exists MD. split; [lia | reflexivity].
    - exists rows. split; [lia | reflexivity]. }
  exists MD, UE, IE. split; [exact HMDl|]. split; [exact HUEl|]. split; [exact HIEl|].
  unfold forward. rewrite Hmd, Heval. cbn [mbind result_bind torch.index_rows].
  rewrite Hidx. cbn [mbind result_bind]. rewrite HMD. cbn [mbind result_bind].
  rewrite HUE, HIE. reflexivity.
Qed.

(** X25: on a well-formed model outside training, with metadata of the
    recorded width, tables of their declared shapes, ids in range and as many
    users as items, [forward] returns: a batch of declared shape [(n, 1)],
    one row per pair, squeezed. *)
Theorem forward_returns (m : Model F) (users items : list Z) :
  scorable m users items →
  length users = length items →
  ∃ rows, forward mask m users items
          = Ok (torch.squeeze (torch.T2 (length users) 1 rows))
          ∧ length rows = length users.
Proof.
  intros Hsc Hlen.
  destruct (forward_inputs m users items Hsc) as (MD & UE & IE & HMD & HUE & HIE & ->).
  destruct Hsc as [[_ _ _ Hcl _] _ _ _ _ _ _].
  destruct (layers_shaped_snoc _ _ _ _ Hcl) as (init & l & Hlayers & Hinit & Hlin & Hlout).
  rewrite cat1_three, Hlen. rewrite !decide_True by reflexivity.
  cbn [mbind result_bind]. rewrite Hlayers, removelast_last, last_snoc.
  unfold combined_dimension_input in Hinit, Hlin.
  rewrite <- Nat.add_assoc in Hinit, Hlin.
  destruct (hidden_layers_Ok _ init _ (length (default [] (metadata_layers m)))
              (length items) (zip_with app UE (zip_with app IE MD)) Hinit)
    as (M' & -> & HM').
  cbn [mbind result_bind nn.linear]. rewrite decide_True by (symmetry; exact Hlin).
  cbn [mbind result_bind]. rewrite Hlout.
  eexists. split; [reflexivity|].
  rewrite length_fmap, HM', !length_zip_with. lia.
Qed.

(** X26: the three blocks are concatenated, not broadcast: with as many users
    as items required, [forward] raises [RuntimeError] on id arrays of two
    lengths, also when one of them has length 1. *)
Theorem forward_length_mismatch_hybrid (m : Model F) (users items : list Z) :
  scorable m users items →
  length users ≠ length items →
  forward mask m users items = Raise RuntimeError.
Proof.
  intros Hsc Hlen.
  destruct (forward_inputs m users items Hsc) as (MD & UE & IE & HMD & HUE & HIE & ->).
  rewrite cat1_three. rewrite decide_True by reflexivity.
  rewrite decide_False by exact Hlen. reflexivity.
Qed.

End scoring.

Lemma _setup_model_KeyError_witness :
  let nothing : Kwargs Z := {| kwargs_trained_model := None; kwargs_item_metadata := None |} in
  load_model_path (attr_hparams example_attributes) = None
  ∧ attr_trained_model example_attributes = None
  ∧ kwargs_trained_model nothing = None
  ∧ _setup_model example_attributes nothing example_rng = Raise (KeyError "trained_model").
Proof.
  intros nothing.
  split; [reflexivity|]. split; [reflexivity|]. split; [reflexivity|].
  exact (proj1 (proj2 (_setup_model_KeyError example_attributes nothing example_rng) eq_refl)
           eq_refl eq_refl).
Defined.

Lemma _setup_model_borrows_witness :
  load_model_path (attr_hparams example_attributes) = None
  ∧ ∃ m tm, _setup_model example_attributes example_kwargs example_rng = Ok m
      ∧ _trained_model m = Some tm
      ∧ table_flags m = (false, false).
Proof.
  split; [reflexivity|].
  assert (∃ m, _setup_model example_attributes example_kwargs example_rng = Ok m)
    as [m Hm] by (eexists; vm_compute; reflexivity).
  destruct (_setup_model_borrows example_attributes example_kwargs example_rng m eq_refl Hm)
    as (tm & Htm & _ & _ & _ & Hflags & _).
  exists m, tm. split; [exact Hm|]. split; [exact Htm|]. exact Hflags.
Defined.

Lemma _setup_model_shapes_witness :
  (is_Some (load_model_path (attr_hparams example_attributes)) →
   is_Some (attr_item_metadata example_attributes))
  ∧ ∃ m, _setup_model example_attributes example_kwargs example_rng = Ok m ∧ wf_model m.
Proof.
  assert (is_Some (load_model_path (attr_hparams example_attributes)) →
          is_Some (attr_item_metadata example_attributes)) as Hmd
    by (intros [p Hp]; discriminate Hp).
  split; [exact Hmd|].
  assert (∃ m, _setup_model example_attributes example_kwargs example_rng = Ok m)
    as [m Hm] by (eexists; vm_compute; reflexivity).
  exists m. split; [exact Hm|].
  exact (_setup_model_shapes example_attributes example_kwargs example_rng m Hmd Hm).
Defined.

Lemma save_model_twice_witness :
  let saved := save_model example_model "model" false ∅ in
  saved = (Ok (), saved.2)
  ∧ save_model example_model "model" false saved.2
    = (Raise (ValueError "Data exists in ``path`` at model and ``overwrite`` is False."),
       saved.2)
  ∧ save_model example_model "model" true saved.2 = (Ok (), saved.2).
Proof.
  intros saved.
  assert (saved = (Ok (), saved.2)) as Hsaved by (vm_compute; reflexivity).
  split; [exact Hsaved|].
  pose proof (save_model_twice example_model example_model "model" false ∅ saved.2 Hsaved)
    as Htwice.
  destruct Htwice as (Hno & Hyes & _). split; assumption.
Defined.

Lemma _load_model_init_helper_no_metadata_witness :
  let fs : FS Z := {["model" := {["model.pth" := Other "state"]}]} in
  default ∅ (fs !! "model") !! "metadata.pkl" = None
  ∧ _load_model_init_helper example_attributes "model" example_rng fs
    = Raise (FileNotFoundError "model/metadata.pkl").
Proof.
  intros fs.
  assert (default ∅ (fs !! "model") !! "metadata.pkl" = None) as Hno.
  { unfold fs. rewrite lookup_singleton_eq. simpl. apply lookup_singleton_ne. discriminate. }
  split; [exact Hno|].
  exact (_load_model_init_helper_no_metadata example_attributes "model" example_rng fs Hno).
Defined.

Lemma rebuilt_model_accepts_saved_state_witness :
  wf_model example_model
  ∧ ∃ m0 m1,
      _setup_model {| attr_hparams := set_load_model_path (hparams example_model) "model";
                      attr_item_metadata := item_metadata example_model;
                      attr_trained_model := None |}
                   {| kwargs_trained_model := None; kwargs_item_metadata := None |} other_rng
      = Ok m0
      ∧ load_state_dict m0 (state_dict_to_save example_model) = Ok m1
      ∧ state_dict m1 = state_dict_to_save example_model.
Proof.
  assert (wf_model example_model) as Hwf by shapes_by_computation.
  split; [exact Hwf|].
  destruct (rebuilt_model_accepts_saved_state example_model "model" other_rng Hwf)
    as (m0 & m1 & Hsetup & Hload & Hsd & _).
  exists m0, m1. auto.
Defined.

Lemma _get_item_embeddings_rows_witness :
  nn.wf_embedding (embeddings example_model).2
  ∧ (num_items (hparams example_model) ≤ nn.num_embeddings (embeddings example_model).2)%nat
  ∧ _get_item_embeddings example_model = Ok (torch.T2 3 2 [[5; 6]; [7; 8]; [9; 10]]).
Proof.
  assert (nn.wf_embedding (embeddings example_model).2) as Hwf
    by (split; [reflexivity | repeat constructor]).
  assert (num_items (hparams example_model)
          ≤ nn.num_embeddings (embeddings example_model).2)%nat as Hle
    by (vm_compute; lia).
  split; [exact Hwf|]. split; [exact Hle|].
  exact (proj1 (_get_item_embeddings_rows example_model Hwf) Hle).
Defined.

Ltac scorable_by_computation :=
  split;
  [ shapes_by_computation
  | reflexivity
  | eexists; eexists; split; [vm_compute; reflexivity | repeat constructor; simpl; lia]
  | split; [reflexivity | repeat constructor]
  | split; [reflexivity | repeat constructor]
  | repeat constructor; simpl; lia
  | repeat constructor; simpl; lia ].

Lemma forward_returns_witness :
  scorable example_model [0; 1] [1; 2]
  ∧ length [0; 1] = length [1; 2]
  ∧ ∃ rows, forward (λ _ t, t) example_model [0; 1] [1; 2]
            = Ok (torch.squeeze (torch.T2 2 1 rows)).
Proof.
  assert (scorable example_model [0; 1] [1; 2]) as Hsc
    by scorable_by_computation.
  split; [exact Hsc|]. split; [reflexivity|].
  destruct (forward_returns (λ _ t, t) example_model [0; 1] [1; 2] Hsc eq_refl)
    as (rows & Hrun & _).
  exists rows. exact Hrun.
Defined.

Lemma forward_length_mismatch_hybrid_witness :
  scorable example_model [0] [1; 2]
  ∧ length [0] ≠ length [1; 2]
  ∧ forward (λ _ t, t) example_model [0] [1; 2] = Raise RuntimeError.
Proof.
  assert (scorable example_model [0] [1; 2]) as Hsc
    by scorable_by_computation.
  assert (length [0] ≠ length [1; 2]) as Hne by discriminate.
  split; [exact Hsc|]. split; [exact Hne|].
  exact (forward_length_mismatch_hybrid (λ _ t, t) example_model [0] [1; 2] Hsc Hne).
Defined.

End HybridPretrainedModel_properties.
